(** * The isolated test runtime (packages/jest-runtime/src/index.js)

    A shallow embedding of the [Runtime] class: its registries, its mock
    policy tables and the operations that load, execute and mock modules.
    Objects that JavaScript shares by reference (module registries, mock
    registries, module objects, exports objects) live in explicit stores
    and are named by their index, so that aliasing is visible.  The
    collaborators the class receives (resolver, script transformer, module
    mocker, host file system and [path]) are interfaces. *)

From Stdlib Require Import ZArith Ascii String.
From stdpp Require Import gmap strings list.

Open Scope string_scope.

(** ** Values and errors *)

(** Values that user modules exchange through [exports] and [require]. *)
Inductive value :=
| VUndefined
| VNull
| VBool (b : bool)
| VNum (z : Z)
| VStr (s : string)
| VObj (o : nat)            (* a plain object, by reference into [objects] *)
| VMockFn (calls : nat)     (* a mock function with its recorded calls *)
| VHost (name : string).    (* an object owned by the host (core module, process) *)

(** JavaScript truthiness of a value. *)
Definition truthy (v : value) : bool :=
  match v with
  | VUndefined | VNull => false
  | VBool b => b
  | VNum z => negb (z =? 0)%Z
  | VStr s => negb (String.eqb s "")
  | VObj _ | VMockFn _ | VHost _ => true
  end.

(** Truthiness of a [?string]: [null], [undefined] and [''] are falsy. *)
Definition truthy_str (s : option string) : bool :=
  match s with
  | Some s => negb (String.eqb s "")
  | None => false
  end.

(** A thrown [Error]: its [code] property, when it has one, and its message. *)
Record JsError := mkError { code : option string; message : string }.

Definition Error (msg : string) : JsError := mkError None msg.
Definition TypeError (msg : string) : JsError := mkError None ("TypeError: " +:+ msg).

(** How a call ends: it returns, it throws, or the fuel of the model ran out
    (the call did not finish within the allotted number of nested calls). *)
Inductive outcome (A : Type) :=
| Ok (a : A)
| Throw (e : JsError)
| OutOfFuel.
Arguments Ok {A} a.
Arguments Throw {A} e.
Arguments OutOfFuel {A}.

(** ** User code

    What a transformed script does when the sandbox runs its wrapper with
    [(module, exports, require, __dirname, __filename, global, jest)]: the
    statements through which module code reaches the runtime. *)

Inductive expr :=
| EValue (v : value)
| ERequire (request : string)              (* require(request) *)
| ERequireActual (request : string)        (* jest.requireActual(request) *)
| ERequireMock (request : string)          (* jest.requireMock(request) *)
| EGenMockFromModule (request : string)    (* jest.genMockFromModule(request) *)
| EModuleExports                           (* module.exports *)
| EExports                                 (* exports *)
| EMember (e : expr) (k : string).         (* e.k *)

#[warnings="-register-all"]
Inductive stmt :=
| SExpr (e : expr)
| SAssignMember (target : expr) (k : string) (e : expr)   (* target.k = e *)
| SAssignModuleExports (e : expr)                         (* module.exports = e *)
| SThrow (msg : string)                                   (* throw new Error(msg) *)
| STry (body handler : list stmt)                         (* try {body} catch {handler} *)
| SJestDisableAutomock
| SJestEnableAutomock
| SJestUnmock (moduleName : string)
| SJestDeepUnmock (moduleName : string)
| SJestMock (moduleName : string) (mockFactory : option expr) (virtual : bool)
| SJestSetMock (moduleName : string) (mock : expr)
| SJestResetModules
| SJestIsolateModules (fn : list stmt).

(** The synthetic arguments a wrapper closes over. *)
Record Scope := mkScope {
  sc_module : nat;          (* module: the module object *)
  sc_exports : value;       (* exports: module.exports as it was at the call *)
  sc_filename : string;     (* __filename, also the [from] of require and jest *)
  sc_internal : bool        (* whether require is requireInternalModule *)
}.

(** A user-supplied mock factory: the body of [() => e] and the scope it
    closes over. *)
Record MockFactory := mkFactory { mf_body : expr; mf_scope : Scope }.

(** ** Data model *)

(** A reference to a registry object: a module registry or a mock registry. *)
Inductive RegistryRef :=
| ModuleRegistry (l : nat)
| MockRegistry (l : nat).

(** [type Module]; [parent] is the getter installed by [_execModule]: the
    registry it closes over and the key it looks up at read time. *)
Record Module := mkModule {
  children : list nat;
  exports : value;
  filename : string;
  id : string;
  loaded : bool;
  parent : option (RegistryRef * string);
  paths : option (list string);
  require : option (string * bool)
}.

Definition Module_set_exports (v : value) (m : Module) : Module :=
  mkModule (children m) v (filename m) (id m) (loaded m) (parent m) (paths m) (require m).

Definition Module_set_loaded (b : bool) (m : Module) : Module :=
  mkModule (children m) (exports m) (filename m) (id m) b (parent m) (paths m) (require m).

(** What [_execModule] installs on the module object: [children = []], the
    [parent] getter, [paths] and [require]. *)
Definition Module_install (p : RegistryRef * string) (ps : list string)
    (r : string * bool) (m : Module) : Module :=
  mkModule [] (exports m) (filename m) (id m) (loaded m) (Some p) (Some ps) (Some r).

(** The sandbox: [global] is absent once the environment is disposed,
    [runScript] answers [null] once the context is gone, [fakeTimers] holds
    the number of pending timers. *)
Record Environment := mkEnvironment {
  global : option (gmap string value);
  context : bool;
  fakeTimers : option nat
}.

Record MockFunctionMetadata := mkMetadata {
  md_type : string;
  md_members : list string
}.

Record TransformResult := mkTransformResult {
  script : list stmt;
  sourceMapPath : option string;
  mapCoverage : bool
}.

Record ProjectConfig := mkConfig {
  automock : bool;
  extraGlobals : option (list string);
  moduleFileExtensions : list string;
  setupFiles : list string;
  unmockedModulePathPatterns : option (list string)
}.

Record InternalModuleOptions := mkOptions { isInternalModule : bool }.

(** ** Collaborators *)

Class Resolver := {
  resolveModule : string → string → JsError + string;
  isCoreModule : string → bool;
  getModule : string → option string;
  getMockModule : string → string → option string;
  getModuleID : gmap string bool → string → option string → string;
  getModulePath : string → string → string;
  getModulePaths : string → list string;
  resolveStubModuleName : string → string → option string
}.

Class ScriptTransformer := {
  transform : string → bool → JsError + TransformResult
}.

Class ModuleMocker := {
  getMetadata : list (gmap string value) → value → option MockFunctionMetadata;
  generateFromMetadata :
    MockFunctionMetadata → list (gmap string value) → value * list (gmap string value)
}.

(** The host: [path], [fs], regular expressions, the native [require] and
    the helper of [./helpers]. *)
Class Host := {
  path_sep : string;
  path_delimiter : string;
  path_extname : string → string;
  path_dirname : string → string;
  path_basename : string → string;
  path_join : list string → string;
  path_resolve : list string → string;
  fs_existsSync : string → bool;
  fs_readFileSync : string → JsError + string;
  stripBOM : string → string;
  JSON_parse : string → JsError + value;
  native_require : string → JsError + value;
  RegExp_test : string → string → bool;
  findSiblingsWithFileExtension : list string → string → string → string
}.

(** ** The runtime instance

    The fields of [class Runtime] that change, followed by the stores of
    the objects they refer to, and the two pieces of the process a module
    load can touch ([process.exitCode], [console.error]).  [executed] is
    the sandbox's record of the wrappers it has invoked, in order. *)

Record Runtime := mkRuntime {
  _currentlyExecutingModulePath : string;
  _environment : Environment;
  _explicitShouldMock : gmap string bool;
  _internalModuleRegistry : nat;
  _isCurrentlyExecutingManualMock : option string;
  _mockFactories : gmap string MockFactory;
  _mockMetaDataCache : gmap string (option MockFunctionMetadata);
  _mockRegistry : nat;
  _isolatedMockRegistry : option nat;
  _isolatedModuleRegistry : option nat;
  _moduleRegistry : nat;
  _needsCoverageMapped : gset string;
  _shouldAutoMock : bool;
  _shouldMockModuleCache : gmap string bool;
  _shouldUnmockTransitiveDependenciesCache : gmap string bool;
  _sourceMapRegistry : gmap string string;
  _transitiveShouldMock : gmap string bool;
  _unmockList : option string;
  _virtualMocks : gmap string bool;
  moduleRegistries : list (gmap string nat);
  mockRegistries : list (gmap string value);
  modules : list Module;
  objects : list (gmap string value);
  process_exitCode : option Z;
  console_error : list string;
  executed : list string
}.

(** Field updates: [set_f v r] is [r] with [f := v]. *)

Definition set_currentlyExecutingModulePath (v : string) (r : Runtime) : Runtime :=
  mkRuntime v (_environment r) (_explicitShouldMock r) (_internalModuleRegistry r)
    (_isCurrentlyExecutingManualMock r) (_mockFactories r) (_mockMetaDataCache r)
    (_mockRegistry r) (_isolatedMockRegistry r) (_isolatedModuleRegistry r)
    (_moduleRegistry r) (_needsCoverageMapped r) (_shouldAutoMock r)
    (_shouldMockModuleCache r) (_shouldUnmockTransitiveDependenciesCache r)
    (_sourceMapRegistry r) (_transitiveShouldMock r) (_unmockList r) (_virtualMocks r)
    (moduleRegistries r) (mockRegistries r) (modules r) (objects r) (process_exitCode r)
    (console_error r) (executed r).

Definition set_environment (v : Environment) (r : Runtime) : Runtime :=
  mkRuntime (_currentlyExecutingModulePath r) v (_explicitShouldMock r)
    (_internalModuleRegistry r) (_isCurrentlyExecutingManualMock r) (_mockFactories r)
    (_mockMetaDataCache r) (_mockRegistry r) (_isolatedMockRegistry r)
    (_isolatedModuleRegistry r) (_moduleRegistry r) (_needsCoverageMapped r)
    (_shouldAutoMock r) (_shouldMockModuleCache r)
    (_shouldUnmockTransitiveDependenciesCache r) (_sourceMapRegistry r)
    (_transitiveShouldMock r) (_unmockList r) (_virtualMocks r) (moduleRegistries r)
    (mockRegistries r) (modules r) (objects r) (process_exitCode r) (console_error r)
    (executed r).

Definition set_explicitShouldMock (v : gmap string bool) (r : Runtime) : Runtime :=
  mkRuntime (_currentlyExecutingModulePath r) (_environment r) v
    (_internalModuleRegistry r) (_isCurrentlyExecutingManualMock r) (_mockFactories r)
    (_mockMetaDataCache r) (_mockRegistry r) (_isolatedMockRegistry r)
    (_isolatedModuleRegistry r) (_moduleRegistry r) (_needsCoverageMapped r)
    (_shouldAutoMock r) (_shouldMockModuleCache r)
    (_shouldUnmockTransitiveDependenciesCache r) (_sourceMapRegistry r)
    (_transitiveShouldMock r) (_unmockList r) (_virtualMocks r) (moduleRegistries r)
    (mockRegistries r) (modules r) (objects r) (process_exitCode r) (console_error r)
    (executed r).

Definition set_internalModuleRegistry (v : nat) (r : Runtime) : Runtime :=
  mkRuntime (_currentlyExecutingModulePath r) (_environment r) (_explicitShouldMock r) v
    (_isCurrentlyExecutingManualMock r) (_mockFactories r) (_mockMetaDataCache r)
    (_mockRegistry r) (_isolatedMockRegistry r) (_isolatedModuleRegistry r)
    (_moduleRegistry r) (_needsCoverageMapped r) (_shouldAutoMock r)
    (_shouldMockModuleCache r) (_shouldUnmockTransitiveDependenciesCache r)
    (_sourceMapRegistry r) (_transitiveShouldMock r) (_unmockList r) (_virtualMocks r)
    (moduleRegistries r) (mockRegistries r) (modules r) (objects r) (process_exitCode r)
    (console_error r) (executed r).

Definition set_isCurrentlyExecutingManualMock (v : option string) (r : Runtime) : Runtime :=
  mkRuntime (_currentlyExecutingModulePath r) (_environment r) (_explicitShouldMock r)
    (_internalModuleRegistry r) v (_mockFactories r) (_mockMetaDataCache r)
    (_mockRegistry r) (_isolatedMockRegistry r) (_isolatedModuleRegistry r)
    (_moduleRegistry r) (_needsCoverageMapped r) (_shouldAutoMock r)
    (_shouldMockModuleCache r) (_shouldUnmockTransitiveDependenciesCache r)
    (_sourceMapRegistry r) (_transitiveShouldMock r) (_unmockList r) (_virtualMocks r)
    (moduleRegistries r) (mockRegistries r) (modules r) (objects r) (process_exitCode r)
    (console_error r) (executed r).

Definition set_mockFactories (v : gmap string MockFactory) (r : Runtime) : Runtime :=
  mkRuntime (_currentlyExecutingModulePath r) (_environment r) (_explicitShouldMock r)
    (_internalModuleRegistry r) (_isCurrentlyExecutingManualMock r) v
    (_mockMetaDataCache r) (_mockRegistry r) (_isolatedMockRegistry r)
    (_isolatedModuleRegistry r) (_moduleRegistry r) (_needsCoverageMapped r)
    (_shouldAutoMock r) (_shouldMockModuleCache r)
    (_shouldUnmockTransitiveDependenciesCache r) (_sourceMapRegistry r)
    (_transitiveShouldMock r) (_unmockList r) (_virtualMocks r) (moduleRegistries r)
    (mockRegistries r) (modules r) (objects r) (process_exitCode r) (console_error r)
    (executed r).

Definition set_mockMetaDataCache (v : gmap string (option MockFunctionMetadata)) (r : Runtime) : Runtime :=
  mkRuntime (_currentlyExecutingModulePath r) (_environment r) (_explicitShouldMock r)
    (_internalModuleRegistry r) (_isCurrentlyExecutingManualMock r) (_mockFactories r) v
    (_mockRegistry r) (_isolatedMockRegistry r) (_isolatedModuleRegistry r)
    (_moduleRegistry r) (_needsCoverageMapped r) (_shouldAutoMock r)
    (_shouldMockModuleCache r) (_shouldUnmockTransitiveDependenciesCache r)
    (_sourceMapRegistry r) (_transitiveShouldMock r) (_unmockList r) (_virtualMocks r)
    (moduleRegistries r) (mockRegistries r) (modules r) (objects r) (process_exitCode r)
    (console_error r) (executed r).

Definition set_mockRegistry (v : nat) (r : Runtime) : Runtime :=
  mkRuntime (_currentlyExecutingModulePath r) (_environment r) (_explicitShouldMock r)
    (_internalModuleRegistry r) (_isCurrentlyExecutingManualMock r) (_mockFactories r)
    (_mockMetaDataCache r) v (_isolatedMockRegistry r) (_isolatedModuleRegistry r)
    (_moduleRegistry r) (_needsCoverageMapped r) (_shouldAutoMock r)
    (_shouldMockModuleCache r) (_shouldUnmockTransitiveDependenciesCache r)
    (_sourceMapRegistry r) (_transitiveShouldMock r) (_unmockList r) (_virtualMocks r)
    (moduleRegistries r) (mockRegistries r) (modules r) (objects r) (process_exitCode r)
    (console_error r) (executed r).

Definition set_isolatedMockRegistry (v : option nat) (r : Runtime) : Runtime :=
  mkRuntime (_currentlyExecutingModulePath r) (_environment r) (_explicitShouldMock r)
    (_internalModuleRegistry r) (_isCurrentlyExecutingManualMock r) (_mockFactories r)
    (_mockMetaDataCache r) (_mockRegistry r) v (_isolatedModuleRegistry r)
    (_moduleRegistry r) (_needsCoverageMapped r) (_shouldAutoMock r)
    (_shouldMockModuleCache r) (_shouldUnmockTransitiveDependenciesCache r)
    (_sourceMapRegistry r) (_transitiveShouldMock r) (_unmockList r) (_virtualMocks r)
    (moduleRegistries r) (mockRegistries r) (modules r) (objects r) (process_exitCode r)
    (console_error r) (executed r).

Definition set_isolatedModuleRegistry (v : option nat) (r : Runtime) : Runtime :=
  mkRuntime (_currentlyExecutingModulePath r) (_environment r) (_explicitShouldMock r)
    (_internalModuleRegistry r) (_isCurrentlyExecutingManualMock r) (_mockFactories r)
    (_mockMetaDataCache r) (_mockRegistry r) (_isolatedMockRegistry r) v
    (_moduleRegistry r) (_needsCoverageMapped r) (_shouldAutoMock r)
    (_shouldMockModuleCache r) (_shouldUnmockTransitiveDependenciesCache r)
    (_sourceMapRegistry r) (_transitiveShouldMock r) (_unmockList r) (_virtualMocks r)
    (moduleRegistries r) (mockRegistries r) (modules r) (objects r) (process_exitCode r)
    (console_error r) (executed r).

Definition set_moduleRegistry (v : nat) (r : Runtime) : Runtime :=
  mkRuntime (_currentlyExecutingModulePath r) (_environment r) (_explicitShouldMock r)
    (_internalModuleRegistry r) (_isCurrentlyExecutingManualMock r) (_mockFactories r)
    (_mockMetaDataCache r) (_mockRegistry r) (_isolatedMockRegistry r)
    (_isolatedModuleRegistry r) v (_needsCoverageMapped r) (_shouldAutoMock r)
    (_shouldMockModuleCache r) (_shouldUnmockTransitiveDependenciesCache r)
    (_sourceMapRegistry r) (_transitiveShouldMock r) (_unmockList r) (_virtualMocks r)
    (moduleRegistries r) (mockRegistries r) (modules r) (objects r) (process_exitCode r)
    (console_error r) (executed r).

Definition set_needsCoverageMapped (v : gset string) (r : Runtime) : Runtime :=
  mkRuntime (_currentlyExecutingModulePath r) (_environment r) (_explicitShouldMock r)
    (_internalModuleRegistry r) (_isCurrentlyExecutingManualMock r) (_mockFactories r)
    (_mockMetaDataCache r) (_mockRegistry r) (_isolatedMockRegistry r)
    (_isolatedModuleRegistry r) (_moduleRegistry r) v (_shouldAutoMock r)
    (_shouldMockModuleCache r) (_shouldUnmockTransitiveDependenciesCache r)
    (_sourceMapRegistry r) (_transitiveShouldMock r) (_unmockList r) (_virtualMocks r)
    (moduleRegistries r) (mockRegistries r) (modules r) (objects r) (process_exitCode r)
    (console_error r) (executed r).

Definition set_shouldAutoMock (v : bool) (r : Runtime) : Runtime :=
  mkRuntime (_currentlyExecutingModulePath r) (_environment r) (_explicitShouldMock r)
    (_internalModuleRegistry r) (_isCurrentlyExecutingManualMock r) (_mockFactories r)
    (_mockMetaDataCache r) (_mockRegistry r) (_isolatedMockRegistry r)
    (_isolatedModuleRegistry r) (_moduleRegistry r) (_needsCoverageMapped r) v
    (_shouldMockModuleCache r) (_shouldUnmockTransitiveDependenciesCache r)
    (_sourceMapRegistry r) (_transitiveShouldMock r) (_unmockList r) (_virtualMocks r)
    (moduleRegistries r) (mockRegistries r) (modules r) (objects r) (process_exitCode r)
    (console_error r) (executed r).

Definition set_shouldMockModuleCache (v : gmap string bool) (r : Runtime) : Runtime :=
  mkRuntime (_currentlyExecutingModulePath r) (_environment r) (_explicitShouldMock r)
    (_internalModuleRegistry r) (_isCurrentlyExecutingManualMock r) (_mockFactories r)
    (_mockMetaDataCache r) (_mockRegistry r) (_isolatedMockRegistry r)
    (_isolatedModuleRegistry r) (_moduleRegistry r) (_needsCoverageMapped r)
    (_shouldAutoMock r) v (_shouldUnmockTransitiveDependenciesCache r)
    (_sourceMapRegistry r) (_transitiveShouldMock r) (_unmockList r) (_virtualMocks r)
    (moduleRegistries r) (mockRegistries r) (modules r) (objects r) (process_exitCode r)
    (console_error r) (executed r).

Definition set_shouldUnmockTransitiveDependenciesCache (v : gmap string bool) (r : Runtime) : Runtime :=
  mkRuntime (_currentlyExecutingModulePath r) (_environment r) (_explicitShouldMock r)
    (_internalModuleRegistry r) (_isCurrentlyExecutingManualMock r) (_mockFactories r)
    (_mockMetaDataCache r) (_mockRegistry r) (_isolatedMockRegistry r)
    (_isolatedModuleRegistry r) (_moduleRegistry r) (_needsCoverageMapped r)
    (_shouldAutoMock r) (_shouldMockModuleCache r) v (_sourceMapRegistry r)
    (_transitiveShouldMock r) (_unmockList r) (_virtualMocks r) (moduleRegistries r)
    (mockRegistries r) (modules r) (objects r) (process_exitCode r) (console_error r)
    (executed r).

Definition set_sourceMapRegistry (v : gmap string string) (r : Runtime) : Runtime :=
  mkRuntime (_currentlyExecutingModulePath r) (_environment r) (_explicitShouldMock r)
    (_internalModuleRegistry r) (_isCurrentlyExecutingManualMock r) (_mockFactories r)
    (_mockMetaDataCache r) (_mockRegistry r) (_isolatedMockRegistry r)
    (_isolatedModuleRegistry r) (_moduleRegistry r) (_needsCoverageMapped r)
    (_shouldAutoMock r) (_shouldMockModuleCache r)
    (_shouldUnmockTransitiveDependenciesCache r) v (_transitiveShouldMock r)
    (_unmockList r) (_virtualMocks r) (moduleRegistries r) (mockRegistries r) (modules
    r) (objects r) (process_exitCode r) (console_error r) (executed r).

Definition set_transitiveShouldMock (v : gmap string bool) (r : Runtime) : Runtime :=
  mkRuntime (_currentlyExecutingModulePath r) (_environment r) (_explicitShouldMock r)
    (_internalModuleRegistry r) (_isCurrentlyExecutingManualMock r) (_mockFactories r)
    (_mockMetaDataCache r) (_mockRegistry r) (_isolatedMockRegistry r)
    (_isolatedModuleRegistry r) (_moduleRegistry r) (_needsCoverageMapped r)
    (_shouldAutoMock r) (_shouldMockModuleCache r)
    (_shouldUnmockTransitiveDependenciesCache r) (_sourceMapRegistry r) v (_unmockList
    r) (_virtualMocks r) (moduleRegistries r) (mockRegistries r) (modules r) (objects r)
    (process_exitCode r) (console_error r) (executed r).

Definition set_unmockList (v : option string) (r : Runtime) : Runtime :=
  mkRuntime (_currentlyExecutingModulePath r) (_environment r) (_explicitShouldMock r)
    (_internalModuleRegistry r) (_isCurrentlyExecutingManualMock r) (_mockFactories r)
    (_mockMetaDataCache r) (_mockRegistry r) (_isolatedMockRegistry r)
    (_isolatedModuleRegistry r) (_moduleRegistry r) (_needsCoverageMapped r)
    (_shouldAutoMock r) (_shouldMockModuleCache r)
    (_shouldUnmockTransitiveDependenciesCache r) (_sourceMapRegistry r)
    (_transitiveShouldMock r) v (_virtualMocks r) (moduleRegistries r) (mockRegistries
    r) (modules r) (objects r) (process_exitCode r) (console_error r) (executed r).

Definition set_virtualMocks (v : gmap string bool) (r : Runtime) : Runtime :=
  mkRuntime (_currentlyExecutingModulePath r) (_environment r) (_explicitShouldMock r)
    (_internalModuleRegistry r) (_isCurrentlyExecutingManualMock r) (_mockFactories r)
    (_mockMetaDataCache r) (_mockRegistry r) (_isolatedMockRegistry r)
    (_isolatedModuleRegistry r) (_moduleRegistry r) (_needsCoverageMapped r)
    (_shouldAutoMock r) (_shouldMockModuleCache r)
    (_shouldUnmockTransitiveDependenciesCache r) (_sourceMapRegistry r)
    (_transitiveShouldMock r) (_unmockList r) v (moduleRegistries r) (mockRegistries r)
    (modules r) (objects r) (process_exitCode r) (console_error r) (executed r).

Definition set_moduleRegistries (v : list (gmap string nat)) (r : Runtime) : Runtime :=
  mkRuntime (_currentlyExecutingModulePath r) (_environment r) (_explicitShouldMock r)
    (_internalModuleRegistry r) (_isCurrentlyExecutingManualMock r) (_mockFactories r)
    (_mockMetaDataCache r) (_mockRegistry r) (_isolatedMockRegistry r)
    (_isolatedModuleRegistry r) (_moduleRegistry r) (_needsCoverageMapped r)
    (_shouldAutoMock r) (_shouldMockModuleCache r)
    (_shouldUnmockTransitiveDependenciesCache r) (_sourceMapRegistry r)
    (_transitiveShouldMock r) (_unmockList r) (_virtualMocks r) v (mockRegistries r)
    (modules r) (objects r) (process_exitCode r) (console_error r) (executed r).

Definition set_mockRegistries (v : list (gmap string value)) (r : Runtime) : Runtime :=
  mkRuntime (_currentlyExecutingModulePath r) (_environment r) (_explicitShouldMock r)
    (_internalModuleRegistry r) (_isCurrentlyExecutingManualMock r) (_mockFactories r)
    (_mockMetaDataCache r) (_mockRegistry r) (_isolatedMockRegistry r)
    (_isolatedModuleRegistry r) (_moduleRegistry r) (_needsCoverageMapped r)
    (_shouldAutoMock r) (_shouldMockModuleCache r)
    (_shouldUnmockTransitiveDependenciesCache r) (_sourceMapRegistry r)
    (_transitiveShouldMock r) (_unmockList r) (_virtualMocks r) (moduleRegistries r) v
    (modules r) (objects r) (process_exitCode r) (console_error r) (executed r).

Definition set_modules (v : list Module) (r : Runtime) : Runtime :=
  mkRuntime (_currentlyExecutingModulePath r) (_environment r) (_explicitShouldMock r)
    (_internalModuleRegistry r) (_isCurrentlyExecutingManualMock r) (_mockFactories r)
    (_mockMetaDataCache r) (_mockRegistry r) (_isolatedMockRegistry r)
    (_isolatedModuleRegistry r) (_moduleRegistry r) (_needsCoverageMapped r)
    (_shouldAutoMock r) (_shouldMockModuleCache r)
    (_shouldUnmockTransitiveDependenciesCache r) (_sourceMapRegistry r)
    (_transitiveShouldMock r) (_unmockList r) (_virtualMocks r) (moduleRegistries r)
    (mockRegistries r) v (objects r) (process_exitCode r) (console_error r) (executed r).

Definition set_objects (v : list (gmap string value)) (r : Runtime) : Runtime :=
  mkRuntime (_currentlyExecutingModulePath r) (_environment r) (_explicitShouldMock r)
    (_internalModuleRegistry r) (_isCurrentlyExecutingManualMock r) (_mockFactories r)
    (_mockMetaDataCache r) (_mockRegistry r) (_isolatedMockRegistry r)
    (_isolatedModuleRegistry r) (_moduleRegistry r) (_needsCoverageMapped r)
    (_shouldAutoMock r) (_shouldMockModuleCache r)
    (_shouldUnmockTransitiveDependenciesCache r) (_sourceMapRegistry r)
    (_transitiveShouldMock r) (_unmockList r) (_virtualMocks r) (moduleRegistries r)
    (mockRegistries r) (modules r) v (process_exitCode r) (console_error r) (executed r).

Definition set_process_exitCode (v : option Z) (r : Runtime) : Runtime :=
  mkRuntime (_currentlyExecutingModulePath r) (_environment r) (_explicitShouldMock r)
    (_internalModuleRegistry r) (_isCurrentlyExecutingManualMock r) (_mockFactories r)
    (_mockMetaDataCache r) (_mockRegistry r) (_isolatedMockRegistry r)
    (_isolatedModuleRegistry r) (_moduleRegistry r) (_needsCoverageMapped r)
    (_shouldAutoMock r) (_shouldMockModuleCache r)
    (_shouldUnmockTransitiveDependenciesCache r) (_sourceMapRegistry r)
    (_transitiveShouldMock r) (_unmockList r) (_virtualMocks r) (moduleRegistries r)
    (mockRegistries r) (modules r) (objects r) v (console_error r) (executed r).

Definition set_console_error (v : list string) (r : Runtime) : Runtime :=
  mkRuntime (_currentlyExecutingModulePath r) (_environment r) (_explicitShouldMock r)
    (_internalModuleRegistry r) (_isCurrentlyExecutingManualMock r) (_mockFactories r)
    (_mockMetaDataCache r) (_mockRegistry r) (_isolatedMockRegistry r)
    (_isolatedModuleRegistry r) (_moduleRegistry r) (_needsCoverageMapped r)
    (_shouldAutoMock r) (_shouldMockModuleCache r)
    (_shouldUnmockTransitiveDependenciesCache r) (_sourceMapRegistry r)
    (_transitiveShouldMock r) (_unmockList r) (_virtualMocks r) (moduleRegistries r)
    (mockRegistries r) (modules r) (objects r) (process_exitCode r) v (executed r).

Definition set_executed (v : list string) (r : Runtime) : Runtime :=
  mkRuntime (_currentlyExecutingModulePath r) (_environment r) (_explicitShouldMock r)
    (_internalModuleRegistry r) (_isCurrentlyExecutingManualMock r) (_mockFactories r)
    (_mockMetaDataCache r) (_mockRegistry r) (_isolatedMockRegistry r)
    (_isolatedModuleRegistry r) (_moduleRegistry r) (_needsCoverageMapped r)
    (_shouldAutoMock r) (_shouldMockModuleCache r)
    (_shouldUnmockTransitiveDependenciesCache r) (_sourceMapRegistry r)
    (_transitiveShouldMock r) (_unmockList r) (_virtualMocks r) (moduleRegistries r)
    (mockRegistries r) (modules r) (objects r) (process_exitCode r) (console_error r) v.


(** [String.prototype.includes]. *)
Fixpoint includes (needle s : string) : bool :=
  String.prefix needle s ||
  match s with
  | EmptyString => false
  | String _ s' => includes needle s'
  end.

(** The state-and-completion monad the methods run in. *)
Definition M (A : Type) : Type := Runtime → outcome A * Runtime.

Definition ret {A} (a : A) : M A := λ st, (Ok a, st).
Definition throw {A} (e : JsError) : M A := λ st, (Throw e, st).
Definition bind {A B} (m : M A) (k : A → M B) : M B := λ st,
  match m st with
  | (Ok a, st') => k a st'
  | (Throw e, st') => (Throw e, st')
  | (OutOfFuel, st') => (OutOfFuel, st')
  end.
Definition gets {A} (f : Runtime → A) : M A := λ st, (Ok (f st), st).
Definition modify (f : Runtime → Runtime) : M unit := λ st, (Ok tt, f st).
(** [try { m } catch (e) { h e }]; running out of fuel is not catchable. *)
Definition try_catch {A} (m : M A) (h : JsError → M A) : M A := λ st,
  match m st with
  | (Throw e, st') => h e st'
  | r => r
  end.

Notation "'let*' x ':=' m 'in' k" := (bind m (λ x, k))
  (at level 10, x name, m at level 100, k at level 200, only parsing).
Notation "'do*' m 'in' k" := (bind m (λ _, k))
  (at level 10, m at level 100, k at level 200, only parsing).

(** The value of the first rule whose guard holds. *)
Fixpoint first_match {A} (rules : list (bool * A)) (otherwise : A) : A :=
  match rules with
  | [] => otherwise
  | (guard, a) :: rest => if guard then a else first_match rest otherwise
  end.

Section Runtime.
Context `{Resolver} `{ScriptTransformer} `{ModuleMocker} `{Host}.
Variable config : ProjectConfig.

Definition NODE_MODULES : string := path_sep +:+ "node_modules" +:+ path_sep.

(** [regExp && regExp.test(s)] *)
Definition unmockList_test (st : Runtime) (s : string) : bool :=
  match _unmockList st with
  | Some re => RegExp_test re s
  | None => false
  end.

Definition _resolveModule (from : string) (to : option string) : JsError + string :=
  match to with
  | Some t => if truthy_str to then resolveModule from t else inr from
  | None => inr from
  end.

(** [this._shouldMockModuleCache[moduleID] = b] *)
Definition memoize (moduleID : string) (b : bool) (st : Runtime) : Runtime :=
  set_shouldMockModuleCache (<[moduleID := b]> (_shouldMockModuleCache st)) st.

(** [this._transitiveShouldMock[moduleID] = false;
     this._shouldUnmockTransitiveDependenciesCache[key] = true] *)
Definition record_transitive_unmock (key moduleID : string) (st : Runtime) : Runtime :=
  set_shouldUnmockTransitiveDependenciesCache
    (<[key := true]> (_shouldUnmockTransitiveDependenciesCache st))
    (set_transitiveShouldMock (<[moduleID := false]> (_transitiveShouldMock st)) st).

Definition _shouldMock (from moduleName : string) : M bool := λ st,
  let mockPath := getModulePath from moduleName in
  if bool_decide (is_Some (_virtualMocks st !! mockPath)) then (Ok true, st) else
  let explicitShouldMock := _explicitShouldMock st in
  let moduleID := getModuleID (_virtualMocks st) from (Some moduleName) in
  let key := from +:+ path_delimiter +:+ moduleID in
  match explicitShouldMock !! moduleID with
  | Some b => (Ok b, st)
  | None =>
    if negb (_shouldAutoMock st)
       || isCoreModule moduleName
       || bool_decide (_shouldUnmockTransitiveDependenciesCache st !! key = Some true)
    then (Ok false, st) else
    match _shouldMockModuleCache st !! moduleID with
    | Some b => (Ok b, st)
    | None =>
      match _resolveModule from (Some moduleName) with
      | inl e =>
        let manualMock := getMockModule from moduleName in
        if truthy_str manualMock then
          (Ok true, memoize moduleID true st)
        else (Throw e, st)
      | inr modulePath =>
        if unmockList_test st modulePath then
          (Ok false, memoize moduleID false st)
        else
          (* transitive unmocking for package managers that store flat packages (npm3) *)
          let currentModuleID := getModuleID (_virtualMocks st) from None in
          if bool_decide (_transitiveShouldMock st !! currentModuleID = Some false)
             || (includes NODE_MODULES from
                 && includes NODE_MODULES modulePath
                 && (unmockList_test st from
                     || bool_decide (explicitShouldMock !! currentModuleID = Some false)))
          then
            (Ok false, record_transitive_unmock key moduleID st)
          else
            (Ok true, memoize moduleID true st)
      end
    end
  end.

(** *** The object stores *)

Definition lift {A} (r : JsError + A) : M A := λ st,
  match r with
  | inr a => (Ok a, st)
  | inl e => (Throw e, st)
  end.

(** The registry object behind a reference. *)
Definition registry (st : Runtime) (l : nat) : gmap string nat :=
  default ∅ (moduleRegistries st !! l).

Definition mock_registry (st : Runtime) (l : nat) : gmap string value :=
  default ∅ (mockRegistries st !! l).

Definition no_module : Module := mkModule [] VUndefined "" "" false None None None.

Definition module_at (st : Runtime) (m : nat) : Module :=
  default no_module (modules st !! m).

(** [Object.create(null)] for a module registry and for a mock registry. *)
Definition new_registry (st : Runtime) : Runtime :=
  set_moduleRegistries (moduleRegistries st ++ [∅]) st.

Definition new_mock_registry (st : Runtime) : Runtime :=
  set_mockRegistries (mockRegistries st ++ [∅]) st.

(** [moduleRegistry[modulePath] = localModule] *)
Definition registry_insert (l : nat) (modulePath : string) (m : nat) (st : Runtime) : Runtime :=
  set_moduleRegistries (alter (insert modulePath m) l (moduleRegistries st)) st.

(** [mockRegistry[moduleID] = v] *)
Definition mock_registry_insert (l : nat) (moduleID : string) (v : value) (st : Runtime) : Runtime :=
  set_mockRegistries (alter (insert moduleID v) l (mockRegistries st)) st.

Definition update_module (m : nat) (f : Module → Module) (st : Runtime) : Runtime :=
  set_modules (alter f m (modules st)) st.

(** The object literal [{children: [], exports: {}, filename: modulePath,
    id: modulePath, loaded: false}]: a fresh exports object and a fresh
    module object. *)
Definition new_module (modulePath : string) : M nat := λ st,
  let o := length (objects st) in
  let m := length (modules st) in
  (Ok m,
   set_modules (modules st ++ [mkModule [] (VObj o) modulePath modulePath false None None None])
     (set_objects (objects st ++ [∅]) st)).

(** [v.k] *)
Definition get_member (v : value) (k : string) : M value := λ st,
  match v with
  | VObj o => (Ok (default VUndefined (default ∅ (objects st !! o) !! k)), st)
  | VUndefined | VNull => (Throw (TypeError ("Cannot read property '" +:+ k +:+ "'")), st)
  | _ => (Ok VUndefined, st)
  end.

(** [target.k = v] *)
Definition set_member (target : value) (k : string) (v : value) : M unit := λ st,
  match target with
  | VObj o => (Ok tt, set_objects (alter (insert k v) o (objects st)) st)
  | VUndefined | VNull => (Throw (TypeError ("Cannot set property '" +:+ k +:+ "'")), st)
  | _ => (Ok tt, st)
  end.

(** *** Methods that do not execute module code *)

(** What the console shows when a module is loaded after teardown. *)
Definition torn_down_message : string :=
  "ReferenceError: You are trying to `import` a file after the Jest environment has been torn down.".

Definition _logFormattedReferenceError (errorMessage : string) (st : Runtime) : Runtime :=
  set_console_error (console_error st ++ ["ReferenceError: " +:+ errorMessage]) st.

Definition mockClear (v : value) : value :=
  match v with
  | VMockFn _ => VMockFn 0
  | _ => v
  end.

Definition resetModules (st : Runtime) : Runtime :=
  let st := set_isolatedModuleRegistry None st in
  let st := set_isolatedMockRegistry None st in
  let st := set_mockRegistry (length (mockRegistries st)) (new_mock_registry st) in
  let st := set_moduleRegistry (length (moduleRegistries st)) (new_registry st) in
  let env := _environment st in
  let env :=
    match global env with
    | Some envGlobal => mkEnvironment (Some (mockClear <$> envGlobal)) (context env) (fakeTimers env)
    | None => env
    end in
  let env :=
    match fakeTimers env with
    | Some _ => mkEnvironment (global env) (context env) (Some 0)
    | None => env
    end in
  set_environment env st.

(** The two assignments that open an isolation scope, and the two that
    close it. *)
Definition enter_isolation (st : Runtime) : Runtime :=
  let st := set_isolatedModuleRegistry (Some (length (moduleRegistries st))) (new_registry st) in
  set_isolatedMockRegistry (Some (length (mockRegistries st))) (new_mock_registry st).

Definition leave_isolation (st : Runtime) : Runtime :=
  set_isolatedMockRegistry None (set_isolatedModuleRegistry None st).

Definition isolateModules (fn : M unit) : M unit := λ st,
  if bool_decide (is_Some (_isolatedModuleRegistry st))
     || bool_decide (is_Some (_isolatedMockRegistry st)) then
    (Throw (Error "isolateModules cannot be nested inside another isolateModules."), st)
  else
    match fn (enter_isolation st) with
    | (Ok _, st) => (Ok tt, leave_isolation st)
    | r => r
    end.

Definition setMock (from moduleName : string) (mockFactory : MockFactory) (virtual : bool)
    (st : Runtime) : Runtime :=
  let st :=
    if virtual then
      let mockPath := getModulePath from moduleName in
      set_virtualMocks (<[mockPath := true]> (_virtualMocks st)) st
    else st in
  let moduleID := getModuleID (_virtualMocks st) from (Some moduleName) in
  let st := set_explicitShouldMock (<[moduleID := true]> (_explicitShouldMock st)) st in
  set_mockFactories (<[moduleID := mockFactory]> (_mockFactories st)) st.

(** The operations of the [jest] object built by [_createJestObjectFor from]. *)
Definition jest_unmock (from moduleName : string) (st : Runtime) : Runtime :=
  let moduleID := getModuleID (_virtualMocks st) from (Some moduleName) in
  set_explicitShouldMock (<[moduleID := false]> (_explicitShouldMock st)) st.

Definition jest_deepUnmock (from moduleName : string) (st : Runtime) : Runtime :=
  let moduleID := getModuleID (_virtualMocks st) from (Some moduleName) in
  let st := set_explicitShouldMock (<[moduleID := false]> (_explicitShouldMock st)) st in
  set_transitiveShouldMock (<[moduleID := false]> (_transitiveShouldMock st)) st.

Definition jest_mock (from moduleName : string) (mockFactory : option MockFactory)
    (virtual : bool) (st : Runtime) : Runtime :=
  match mockFactory with
  | Some f => setMock from moduleName f virtual st
  | None =>
    let moduleID := getModuleID (_virtualMocks st) from (Some moduleName) in
    set_explicitShouldMock (<[moduleID := true]> (_explicitShouldMock st)) st
  end.

Definition _requireCoreModule (moduleName : string) : M value := λ st,
  if String.eqb moduleName "process" then
    match global (_environment st) with
    | Some envGlobal => (Ok (default VUndefined (envGlobal !! "process")), st)
    | None => (Throw (TypeError "Cannot read property 'process' of null"), st)
    end
  else lift (native_require moduleName) st.

(** [require.resolve.paths]; the result is [null] or a list of paths. *)
Definition _requireResolvePaths (from : string) (moduleName : option string)
    : JsError + option (list string) :=
  match moduleName with
  | None =>
    inl (Error "The first argument to require.resolve.paths must be a string. Received null or undefined.")
  | Some moduleName =>
    if Nat.eqb (String.length moduleName) 0 then
      inl (Error "The first argument to require.resolve.paths must not be the empty string.")
    else if bool_decide (String.get 0 moduleName = Some "."%char) then
      inr (Some [path_resolve [from; ".."]])
    else if isCoreModule moduleName then inr None
    else inr (Some (getModulePaths (path_resolve [from; ".."])))
  end.

(** [generateFromMetadata] of a cache entry; a [null] entry yields [undefined]. *)
Definition generateFromMetadata_opt (md : option MockFunctionMetadata)
    (objs : list (gmap string value)) : value * list (gmap string value) :=
  match md with
  | Some md => generateFromMetadata md objs
  | None => (VUndefined, objs)
  end.

(** *** Methods that execute module code *)

Definition is_internal (options : option InternalModuleOptions) : bool :=
  match options with
  | Some o => isInternalModule o
  | None => false
  end.

(** [moduleName && f(moduleName)], read for its truthiness or as a path. *)
Definition and_then (moduleName : option string) (f : string → option string) : option string :=
  match moduleName with
  | Some nm => if truthy_str moduleName then f nm else None
  | None => None
  end.

(** The first of the configured extra globals that the sandbox global lacks. *)
Definition missing_global (envGlobal : gmap string value) (names : list string) : option string :=
  List.find (λ g, negb (truthy (default VUndefined (envGlobal !! g)))) names.

Definition internal_options : option InternalModuleOptions := Some (mkOptions true).

(** The methods a method reaches through [this] when it calls back into the
    runtime or into user code.  [methods n], below, is the runtime whose
    nested calls may nest [n] deep. *)
Record Methods := mkMethods {
  this_requireModule :
    string → option string → option InternalModuleOptions → bool → M value;
  this_requireMock : string → string → M value;
  this_requireModuleOrMock : string → string → M value;
  this_execModule :
    nat → option InternalModuleOptions → RegistryRef → option string → M unit;
  this_generateMock : string → string → M value;
  this_eval_expr : Scope → expr → M value;
  this_exec_stmt : Scope → stmt → M unit;
  this_exec_stmts : Scope → list stmt → M unit
}.

(** The manual mock [requireModule] substitutes for the request, if any
    ("Some old tests rely on this mocking behavior"). *)
Definition manualMock_path (from : string) (moduleName : option string)
    (options : option InternalModuleOptions) (isRequireActual : bool)
    (st : Runtime) : option string :=
  let moduleID := getModuleID (_virtualMocks st) from moduleName in
  let moduleResource := and_then moduleName getModule in
  let manualMock := and_then moduleName (getMockModule from) in
  if negb (is_internal options)
     && negb isRequireActual
     && negb (truthy_str moduleResource)
     && truthy_str manualMock
     && negb (bool_decide (manualMock = _isCurrentlyExecutingManualMock st))
     && negb (bool_decide (_explicitShouldMock st !! moduleID = Some false))
  then manualMock else None.

(** The registry [requireModule] reads and writes for [modulePath]. *)
Definition select_registry (options : option InternalModuleOptions)
    (modulePath : string) (st : Runtime) : nat :=
  if negb (is_internal options) then
    if bool_decide (is_Some (registry st (_moduleRegistry st) !! modulePath))
       || negb (bool_decide (is_Some (_isolatedModuleRegistry st)))
    then _moduleRegistry st
    else default 0 (_isolatedModuleRegistry st)
  else _internalModuleRegistry st.

Definition is_core_request (moduleName : option string) : bool :=
  truthy_str moduleName && isCoreModule (default "" moduleName).

(** The path [requireModule] loads for a request that is not a core module:
    the substituted manual mock, or else what the resolver answers. *)
Definition requireModule_path (from : string) (moduleName : option string)
    (options : option InternalModuleOptions) (isRequireActual : bool)
    (st : Runtime) : JsError + string :=
  match manualMock_path from moduleName options isRequireActual st with
  | Some p => inr p
  | None => _resolveModule from moduleName
  end.

Definition requireModule (this : Methods) (from : string) (moduleName : option string)
    (options : option InternalModuleOptions) (isRequireActual : bool) : M value :=
  let* manualMock := gets (manualMock_path from moduleName options isRequireActual) in
  if is_core_request moduleName then
    _requireCoreModule (default "" moduleName)
  else
  let* modulePath :=
    (match manualMock with
     | Some p => ret p
     | None => lift (_resolveModule from moduleName)
     end) in
  let* moduleRegistry := gets (select_registry options modulePath) in
  let* registered := gets (λ st, registry st moduleRegistry !! modulePath) in
  do* (match registered with
       | Some _ => ret tt
       | None =>
         (* We must register the pre-allocated module object first so that any
            circular dependencies that may arise while evaluating the module
            can be satisfied. *)
         let* localModule := new_module modulePath in
         do* modify (registry_insert moduleRegistry modulePath localModule) in
         do* (if String.eqb (path_extname modulePath) ".json" then
                let* envGlobal := gets (λ st, global (_environment st)) in
                match envGlobal with
                | None => throw (TypeError "Cannot read property 'JSON' of null")
                | Some _ =>
                  let* source := lift (fs_readFileSync modulePath) in
                  let* parsed := lift (JSON_parse (stripBOM source)) in
                  modify (update_module localModule (Module_set_exports parsed))
                end
              else if String.eqb (path_extname modulePath) ".node" then
                let* native := lift (native_require modulePath) in
                modify (update_module localModule (Module_set_exports native))
              else
                (* Only include the fromPath if a moduleName is given. Else treat as root. *)
                let fromPath := if truthy_str moduleName then Some from else None in
                this_execModule this localModule options (ModuleRegistry moduleRegistry) fromPath) in
         modify (update_module localModule (Module_set_loaded true))
       end) in
  let* registered := gets (λ st, registry st moduleRegistry !! modulePath) in
  match registered with
  | Some m => gets (λ st, exports (module_at st m))
  | None => throw (TypeError "Cannot read property 'exports' of undefined")
  end.

Definition requireInternalModule (this : Methods) (from : string) (to : option string)
    : M value :=
  this_requireModule this from to internal_options false.

Definition requireActual (this : Methods) (from moduleName : string) : M value :=
  this_requireModule this from (Some moduleName) None true.

Definition requireMock (this : Methods) (from moduleName : string) : M value :=
  let* moduleID := gets (λ st, getModuleID (_virtualMocks st) from (Some moduleName)) in
  let* isolatedHit := gets (λ st,
    match _isolatedMockRegistry st with
    | Some l => default VUndefined (mock_registry st l !! moduleID)
    | None => VUndefined
    end) in
  let* mainHit := gets (λ st,
    default VUndefined (mock_registry st (_mockRegistry st) !! moduleID)) in
  if truthy isolatedHit then ret isolatedHit
  else if truthy mainHit then ret mainHit
  else
  let* mockRegistry := gets (λ st, default (_mockRegistry st) (_isolatedMockRegistry st)) in
  let* factory := gets (λ st, _mockFactories st !! moduleID) in
  match factory with
  | Some f =>
    let* made := this_eval_expr this (mf_scope f) (mf_body f) in
    do* modify (mock_registry_insert mockRegistry moduleID made) in
    ret made
  | None =>
    let manualMockOrStub := getMockModule from moduleName in
    let* modulePath :=
      lift (if truthy_str manualMockOrStub
            then _resolveModule from manualMockOrStub
            else _resolveModule from (Some moduleName)) in
    let isManualMock :=
      truthy_str manualMockOrStub
      && negb (truthy_str (resolveStubModuleName from moduleName)) in
    (* If the actual module file has a __mocks__ dir sitting immediately next
       to it, look to see if there is a manual mock for this file. *)
    let potentialManualMock :=
      path_join [path_dirname modulePath; "__mocks__"; path_basename modulePath] in
    let promoted := negb isManualMock && fs_existsSync potentialManualMock in
    let modulePath := if promoted then potentialManualMock else modulePath in
    let isManualMock := isManualMock || promoted in
    do* (if isManualMock then
           let* localModule := new_module modulePath in
           (* Only include the fromPath if a moduleName is given. Else treat as root. *)
           let fromPath := if truthy_str (Some moduleName) then Some from else None in
           do* this_execModule this localModule None (MockRegistry mockRegistry) fromPath in
           let* made := gets (λ st, exports (module_at st localModule)) in
           do* modify (mock_registry_insert mockRegistry moduleID made) in
           modify (update_module localModule (Module_set_loaded true))
         else
           (* Look for a real module to generate an automock from *)
           let* made := this_generateMock this from moduleName in
           modify (mock_registry_insert mockRegistry moduleID made)) in
    gets (λ st, default VUndefined (mock_registry st mockRegistry !! moduleID))
  end.

Definition requireModuleOrMock (this : Methods) (from moduleName : string) : M value :=
  try_catch
    (let* mock := _shouldMock from moduleName in
     if mock then this_requireMock this from moduleName
     else this_requireModule this from (Some moduleName) None false)
    (λ e,
       if bool_decide (code e = Some "MODULE_NOT_FOUND") then
         let appendedMessage :=
           findSiblingsWithFileExtension (moduleFileExtensions config) from moduleName in
         throw (mkError (code e) (message e +:+ appendedMessage))
       else throw e).

Definition _execModule (this : Methods) (localModule : nat)
    (options : option InternalModuleOptions) (moduleRegistry : RegistryRef)
    (from : option string) : M unit :=
  let* envGlobal := gets (λ st, global (_environment st)) in
  match envGlobal with
  | None =>
    (* If the environment was disposed, prevent this module from being executed. *)
    ret tt
  | Some envGlobal =>
    let isInternalModule := is_internal options in
    let* filename := gets (λ st, filename (module_at st localModule)) in
    let* lastExecutingModulePath := gets _currentlyExecutingModulePath in
    do* modify (set_currentlyExecutingModulePath filename) in
    let* origCurrExecutingManualMock := gets _isCurrentlyExecutingManualMock in
    do* modify (set_isCurrentlyExecutingManualMock (Some filename)) in
    let dirname := path_dirname filename in
    do* modify (update_module localModule
          (Module_install (moduleRegistry, default "" from)
             (getModulePaths dirname) (filename, isInternalModule))) in
    let extraGlobals := default [] (extraGlobals config) in
    let* transformedFile := lift (transform filename isInternalModule) in
    do* (if truthy_str (sourceMapPath transformedFile) then
           do* modify (λ st, set_sourceMapRegistry
                 (<[filename := default "" (sourceMapPath transformedFile)]>
                    (_sourceMapRegistry st)) st) in
           if mapCoverage transformedFile then
             modify (λ st, set_needsCoverageMapped ({[filename]} ∪ _needsCoverageMapped st) st)
           else ret tt
         else ret tt) in
    let* alive := gets (λ st, context (_environment st)) in
    if negb alive then
      (* runScript === null *)
      do* modify (_logFormattedReferenceError
            "You are trying to `import` a file after the Jest environment has been torn down.") in
      modify (set_process_exitCode (Some 1%Z))
    else
      let wrapper := script transformedFile in
      let* moduleExports := gets (λ st, exports (module_at st localModule)) in
      let scope := mkScope localModule moduleExports filename isInternalModule in
      match missing_global envGlobal extraGlobals with
      | Some globalVariable =>
        throw (Error ("You have requested '" +:+ globalVariable +:+
          "' as a global variable, but it was not present. Please check your config or your global environment."))
      | None =>
        do* modify (λ st, set_executed (executed st ++ [filename]) st) in
        do* this_exec_stmts this scope wrapper in
        do* modify (set_isCurrentlyExecutingManualMock origCurrExecutingManualMock) in
        modify (set_currentlyExecutingModulePath lastExecutingModulePath)
      end
  end.

Definition _generateMock (this : Methods) (from moduleName : string) : M value :=
  let stub := resolveStubModuleName from moduleName in
  let* modulePath :=
    (if truthy_str stub then ret (default "" stub)
     else lift (_resolveModule from (Some moduleName))) in
  let* cached := gets (λ st, _mockMetaDataCache st !! modulePath) in
  do* (match cached with
       | Some _ => ret tt
       | None =>
         (* This allows us to handle circular dependencies while generating an
            automock *)
         do* modify (λ st,
               let st' := set_objects (objects st ++ [∅]) st in
               set_mockMetaDataCache
                 (<[modulePath := getMetadata (objects st') (VObj (length (objects st)))]>
                    (_mockMetaDataCache st')) st') in
         (* In order to avoid it being possible for automocking to potentially
            cause side-effects within the module environment, we need to execute
            the module in isolation. *)
         let* origMockRegistry := gets _mockRegistry in
         let* origModuleRegistry := gets _moduleRegistry in
         do* modify (λ st, set_mockRegistry (length (mockRegistries st)) (new_mock_registry st)) in
         do* modify (λ st, set_moduleRegistry (length (moduleRegistries st)) (new_registry st)) in
         let* moduleExports := this_requireModule this from (Some moduleName) None false in
         (* Restore the "real" module/mock registries *)
         do* modify (set_mockRegistry origMockRegistry) in
         do* modify (set_moduleRegistry origModuleRegistry) in
         let* mockMetadata := gets (λ st, getMetadata (objects st) moduleExports) in
         match mockMetadata with
         | None =>
           throw (Error ("Failed to get mock metadata: " +:+ modulePath +:+
             "\n\nSee: https://jestjs.io/docs/manual-mocks.html#content"))
         | Some _ =>
           modify (λ st, set_mockMetaDataCache
             (<[modulePath := mockMetadata]> (_mockMetaDataCache st)) st)
         end
       end) in
  λ st,
    let '(v, objs) :=
      generateFromMetadata_opt (default None (_mockMetaDataCache st !! modulePath)) (objects st) in
    (Ok v, set_objects objs st).

(** *** User code against the runtime *)

Definition eval_expr (this : Methods) (scope : Scope) (e : expr) : M value :=
  let from := sc_filename scope in
  match e with
  | EValue v => ret v
  | ERequire request =>
    (* the require built by _createRequireImplementation *)
    if sc_internal scope
    then requireInternalModule this from (Some request)
    else this_requireModuleOrMock this from request
  | ERequireActual request => requireActual this from request
  | ERequireMock request => this_requireMock this from request
  | EGenMockFromModule request => this_generateMock this from request
  | EModuleExports => gets (λ st, exports (module_at st (sc_module scope)))
  | EExports => ret (sc_exports scope)
  | EMember e k =>
    let* v := this_eval_expr this scope e in
    get_member v k
  end.

Definition exec_stmt (this : Methods) (scope : Scope) (s : stmt) : M unit :=
  let from := sc_filename scope in
  match s with
  | SExpr e =>
    do* this_eval_expr this scope e in ret tt
  | SAssignMember target k e =>
    let* t := this_eval_expr this scope target in
    let* v := this_eval_expr this scope e in
    set_member t k v
  | SAssignModuleExports e =>
    let* v := this_eval_expr this scope e in
    modify (update_module (sc_module scope) (Module_set_exports v))
  | SThrow msg => throw (Error msg)
  | STry body handler =>
    try_catch (this_exec_stmts this scope body) (λ _, this_exec_stmts this scope handler)
  | SJestDisableAutomock => modify (set_shouldAutoMock false)
  | SJestEnableAutomock => modify (set_shouldAutoMock true)
  | SJestUnmock moduleName => modify (jest_unmock from moduleName)
  | SJestDeepUnmock moduleName => modify (jest_deepUnmock from moduleName)
  | SJestMock moduleName mockFactory virtual =>
    modify (jest_mock from moduleName
              (option_map (λ body, mkFactory body scope) mockFactory) virtual)
  | SJestSetMock moduleName mock =>
    let* v := this_eval_expr this scope mock in
    modify (setMock from moduleName (mkFactory (EValue v) scope) false)
  | SJestResetModules => modify resetModules
  | SJestIsolateModules fn => isolateModules (this_exec_stmts this scope fn)
  end.

Definition exec_stmts (this : Methods) (scope : Scope) (body : list stmt) : M unit :=
  match body with
  | [] => ret tt
  | s :: rest =>
    do* this_exec_stmt this scope s in
    this_exec_stmts this scope rest
  end.

(** The runtime whose calls may nest [n] deep; deeper calls do not finish. *)
Fixpoint methods (n : nat) : Methods :=
  match n with
  | 0 =>
    mkMethods (λ _ _ _ _ st, (OutOfFuel, st)) (λ _ _ st, (OutOfFuel, st))
      (λ _ _ st, (OutOfFuel, st)) (λ _ _ _ _ st, (OutOfFuel, st))
      (λ _ _ st, (OutOfFuel, st)) (λ _ _ st, (OutOfFuel, st))
      (λ _ _ st, (OutOfFuel, st)) (λ _ _ st, (OutOfFuel, st))
  | S n =>
    let this := methods n in
    mkMethods (requireModule this) (requireMock this) (requireModuleOrMock this)
      (_execModule this) (_generateMock this) (eval_expr this) (exec_stmt this)
      (exec_stmts this)
  end.

(** *** The mock decision as a rule list

    The guards of [_shouldMock], those of the last rules for a request
    whose resolved path is [modulePath], and the rule list as the
    specification orders it. *)

Section Rules.
Variables (from moduleName modulePath : string) (st : Runtime).

Let moduleID := getModuleID (_virtualMocks st) from (Some moduleName).
Let currentModuleID := getModuleID (_virtualMocks st) from None.
Let key := from +:+ path_delimiter +:+ moduleID.

Definition rule_virtual : bool :=
  bool_decide (is_Some (_virtualMocks st !! getModulePath from moduleName)).
Definition rule_explicit : option bool := _explicitShouldMock st !! moduleID.
Definition rule_core : bool := isCoreModule moduleName.
Definition rule_transitive_cache : bool :=
  bool_decide (_shouldUnmockTransitiveDependenciesCache st !! key = Some true).
Definition rule_automock_off : bool := negb (_shouldAutoMock st).
Definition rule_memoized : option bool := _shouldMockModuleCache st !! moduleID.
Definition rule_unmock_list : bool := unmockList_test st modulePath.
(** Both paths under [/node_modules/], and the unmock regex matches [from]
    or the current module is explicitly unmocked. *)
Definition rule_vendored : bool :=
  includes NODE_MODULES from
  && includes NODE_MODULES modulePath
  && (unmockList_test st from
      || bool_decide (_explicitShouldMock st !! currentModuleID = Some false)).
(** The current module is itself marked transitively unmocked. *)
Definition rule_current_transitive : bool :=
  bool_decide (_transitiveShouldMock st !! currentModuleID = Some false).

(** The rules in the order the specification lists them, for a request
    whose resolved path is [modulePath]. *)
Definition shouldMock_as_specified : outcome bool * Runtime :=
  first_match
    [ (rule_virtual, (Ok true, st));
      (bool_decide (is_Some rule_explicit), (Ok (default false rule_explicit), st));
      (rule_core, (Ok false, st));
      (rule_transitive_cache, (Ok false, st));
      (rule_automock_off, (Ok false, st));
      (bool_decide (is_Some rule_memoized), (Ok (default false rule_memoized), st));
      (rule_vendored, (Ok false, record_transitive_unmock key moduleID st));
      (rule_unmock_list, (Ok false, memoize moduleID false st)) ]
    (Ok true, memoize moduleID true st).

End Rules.

(** *** Construction *)

(** The fields as the constructor assigns them, before [resetModules]: the
    internal registry, the main registry and the main mock registry are
    three fresh objects. *)
Definition initial (environment : Environment) : Runtime :=
  mkRuntime "" environment ∅ 0 None ∅ ∅ 0 None None 1 ∅ (automock config) ∅ ∅ ∅ ∅
    (option_map (String.concat "|") (unmockedModulePathPatterns config)) ∅
    [∅; ∅] [∅] [] [] None [] [].

Fixpoint requireEach (this : Methods) (files : list string) : M unit :=
  match files with
  | [] => ret tt
  | f :: rest =>
    do* requireModule this f None None false in
    requireEach this rest
  end.

Definition constructor (this : Methods) (environment : Environment)
    : outcome unit * Runtime :=
  let st := initial environment in
  let st :=
    if automock config then
      foldl (λ st filePath,
               if includes NODE_MODULES filePath then
                 let moduleID := getModuleID (_virtualMocks st) filePath None in
                 set_transitiveShouldMock (<[moduleID := false]> (_transitiveShouldMock st)) st
               else st)
            st (setupFiles config)
    else st in
  requireEach this (setupFiles config) (resetModules st).

End Runtime.

(** ** A small project

    A concrete resolver, transformer, mocker and host over a fixed set of
    files, on which the runtime can be run. *)

Fixpoint demo_basename (s : string) : string :=
  match s with
  | EmptyString => EmptyString
  | String c s' =>
    if includes "/" s' then demo_basename s'
    else if Ascii.eqb c "/" then s' else s
  end.

Definition demo_dirname (s : string) : string :=
  let n := String.length s - String.length (demo_basename s) - 1 in
  if Nat.eqb n 0 then (if String.prefix "/" s then "/" else ".")
  else String.substring 0 n s.

Fixpoint demo_ext (s : string) : string :=
  match s with
  | EmptyString => EmptyString
  | String c s' => if includes "." s' then demo_ext s' else if Ascii.eqb c "." then s else EmptyString
  end.

Definition demo_extname (s : string) : string := demo_ext (demo_basename s).

Definition demo_files : list (string * list stmt) :=
  [ ("/p/a.js",
      [SAssignMember EExports "a" (EValue (VNum 1));
       SAssignMember EExports "b" (ERequire "./b")]);
    ("/p/b.js",
      [SAssignMember EExports "pre" (EMember (ERequire "./a") "a");
       SAssignMember EExports "post" (EMember (ERequire "./a") "b")]);
    ("/p/m.js", [SAssignMember EExports "v" (EValue (VNum 7))]);
    ("/p/one.js", [SAssignModuleExports (EValue (VNum 1))]);
    ("/p/test.js", [SAssignMember EExports "x" (ERequire "./one")]);
    ("/p/boom.js", [SThrow "boom"]);
    ("/p/catcher.js", [STry [SExpr (ERequire "./boom")] []]);
    ("/p/gen.js", [SExpr (EGenMockFromModule "./back")]);
    ("/p/back.js", [SAssignMember EExports "seen" (ERequire "./gen")]);
    ("/p/iso.js", [SJestIsolateModules [SJestResetModules; SExpr (ERequire "./m")]]);
    ("/p/node_modules/left-pad/index.js", [SAssignMember EExports "u" (ERequire "./util")]);
    ("/p/node_modules/left-pad/util.js", [SAssignMember EExports "pad" (EValue (VNum 2))]);
    ("/p/node_modules/setup/index.js", [SAssignMember EExports "dep" (ERequire "./dep")]);
    ("/p/node_modules/setup/dep.js", [SAssignMember EExports "d" (EValue (VNum 3))]);
    ("/p/node_modules/setup/other.js", [SAssignMember EExports "o" (EValue (VNum 4))]);
    ("/p/__mocks__/ghost.js", [SAssignMember EExports "ghost" (EValue (VBool true))]) ].

Definition demo_exists (p : string) : bool :=
  existsb (λ f, String.eqb (fst f) p) demo_files.

Definition demo_script (p : string) : option (list stmt) :=
  snd <$> List.find (λ f, String.eqb (fst f) p) demo_files.

Definition demo_candidate (from to : string) : string :=
  if String.prefix "./" to then
    let rest := String.substring 2 (String.length to - 2) to in
    demo_dirname from +:+ "/" +:+ rest +:+ (if String.eqb (demo_extname rest) "" then ".js" else "")
  else "/p/node_modules/" +:+ to +:+ "/index.js".

Definition demo_manual_mock (to : string) : option string :=
  let p := "/p/__mocks__/" +:+ to +:+ ".js" in
  if negb (String.prefix "." to) && demo_exists p then Some p else None.

Definition demo_resolver : Resolver := {|
  resolveModule from to :=
    if String.prefix "/" to then (if demo_exists to then inr to
      else inl (mkError (Some "MODULE_NOT_FOUND") ("Cannot find module '" +:+ to +:+ "'")))
    else
    let p := demo_candidate from to in
    if demo_exists p then inr p
    else inl (mkError (Some "MODULE_NOT_FOUND")
                ("Cannot find module '" +:+ to +:+ "' from '" +:+ from +:+ "'"));
  isCoreModule nm := existsb (String.eqb nm) ["fs"; "path"; "process"];
  getModule _ := None;
  getMockModule _ to := demo_manual_mock to;
  getModuleID _ from to :=
    match to with
    | Some to => if String.prefix "/" to then to else demo_candidate from to
    | None => from
    end;
  getModulePath from to :=
    if String.prefix "./" to
    then demo_dirname from +:+ "/" +:+ String.substring 2 (String.length to - 2) to
    else to;
  getModulePaths dir := [dir +:+ "/node_modules"];
  resolveStubModuleName _ _ := None
|}.

Definition demo_transformer : ScriptTransformer := {|
  transform filename _ :=
    match demo_script filename with
    | Some s => inr (mkTransformResult s None false)
    | None => inl (Error ("ENOENT: no such file or directory, open '" +:+ filename +:+ "'"))
    end
|}.

Definition demo_mocker : ModuleMocker := {|
  getMetadata objs v :=
    match v with
    | VObj o => Some (mkMetadata "object" (map fst (map_to_list (default ∅ (objs !! o)))))
    | VUndefined => None
    | _ => Some (mkMetadata "constant" [])
    end;
  generateFromMetadata md objs :=
    (VObj (length objs),
     (objs ++ [list_to_map (map (λ k, (k, VMockFn 0)) (md_members md))])%list)
|}.

Definition demo_host : Host := {|
  path_sep := "/";
  path_delimiter := ":";
  path_extname := demo_extname;
  path_dirname := demo_dirname;
  path_basename := demo_basename;
  path_join := String.concat "/";
  path_resolve parts :=
    match parts with
    | [from; ".."] => demo_dirname from
    | _ => String.concat "/" parts
    end;
  fs_existsSync := demo_exists;
  fs_readFileSync p := inl (Error ("ENOENT: no such file or directory, open '" +:+ p +:+ "'"));
  stripBOM s := s;
  JSON_parse s := inr (VStr s);
  native_require nm := inr (VHost nm);
  RegExp_test re s := includes re s;
  findSiblingsWithFileExtension _ _ _ := ""
|}.

Section Demo.
#[local] Existing Instances demo_resolver demo_transformer demo_mocker demo_host.

Definition demo_config : ProjectConfig := mkConfig false None ["js"; "json"] [] None.

Definition demo_automock_config : ProjectConfig :=
  mkConfig true None ["js"; "json"] [] (Some ["node_modules/left-pad"]).

(** Auto-mock on, one setup file under [node_modules], no unmock patterns. *)
Definition demo_setup_config : ProjectConfig :=
  mkConfig true None ["js"; "json"] ["/p/node_modules/setup/index.js"] None.

Definition demo_env : Environment := mkEnvironment (Some ∅) true (Some 0).

(** The runtime right after construction in the live sandbox. *)
Definition demo_runtime : Runtime := snd (constructor demo_config (methods demo_config 0) demo_env).

Definition demo_automock_runtime : Runtime := snd (constructor demo_automock_config (methods demo_automock_config 0) demo_env).

Definition demo_setup_runtime : Runtime :=
  snd (constructor demo_setup_config (methods demo_setup_config 30) demo_env).

(** The same, in a sandbox whose global has been disposed, and in one whose
    context is gone while the global is still there. *)
Definition demo_disposed : Runtime :=
  snd (constructor demo_config (methods demo_config 0) (mkEnvironment None false None)).

Definition demo_torn_down : Runtime :=
  snd (constructor demo_config (methods demo_config 0) (mkEnvironment (Some ∅) false None)).

(** The automocking runtime after [jest.deepUnmock('./a')] in a test. *)
Definition demo_deep_unmocked : Runtime :=
  jest_deepUnmock "/p/test.js" "./a" demo_automock_runtime.

(** The scope of a test file's own code. *)
Definition demo_scope : Scope := mkScope 0 VUndefined "/p/test.js" false.

(** The runtime of the small project whose calls may nest [n] deep. *)
Definition demo (n : nat) : Methods := methods demo_config n.

Definition demo_automock (n : nat) : Methods := methods demo_automock_config n.

End Demo.

(** ** The registry layers of a runtime

    What the isolation properties speak about: the store of module
    registries, the three references into it, and the sandbox's record of
    executed wrappers. *)

Record Layers := mkLayers {
  l_registries : list (gmap string nat);
  l_main : nat;
  l_isolated : option nat;
  l_internal : nat;
  l_executed : list string
}.

Definition layers (st : Runtime) : Layers :=
  mkLayers (moduleRegistries st) (_moduleRegistry st) (_isolatedModuleRegistry st)
    (_internalModuleRegistry st) (executed st).

(** The three references name three distinct registry objects of the store. *)
Definition well_formed (a : Layers) : Prop :=
  l_main a < length (l_registries a) ∧
  l_internal a < length (l_registries a) ∧
  l_main a ≠ l_internal a ∧
  ∀ i, l_isolated a = Some i →
    i < length (l_registries a) ∧ i ≠ l_main a ∧ i ≠ l_internal a.

(** What every run preserves: registries are never removed, entries are
    never removed or replaced, the record of executions only grows. *)
Record grows (a b : Layers) : Prop := mkGrows {
  gr_length : (length (l_registries a) ≤ length (l_registries b))%nat;
  gr_kept : ∀ l r p m,
    l_registries a !! l = Some r → r !! p = Some m →
    ∃ r', l_registries b !! l = Some r' ∧ r' !! p = Some m;
  gr_executed : l_executed a `prefix_of` l_executed b
}.

(** How the layers of a well-formed runtime can differ after a run. *)
Record evolution (a b : Layers) : Prop := mkEvolution {
  ev_wf : well_formed b;
  ev_internal : l_internal b = l_internal a;
  ev_main : l_main b = l_main a ∨ (length (l_registries a) ≤ l_main b)%nat;
  ev_isolated :
    l_isolated b = l_isolated a ∨ l_isolated b = None ∨
    ∃ j, l_isolated b = Some j ∧ (length (l_registries a) ≤ j)%nat;
  (* a registry that existed is written only while it is the selected one *)
  ev_frame : ∀ l, l < length (l_registries a) →
    l_registries b !! l = l_registries a !! l ∨
    l = l_internal a ∨
    l_isolated a = Some l ∨
    (l = l_main a ∧ (l_isolated a = None ∨ l_isolated b ≠ l_isolated a));
  (* while one isolated registry stays active, new registries stay empty *)
  ev_fresh : ∀ i l,
    l_isolated a = Some i → l_isolated b = Some i →
    (length (l_registries a) ≤ l)%nat → l < length (l_registries b) →
    l_registries b !! l = Some ∅
}.

Definition evolves (a b : Layers) : Prop :=
  grows a b ∧ (well_formed a → evolution a b).

(** Every method of [this] lets the layers evolve. *)
Record methods_evolve (this : Methods) : Prop := mkMethodsEvolve {
  me_requireModule : ∀ from moduleName options isRequireActual st o st',
    this_requireModule this from moduleName options isRequireActual st = (o, st') →
    evolves (layers st) (layers st');
  me_requireMock : ∀ from moduleName st o st',
    this_requireMock this from moduleName st = (o, st') →
    evolves (layers st) (layers st');
  me_requireModuleOrMock : ∀ from moduleName st o st',
    this_requireModuleOrMock this from moduleName st = (o, st') →
    evolves (layers st) (layers st');
  me_execModule : ∀ localModule options moduleRegistry from st o st',
    this_execModule this localModule options moduleRegistry from st = (o, st') →
    evolves (layers st) (layers st');
  me_generateMock : ∀ from moduleName st o st',
    this_generateMock this from moduleName st = (o, st') →
    evolves (layers st) (layers st');
  me_eval_expr : ∀ scope e st o st',
    this_eval_expr this scope e st = (o, st') →
    evolves (layers st) (layers st');
  me_exec_stmt : ∀ scope s st o st',
    this_exec_stmt this scope s st = (o, st') →
    evolves (layers st) (layers st');
  me_exec_stmts : ∀ scope body st o st',
    this_exec_stmts this scope body st = (o, st') →
    evolves (layers st) (layers st')
}.
(** ** Further methods of the runtime *)

(** [resolver.resolveModuleFromDirIfExists(dir, moduleName, {paths})], the
    one resolver method only [require.resolve] uses. *)
Class DirectoryResolver := {
  resolveModuleFromDirIfExists : string → string → list string → option string
}.

Section Queries.
Context `{Resolver} `{DirectoryResolver} `{ScriptTransformer} `{ModuleMocker} `{Host}.

(** *** require.resolve *)

(** What one entry [p] of [options.paths] resolves the request to. *)
Definition resolve_from_path (from moduleName p : string) : option string :=
  let absolutePath := path_resolve [from; ".."; p] in
  (* required to also resolve files without leading './' directly in the path *)
  resolveModuleFromDirIfExists absolutePath moduleName [absolutePath].

(** The loop [for (const p of paths)]: the first truthy answer. *)
Fixpoint resolve_in_paths (from moduleName : string) (paths : list string) : option string :=
  match paths with
  | [] => None
  | p :: rest =>
    let module := resolve_from_path from moduleName p in
    if truthy_str module then module else resolve_in_paths from moduleName rest
  end.

Definition _requireResolve (from : string) (moduleName : option string)
    (paths : option (list string)) : JsError + string :=
  match moduleName with
  | None =>
    inl (Error "The first argument to require.resolve must be a string. Received null or undefined.")
  | Some moduleName =>
    match paths with
    | Some paths =>
      match resolve_in_paths from moduleName paths with
      | Some module => inr module
      | None =>
        inl (Error ("Cannot resolve module '" +:+ moduleName +:+ "' from paths ['" +:+
                    String.concat "', '" paths +:+ "'] from " +:+ from))
      end
    | None =>
      match _resolveModule from (Some moduleName) with
      | inr modulePath => inr modulePath
      | inl err =>
        let module := getMockModule from moduleName in
        if truthy_str module then inr (default "" module) else inl err
      end
    end
  end.

(** *** Source maps *)

Definition getSourceMapInfo (coveredFiles : gset string) (st : Runtime) : gmap string string :=
  map_fold
    (λ sourcePath sourceMap result,
       if bool_decide (sourcePath ∈ coveredFiles)
          && bool_decide (sourcePath ∈ _needsCoverageMapped st)
          && fs_existsSync sourceMap
       then <[sourcePath := sourceMap]> result
       else result)
    ∅ (_sourceMapRegistry st).

Definition getSourceMaps (st : Runtime) : gmap string string := _sourceMapRegistry st.

(** *** Fake timers through the [jest] object *)

Definition _getFakeTimers : M (option nat) := λ st,
  match fakeTimers (_environment st) with
  | None =>
    (Ok None,
     set_process_exitCode (Some 1%Z)
       (_logFormattedReferenceError
          "You are trying to access a property or method of the Jest environment after it has been torn down."
          st))
  | Some timers => (Ok (Some timers), st)
  end.

(** [jest.getTimerCount()] *)
Definition jest_getTimerCount : M nat :=
  let* timers := _getFakeTimers in
  match timers with
  | Some count => ret count
  | None => throw (TypeError "Cannot read property 'getTimerCount' of undefined")
  end.

(** *** Names for the statements below *)

(** The path under which [_generateMock] caches metadata:
    [resolveStubModuleName(from, moduleName) || _resolveModule(from, moduleName)]. *)
Definition generateMock_path (from moduleName : string) : JsError + string :=
  let stub := resolveStubModuleName from moduleName in
  if truthy_str stub then inr (default "" stub)
  else _resolveModule from (Some moduleName).

(** The mock registries hold nothing truthy under [moduleID]. *)
Definition no_mock_hit (moduleID : string) (st : Runtime) : Prop :=
  truthy (match _isolatedMockRegistry st with
          | Some l => default VUndefined (mock_registry st l !! moduleID)
          | None => VUndefined
          end) = false ∧
  truthy (default VUndefined (mock_registry st (_mockRegistry st) !! moduleID)) = false.

(** The first step of a load: the module object is allocated and registered. *)
Definition preregistered (options : option InternalModuleOptions) (p : string)
    (st : Runtime) : Runtime :=
  registry_insert (select_registry options p st) p (length (modules st))
    (snd (new_module p st)).

End Queries.

(** ** normalizePathSep (jest-util) *)

(** [filePath.replace(/\//g, path.sep)] *)
Fixpoint replace_slashes (sep filePath : string) : string :=
  match filePath with
  | EmptyString => EmptyString
  | String c rest =>
    if Ascii.eqb c "/" then sep +:+ replace_slashes sep rest
    else String c (replace_slashes sep rest)
  end.

(** The function the module exports on a host whose [path.sep] is [sep]. *)
Definition normalizePathSep (sep filePath : string) : string :=
  if String.eqb sep "/" then filePath else replace_slashes sep filePath.

(** ** What no call undoes

    Facts about a runtime [a] that still hold of the runtime [b] a call
    leaves: the tables of the mock policy only gain entries, the log only
    grows, module objects keep their identity, and the sandbox is neither
    disposed of nor revived. *)

Record keeps (a b : Runtime) : Prop := mkKeeps {
  k_unmockList : _unmockList b = _unmockList a;
  k_internal : _internalModuleRegistry b = _internalModuleRegistry a;
  k_transitive : ∀ moduleID,
    _transitiveShouldMock a !! moduleID = Some false →
    _transitiveShouldMock b !! moduleID = Some false;
  k_virtual : ∀ mockPath,
    is_Some (_virtualMocks a !! mockPath) → is_Some (_virtualMocks b !! mockPath);
  k_explicit : ∀ moduleID,
    is_Some (_explicitShouldMock a !! moduleID) →
    is_Some (_explicitShouldMock b !! moduleID);
  k_factories : ∀ moduleID,
    is_Some (_mockFactories a !! moduleID) → is_Some (_mockFactories b !! moduleID);
  k_metadata : ∀ modulePath,
    is_Some (_mockMetaDataCache a !! modulePath) →
    is_Some (_mockMetaDataCache b !! modulePath);
  k_console : console_error a `prefix_of` console_error b;
  k_exitCode : process_exitCode b = process_exitCode a ∨ process_exitCode b = Some 1%Z;
  k_modules : ∀ m module,
    modules a !! m = Some module →
    ∃ module', modules b !! m = Some module' ∧
      filename module' = filename module ∧ id module' = id module ∧
      (loaded module = true → loaded module' = true);
  k_sourceMaps : ∀ f,
    is_Some (_sourceMapRegistry a !! f) → is_Some (_sourceMapRegistry b !! f);
  k_needs : ∀ f, f ∈ _needsCoverageMapped a → f ∈ _needsCoverageMapped b;
  k_mapped :
    (∀ f, f ∈ _needsCoverageMapped a → is_Some (_sourceMapRegistry a !! f)) →
    (∀ f, f ∈ _needsCoverageMapped b → is_Some (_sourceMapRegistry b !! f));
  k_global : global (_environment b) = None ↔ global (_environment a) = None;
  k_context : context (_environment b) = context (_environment a);
  k_fakeTimers : fakeTimers (_environment b) = None ↔ fakeTimers (_environment a) = None
}.

(** Every method of [this] keeps them. *)
Record methods_keep (this : Methods) : Prop := mkMethodsKeep {
  mk_requireModule : ∀ from moduleName options isRequireActual st o st',
    this_requireModule this from moduleName options isRequireActual st = (o, st') →
    keeps st st';
  mk_requireMock : ∀ from moduleName st o st',
    this_requireMock this from moduleName st = (o, st') → keeps st st';
  mk_requireModuleOrMock : ∀ from moduleName st o st',
    this_requireModuleOrMock this from moduleName st = (o, st') → keeps st st';
  mk_execModule : ∀ localModule options moduleRegistry from st o st',
    this_execModule this localModule options moduleRegistry from st = (o, st') →
    keeps st st';
  mk_generateMock : ∀ from moduleName st o st',
    this_generateMock this from moduleName st = (o, st') → keeps st st';
  mk_eval_expr : ∀ scope e st o st',
    this_eval_expr this scope e st = (o, st') → keeps st st';
  mk_exec_stmt : ∀ scope s st o st',
    this_exec_stmt this scope s st = (o, st') → keeps st st';
  mk_exec_stmts : ∀ scope body st o st',
    this_exec_stmts this scope body st = (o, st') → keeps st st'
}.

(** ** The mock registry layers of a runtime

    The store of mock registries and the two references into it. *)

Record MockLayers := mkMockLayers {
  ml_registries : list (gmap string value);
  ml_main : nat;
  ml_isolated : option nat
}.

Definition mock_layers (st : Runtime) : MockLayers :=
  mkMockLayers (mockRegistries st) (_mockRegistry st) (_isolatedMockRegistry st).

(** The two references name two distinct registry objects of the store. *)
Definition mock_well_formed (a : MockLayers) : Prop :=
  ml_main a < length (ml_registries a) ∧
  ∀ i, ml_isolated a = Some i → i < length (ml_registries a) ∧ i ≠ ml_main a.

(** How the mock layers of a well-formed runtime can differ after a run.
    Unlike a module registry, a mock registry can have an entry replaced. *)
Record mock_evolution (a b : MockLayers) : Prop := mkMockEvolution {
  mev_wf : mock_well_formed b;
  mev_main : ml_main b = ml_main a ∨ (length (ml_registries a) ≤ ml_main b)%nat;
  mev_isolated :
    ml_isolated b = ml_isolated a ∨ ml_isolated b = None ∨
    ∃ j, ml_isolated b = Some j ∧ (length (ml_registries a) ≤ j)%nat;
  (* a registry that existed is written only while it is the selected one *)
  mev_frame : ∀ l, l < length (ml_registries a) →
    ml_registries b !! l = ml_registries a !! l ∨
    ml_isolated a = Some l ∨
    (l = ml_main a ∧ (ml_isolated a = None ∨ ml_isolated b ≠ ml_isolated a));
  (* while one isolated registry stays active, new registries stay empty *)
  mev_fresh : ∀ i l,
    ml_isolated a = Some i → ml_isolated b = Some i →
    (length (ml_registries a) ≤ l)%nat → l < length (ml_registries b) →
    ml_registries b !! l = Some ∅
}.

Definition mock_evolves (a b : MockLayers) : Prop :=
  (length (ml_registries a) ≤ length (ml_registries b))%nat ∧
  (mock_well_formed a → mock_evolution a b).

(** Every method of [this] lets the mock layers evolve. *)
Record methods_mock_evolve (this : Methods) : Prop := mkMethodsMockEvolve {
  mme_requireModule : ∀ from moduleName options isRequireActual st o st',
    this_requireModule this from moduleName options isRequireActual st = (o, st') →
    mock_evolves (mock_layers st) (mock_layers st');
  mme_requireMock : ∀ from moduleName st o st',
    this_requireMock this from moduleName st = (o, st') →
    mock_evolves (mock_layers st) (mock_layers st');
  mme_requireModuleOrMock : ∀ from moduleName st o st',
    this_requireModuleOrMock this from moduleName st = (o, st') →
    mock_evolves (mock_layers st) (mock_layers st');
  mme_execModule : ∀ localModule options moduleRegistry from st o st',
    this_execModule this localModule options moduleRegistry from st = (o, st') →
    mock_evolves (mock_layers st) (mock_layers st');
  mme_generateMock : ∀ from moduleName st o st',
    this_generateMock this from moduleName st = (o, st') →
    mock_evolves (mock_layers st) (mock_layers st');
  mme_eval_expr : ∀ scope e st o st',
    this_eval_expr this scope e st = (o, st') →
    mock_evolves (mock_layers st) (mock_layers st');
  mme_exec_stmt : ∀ scope s st o st',
    this_exec_stmt this scope s st = (o, st') →
    mock_evolves (mock_layers st) (mock_layers st');
  mme_exec_stmts : ∀ scope body st o st',
    this_exec_stmts this scope body st = (o, st') →
    mock_evolves (mock_layers st) (mock_layers st')
}.

(** ** The keys of watch-mode plugins (jest-cli/src/watch.js) *)

Module Watch.

Record UsageInfo := mkUsageInfo { usage_key : option string; usage_prompt : string }.

Record ReservedInfo := mkReservedInfo {
  reserved_message : string;       (* forbiddenOverwriteMessage *)
  reserved_key : option string     (* key *)
}.

Record ValidationError := mkValidationError { error_name : string; error_message : string }.

Section Watch.
Variable GlobalConfig : Type.
(** [chalk.bold.red] *)
Variable chalk_bold_red : string → string.

(** A plugin instance: the names of its constructor, its [getUsageInfo]
    when it is a function, and what [RESERVED_KEY_PLUGINS] holds for its
    constructor. *)
Record WatchPlugin := mkWatchPlugin {
  displayName : option string;
  constructor_name : string;
  getUsageInfo : option (GlobalConfig → option UsageInfo);
  reservedInfo : option ReservedInfo
}.

(** An entry of [watchPluginKeys]. *)
Record KeyOwner := mkKeyOwner {
  forbiddenOverwriteMessage : option string;
  overwritable : bool;
  plugin : WatchPlugin
}.

Definition getPluginIdentifier (plugin : WatchPlugin) : string :=
  if truthy_str (displayName plugin) then default "" (displayName plugin)
  else constructor_name plugin.

Definition getPluginKey (plugin : WatchPlugin) (globalConfig : GlobalConfig) : option string :=
  match getUsageInfo plugin with
  | Some f =>
    match f globalConfig with
    | Some info => usage_key info
    | None => None
    end
  | None => None
  end.

Definition newline : string := String (Ascii.ascii_of_nat 10) EmptyString.

Definition checkForConflicts (watchPluginKeys : gmap string KeyOwner) (plugin : WatchPlugin)
    (globalConfig : GlobalConfig) : ValidationError + gmap string KeyOwner :=
  let key := getPluginKey plugin globalConfig in
  if negb (truthy_str key) then inr watchPluginKeys else
  let key := default "" key in
  let taken := <[key := mkKeyOwner None false plugin]> watchPluginKeys in
  match watchPluginKeys !! key with
  | None => inr taken
  | Some conflictor =>
    if overwritable conflictor then inr taken
    else
      let error :=
        if truthy_str (forbiddenOverwriteMessage conflictor) then
          "Watch plugin " +:+ chalk_bold_red (getPluginIdentifier plugin) +:+
          " attempted to register key " +:+ chalk_bold_red ("<" +:+ key +:+ ">") +:+ "," +:+
          newline +:+ "  that is reserved internally for " +:+
          chalk_bold_red (default "" (forbiddenOverwriteMessage conflictor)) +:+ "." +:+
          newline +:+ "  Please change the configuration key for this plugin."
        else
          "Watch plugins " +:+
          String.concat " and "
            (map (λ p, chalk_bold_red (getPluginIdentifier p)) [Watch.plugin conflictor; plugin])
          +:+ " both attempted to register key " +:+ chalk_bold_red ("<" +:+ key +:+ ">") +:+
          "." +:+ newline +:+
          "  Please change the key configuration for one of the conflicting plugins to avoid overlap."
      in
      inl (mkValidationError "Watch plugin configuration error" error)
  end.

(** The first loop of [watch]: the keys of the plugins built in. *)
Definition internal_keys (watchPlugins : list WatchPlugin) (globalConfig : GlobalConfig)
    : gmap string KeyOwner :=
  foldl
    (λ watchPluginKeys plugin,
       let reservedKey := match reservedInfo plugin with
                          | Some info => reserved_key info
                          | None => None
                          end in
       let key := if truthy_str reservedKey then reservedKey
                  else getPluginKey plugin globalConfig in
       if negb (truthy_str key) then watchPluginKeys
       else
         let forbiddenOverwriteMessage := reserved_message <$> reservedInfo plugin in
         <[default "" key :=
             mkKeyOwner forbiddenOverwriteMessage
               (bool_decide (forbiddenOverwriteMessage = None)) plugin]> watchPluginKeys)
    ∅ watchPlugins.

(** The second loop: the plugins of the configuration, in order; the
    first conflict ends it. *)
Fixpoint register_plugins (watchPluginKeys : gmap string KeyOwner)
    (watchPlugins thirdParty : list WatchPlugin) (globalConfig : GlobalConfig)
    : ValidationError + (gmap string KeyOwner * list WatchPlugin) :=
  match thirdParty with
  | [] => inr (watchPluginKeys, watchPlugins)
  | plugin :: rest =>
    match checkForConflicts watchPluginKeys plugin globalConfig with
    | inl error => inl error
    | inr watchPluginKeys =>
      register_plugins watchPluginKeys (watchPlugins ++ [plugin]) rest globalConfig
    end
  end.

End Watch.

Arguments mkWatchPlugin {GlobalConfig}.
Arguments mkKeyOwner {GlobalConfig}.
Arguments forbiddenOverwriteMessage {GlobalConfig}.
Arguments overwritable {GlobalConfig}.
Arguments plugin {GlobalConfig}.
Arguments getPluginIdentifier {GlobalConfig}.
Arguments getPluginKey {GlobalConfig}.
Arguments checkForConflicts {GlobalConfig}.
Arguments internal_keys {GlobalConfig}.
Arguments register_plugins {GlobalConfig}.

End Watch.

(** ** More of the small project *)

(** The host of the small project with one JSON file on disk. *)
Definition demo_json_host : Host := {|
  path_sep := "/";
  path_delimiter := ":";
  path_extname := demo_extname;
  path_dirname := demo_dirname;
  path_basename := demo_basename;
  path_join := String.concat "/";
  path_resolve parts :=
    match parts with
    | [from; ".."] => demo_dirname from
    | [from; ".."; p] =>
      if String.eqb p "." then demo_dirname from else demo_dirname from +:+ "/" +:+ p
    | _ => String.concat "/" parts
    end;
  fs_existsSync p := demo_exists p || String.eqb p "/p/data.json";
  fs_readFileSync p :=
    if String.eqb p "/p/data.json" then inr "{}"
    else inl (Error ("ENOENT: no such file or directory, open '" +:+ p +:+ "'"));
  stripBOM s := s;
  JSON_parse s :=
    if String.eqb s "{}" then inr (VStr s) else inl (Error "Unexpected token in JSON");
  native_require nm := inr (VHost nm);
  RegExp_test re s := includes re s;
  findSiblingsWithFileExtension _ _ _ := ""
|}.

(** A transformer that writes a source map next to every file and asks for
    its coverage to be mapped. *)
Definition demo_mapping_transformer : ScriptTransformer := {|
  transform filename _ :=
    match demo_script filename with
    | Some s => inr (mkTransformResult s (Some (filename +:+ ".map")) true)
    | None => inl (Error ("ENOENT: no such file or directory, open '" +:+ filename +:+ "'"))
    end
|}.

(** Resolution from a directory: the file of that name in the directory. *)
Definition demo_directory_resolver : DirectoryResolver := {|
  resolveModuleFromDirIfExists dir moduleName _ :=
    let p := dir +:+ "/" +:+ moduleName +:+ ".js" in
    if demo_exists p then Some p else None
|}.

(** The project that asks for the global [Math], in a sandbox without it. *)
Definition demo_globals_config : ProjectConfig :=
  mkConfig false (Some ["Math"]) ["js"; "json"] [] None.

Module WatchDemo.

(** The snapshot plugin, whose key [u] is reserved; a built-in plugin whose
    key [p] may be taken; two plugins of the configuration. *)
Definition usage (k : string) : option (unit → option Watch.UsageInfo) :=
  Some (λ _, Some (Watch.mkUsageInfo (Some k) "do something")).

Definition UpdateSnapshotsPlugin : Watch.WatchPlugin unit :=
  Watch.mkWatchPlugin None "UpdateSnapshotsPlugin" (usage "u")
    (Some (Watch.mkReservedInfo "updating snapshots" (Some "u"))).

Definition TestPathPatternPlugin : Watch.WatchPlugin unit :=
  Watch.mkWatchPlugin None "TestPathPatternPlugin" (usage "p") None.

Definition first : Watch.WatchPlugin unit :=
  Watch.mkWatchPlugin (Some "First") "Plugin" (usage "p") None.

Definition second : Watch.WatchPlugin unit :=
  Watch.mkWatchPlugin None "Second" (usage "s") None.

(** A terminal without colours. *)
Definition plain (s : string) : string := s.

Definition builtin_keys : gmap string (Watch.KeyOwner unit) :=
  Watch.internal_keys [TestPathPatternPlugin; UpdateSnapshotsPlugin] tt.

End WatchDemo.


(** * Properties *)

Section Properties.
Context `{Resolver} `{ScriptTransformer} `{ModuleMocker} `{Host}.
Variable config : ProjectConfig.

(** ** The mock decision *)

(** C1 (as amended): for every request, [_shouldMock] is the first
    matching rule of: virtual mock -> true; explicit override -> its
    recorded value; auto-mock disabled, core module or transitive-unmock
    cache -> false; memoized -> the cached value.  These are decided before
    the request is resolved.  Then the request is resolved.  If that throws:
    a manual mock for the request -> memoize true, return true; otherwise
    the error propagates.  With the resolved path: unmock-list regex
    matching it -> memoize false, return false; transitive-unmock rule (the
    current module is itself marked transitively unmocked, or the vendored
    condition holds) -> record the resolved module as transitively
    unmocked, return false; otherwise memoize true and return true.
    Memoizing [b] leaves [_shouldMockModuleCache[moduleID] = b]; recording
    leaves [_transitiveShouldMock[moduleID] = false] and
    [_shouldUnmockTransitiveDependenciesCache[key] = true]; nothing else
    changes. *)
Theorem shouldMock_rule_order (from moduleName : string) (st : Runtime) :
  let moduleID := getModuleID (_virtualMocks st) from (Some moduleName) in
  let key := from +:+ path_delimiter +:+ moduleID in
  let memoized b :=
    set_shouldMockModuleCache (<[moduleID := b]> (_shouldMockModuleCache st)) st in
  let transitively_unmocked :=
    set_shouldUnmockTransitiveDependenciesCache
      (<[key := true]> (_shouldUnmockTransitiveDependenciesCache st))
      (set_transitiveShouldMock (<[moduleID := false]> (_transitiveShouldMock st)) st) in
  let r := _shouldMock from moduleName st in
  (rule_virtual from moduleName st = true → r = (Ok true, st)) ∧
  (rule_virtual from moduleName st = false →
   (∀ b, rule_explicit from moduleName st = Some b → r = (Ok b, st)) ∧
   (rule_explicit from moduleName st = None →
    (rule_automock_off st || rule_core moduleName
     || rule_transitive_cache from moduleName st = true → r = (Ok false, st)) ∧
    (rule_automock_off st || rule_core moduleName
     || rule_transitive_cache from moduleName st = false →
     (∀ b, rule_memoized from moduleName st = Some b → r = (Ok b, st)) ∧
     (rule_memoized from moduleName st = None →
      (∀ e, _resolveModule from (Some moduleName) = inl e →
         (truthy_str (getMockModule from moduleName) = true →
            r = (Ok true, memoized true)) ∧
         (truthy_str (getMockModule from moduleName) = false → r = (Throw e, st))) ∧
      (∀ modulePath, _resolveModule from (Some moduleName) = inr modulePath →
         (rule_unmock_list modulePath st = true → r = (Ok false, memoized false)) ∧
         (rule_unmock_list modulePath st = false →
          (rule_current_transitive from st || rule_vendored from modulePath st = true →
             r = (Ok false, transitively_unmocked)) ∧
          (rule_current_transitive from st || rule_vendored from modulePath st = false →
             r = (Ok true, memoized true)))))))) ∧
  (∀ b, _shouldMockModuleCache (memoized b) !! moduleID = Some b) ∧
  _transitiveShouldMock transitively_unmocked !! moduleID = Some false ∧
  _shouldUnmockTransitiveDependenciesCache transitively_unmocked !! key = Some true.
Proof.
  intros moduleID key memoized transitively_unmocked r.
  unfold rule_virtual, rule_explicit, rule_automock_off, rule_core,
    rule_transitive_cache, rule_memoized, rule_unmock_list,
    rule_current_transitive, rule_vendored.
  fold moduleID. fold key.
  subst r. unfold _shouldMock, memoize, record_transitive_unmock.
  fold moduleID. fold key. fold memoized. fold transitively_unmocked.
  split_and!.
  - intros ->. reflexivity.
  - intros ->. split.
    + intros b ->. reflexivity.
    + intros ->. split.
      * intros ->. reflexivity.
      * intros ->. split.
        -- intros b ->. reflexivity.
        -- intros ->. split.
           ++ intros e ->. split; intros ->; reflexivity.
           ++ intros modulePath ->. split.
              ** intros ->. reflexivity.
              ** intros ->. split; intros ->; reflexivity.
  - intros b. subst memoized. cbn. apply lookup_insert_eq.
  - subst transitively_unmocked. cbn. apply lookup_insert_eq.
  - subst transitively_unmocked. cbn. apply lookup_insert_eq.
Qed.

(** C10: when resolution throws inside [_shouldMock] (no earlier rule has
    answered), a manual mock for the request makes the call return true
    and leave [_shouldMockModuleCache[moduleID] = true], nothing else being
    changed; without one the resolution error propagates unchanged, and the
    state is as it was. *)
Theorem shouldMock_resolution_failure (from moduleName : string) (st : Runtime) (e : JsError) :
  let moduleID := getModuleID (_virtualMocks st) from (Some moduleName) in
  let key := from +:+ path_delimiter +:+ moduleID in
  let r := _shouldMock from moduleName st in
  _virtualMocks st !! getModulePath from moduleName = None →
  _explicitShouldMock st !! moduleID = None →
  _shouldAutoMock st = true →
  isCoreModule moduleName = false →
  _shouldUnmockTransitiveDependenciesCache st !! key ≠ Some true →
  _shouldMockModuleCache st !! moduleID = None →
  _resolveModule from (Some moduleName) = inl e →
  (truthy_str (getMockModule from moduleName) = true →
     fst r = Ok true ∧
     _shouldMockModuleCache (snd r) !! moduleID = Some true ∧
     snd r
     = set_shouldMockModuleCache (<[moduleID := true]> (_shouldMockModuleCache st)) st) ∧
  (truthy_str (getMockModule from moduleName) = false → r = (Throw e, st)).
Proof.
  intros moduleID key r Hv He Ha Hc Ht Hm Hr.
  subst r. unfold _shouldMock, memoize. fold moduleID. fold key.
  rewrite Hv, He, Ha, Hc, Hm, Hr.
  rewrite bool_decide_eq_false_2 by (intros [? ?]; discriminate).
  rewrite (bool_decide_eq_false_2 _ Ht). simpl.
  split; intros ->; [|reflexivity].
  split_and!; [reflexivity | cbn; apply lookup_insert_eq | reflexivity].
Qed.

(** ** require.resolve.paths *)

(** C9: [require.resolve.paths(request)] throws for a null request and for
    the empty request; for a request beginning with ['.'] it is the
    single-element list of [dirname(from)]; for a core module it is [null];
    otherwise it is the resolver's chain of module paths from
    [dirname(from)].  The code computes the directory as
    [path.resolve(from, '..')]: the statement is for a [from] on which the
    host's [path.resolve(from, '..')] is [path.dirname(from)], as it is on
    the absolute file names the runtime passes. *)
Theorem requireResolvePaths_cases (from : string) :
  path_resolve [from; ".."] = path_dirname from →
  (∃ e, _requireResolvePaths from None = inl e) ∧
  (∃ e, _requireResolvePaths from (Some "") = inl e) ∧
  (∀ c rest,
     let request := String c rest in
     (c = "."%char →
        _requireResolvePaths from (Some request) = inr (Some [path_dirname from])) ∧
     (c ≠ "."%char → isCoreModule request = true →
        _requireResolvePaths from (Some request) = inr None) ∧
     (c ≠ "."%char → isCoreModule request = false →
        _requireResolvePaths from (Some request)
        = inr (Some (getModulePaths (path_dirname from))))).
Proof.
  intros Hdir.
  split; [eexists; reflexivity|].
  split; [eexists; reflexivity|].
  intros c rest request. unfold _requireResolvePaths. subst request.
  rewrite Hdir. simpl.
  repeat split.
  - intros ->. rewrite bool_decide_eq_true_2 by reflexivity. reflexivity.
  - intros Hc Hcore. rewrite bool_decide_eq_false_2 by congruence.
    simpl in Hcore. rewrite Hcore. reflexivity.
  - intros Hc Hcore. rewrite bool_decide_eq_false_2 by congruence.
    simpl in Hcore. rewrite Hcore. reflexivity.
Qed.

(** ** How the registry layers evolve *)

Lemma grows_refl a : grows a a.
Proof. split; [lia | eauto | reflexivity]. Qed.

Lemma grows_trans a b c : grows a b → grows b c → grows a c.
Proof.
  intros [L1 K1 E1] [L2 K2 E2]. split.
  - lia.
  - intros l r p m Hr Hp. destruct (K1 _ _ _ _ Hr Hp) as (r' & Hr' & Hp'). eauto.
  - etrans; eauto.
Qed.

Lemma evolves_refl a : evolves a a.
Proof.
  split; [apply grows_refl|]. intros Hwf. split; auto.
  intros i l _ _ ? ?. lia.
Qed.

Lemma evolves_trans a b c : evolves a b → evolves b c → evolves a c.
Proof.
  intros [G1 E1] [G2 E2]. split; [eapply grows_trans; eauto|].
  intros Hwf. specialize (E1 Hwf). specialize (E2 (ev_wf _ _ E1)).
  destruct G1 as [L1 _ _], G2 as [L2 _ _].
  destruct E1 as [W1 I1 M1 S1 F1 N1], E2 as [W2 I2 M2 S2 F2 N2].
  destruct Hwf as (Hm & Hi & Hmi & Hiso).
  assert (∀ i, l_isolated a = Some i → l_isolated c = Some i → l_isolated b = Some i) as Hback.
  { intros i Ha Hc. destruct (Hiso i Ha) as (? & _ & _).
    destruct S2 as [Hs2|[Hs2|(j & Hs2 & ?)]]; [congruence|congruence|].
    rewrite Hs2 in Hc. injection Hc as ->. lia. }
  assert (∀ i, l_isolated a = Some i → l_isolated b ≠ Some i → l_isolated c ≠ Some i) as Hgone.
  { intros i Ha Hb Hc. destruct (Hiso i Ha) as (? & _ & _).
    destruct S1 as [Hs|[Hs|(j & Hs & ?)]]; [congruence| |].
    - destruct S2 as [Hs2|[Hs2|(j & Hs2 & ?)]]; [congruence|congruence|].
      rewrite Hs2 in Hc. injection Hc as ->. lia.
    - destruct S2 as [Hs2|[Hs2|(j' & Hs2 & ?)]]; [|congruence|].
      + rewrite Hs2, Hs in Hc. injection Hc as ->. lia.
      + rewrite Hs2 in Hc. injection Hc as ->. lia. }
  split.
  - exact W2.
  - congruence.
  - destruct M2 as [->|]; [destruct M1; [auto|right; lia] | right; lia].
  - destruct S2 as [->|[?|(j & ? & ?)]]; [| auto | right; right; exists j; split; [auto|lia]].
    destruct S1 as [|[|(j & ? & ?)]]; eauto.
  - intros l Hl.
    destruct (F1 l Hl) as [Heq|[?|[?|[-> Hsw]]]].
    + destruct (F2 l ltac:(lia)) as [Heq2|[?|[Hsl|[Hlm Hsw]]]].
      * left. congruence.
      * right; left. congruence.
      * destruct S1 as [Hs|[Hs|(j & Hs & ?)]].
        -- right; right; left. congruence.
        -- congruence.
        -- rewrite Hs in Hsl. injection Hsl as ->. lia.
      * destruct M1 as [Hmb|?]; [|lia].
        right; right; right. split; [congruence|].
        destruct (l_isolated a) as [i|] eqn:Hai; [right|auto].
        intros Hc. specialize (Hback i eq_refl Hc).
        destruct Hsw as [Hn|Hn]; congruence.
    + auto.
    + auto.
    + right; right; right. split; [reflexivity|].
      destruct (l_isolated a) as [i|] eqn:Hai; [right|auto].
      apply (Hgone i eq_refl). destruct Hsw; congruence.
  - intros i l Hai Hci Hl1 Hl2.
    destruct (Hiso i Hai) as (? & _ & _).
    pose proof (Hback i Hai Hci) as Hbi.
    destruct (decide (l < length (l_registries b))) as [Hlb|Hlb].
    + specialize (N1 i l Hai Hbi Hl1 Hlb).
      destruct (F2 l Hlb) as [Heq2|[?|[Hsl|[_ [?|?]]]]]; try congruence; try lia.
      rewrite Hbi in Hsl. injection Hsl as ->. lia.
    + apply (N2 i l Hbi Hci); lia.
Qed.

(** The primitive changes of the layers. *)

Lemma evolves_insert a l p m :
  (l = l_internal a ∨ l_isolated a = Some l ∨ (l = l_main a ∧ l_isolated a = None)) →
  default ∅ (l_registries a !! l) !! p = None →
  evolves a (mkLayers (alter (insert p m) l (l_registries a)) (l_main a)
               (l_isolated a) (l_internal a) (l_executed a)).
Proof.
  intros Hsel Hnone. split.
  - split; simpl.
    + rewrite length_alter. lia.
    + intros l' r p' m' Hr Hp. destruct (decide (l = l')) as [<-|Hne].
      * rewrite list_lookup_alter_eq, Hr. simpl. eexists; split; [reflexivity|].
        rewrite Hr in Hnone. simpl in Hnone.
        rewrite lookup_insert_ne; [done|]. intros ->. congruence.
      * rewrite list_lookup_alter_ne by done. eauto.
    + reflexivity.
  - intros (Hm & Hi & Hmi & Hiso). split; simpl.
    + unfold well_formed. simpl. rewrite length_alter. auto.
    + reflexivity.
    + auto.
    + auto.
    + intros l' Hl'. destruct (decide (l = l')) as [<-|Hne].
      * right. destruct Hsel as [?|[?|[? ?]]]; auto.
      * left. apply list_lookup_alter_ne. done.
    + intros i l' _ _ Hl1 Hl2. rewrite length_alter in Hl2. lia.
Qed.

Lemma evolves_executed a f :
  evolves a (mkLayers (l_registries a) (l_main a) (l_isolated a) (l_internal a)
               (l_executed a ++ [f])).
Proof.
  split.
  - split; simpl; [lia | eauto | by apply prefix_app_r].
  - intros Hwf. split; simpl; auto. intros i l _ _ ? ?. lia.
Qed.

Lemma evolves_new_main a :
  evolves a (mkLayers (l_registries a ++ [∅]) (length (l_registries a))
               (l_isolated a) (l_internal a) (l_executed a)).
Proof.
  split.
  - split; simpl.
    + rewrite length_app. lia.
    + intros l r p m Hr Hp. exists r. split; [|done]. by apply lookup_app_l_Some.
    + reflexivity.
  - intros (Hm & Hi & Hmi & Hiso). split; simpl.
    + unfold well_formed. simpl. rewrite length_app. simpl.
      split_and!; try lia. intros i Hsi. destruct (Hiso i Hsi) as (? & ? & ?).
      split_and!; lia || done.
    + reflexivity.
    + right. lia.
    + auto.
    + intros l Hl. left. by apply lookup_app_l.
    + intros i l _ _ Hl1 Hl2. rewrite length_app in Hl2. simpl in Hl2.
      assert (l = length (l_registries a)) as -> by lia.
      rewrite lookup_app_r by lia. by rewrite Nat.sub_diag.
Qed.

Lemma evolves_reset a :
  evolves a (mkLayers (l_registries a ++ [∅]) (length (l_registries a))
               None (l_internal a) (l_executed a)).
Proof.
  split.
  - split; simpl.
    + rewrite length_app. lia.
    + intros l r p m Hr Hp. exists r. split; [|done]. by apply lookup_app_l_Some.
    + reflexivity.
  - intros (Hm & Hi & Hmi & Hiso). split; simpl.
    + unfold well_formed. simpl. rewrite length_app. simpl.
      split_and!; try lia. intros i Hsi. discriminate.
    + reflexivity.
    + right. lia.
    + auto.
    + intros l Hl. left. by apply lookup_app_l.
    + intros i l _ Hc. discriminate.
Qed.

Lemma evolves_isolate a :
  l_isolated a = None →
  evolves a (mkLayers (l_registries a ++ [∅]) (l_main a)
               (Some (length (l_registries a))) (l_internal a) (l_executed a)).
Proof.
  intros Hnone. split.
  - split; simpl.
    + rewrite length_app. lia.
    + intros l r p m Hr Hp. exists r. split; [|done]. by apply lookup_app_l_Some.
    + reflexivity.
  - intros (Hm & Hi & Hmi & Hiso). split; simpl.
    + unfold well_formed. simpl. rewrite length_app. simpl.
      split_and!; try lia. intros i [= <-]. split_and!; lia.
    + reflexivity.
    + auto.
    + right; right. eexists; split; [reflexivity|lia].
    + intros l Hl. left. by apply lookup_app_l.
    + intros i l Hc. congruence.
Qed.

Lemma evolves_leave a :
  evolves a (mkLayers (l_registries a) (l_main a) None (l_internal a) (l_executed a)).
Proof.
  split.
  - split; simpl; [lia | eauto | reflexivity].
  - intros (Hm & Hi & Hmi & Hiso). split; simpl; auto.
    + unfold well_formed. simpl. split_and!; try done.
    + intros i l _ Hc. discriminate.
Qed.

(** Restoring the main registry after a run that started on a fresh one. *)
Lemma evolves_restore a b :
  evolves (mkLayers (l_registries a ++ [∅]) (length (l_registries a))
             (l_isolated a) (l_internal a) (l_executed a)) b →
  evolves a (mkLayers (l_registries b) (l_main a) (l_isolated b) (l_internal b)
               (l_executed b)).
Proof.
  intros Hb.
  pose proof (evolves_new_main a) as Ha.
  split.
  - destruct (grows_trans _ _ _ (proj1 Ha) (proj1 Hb)) as [L K E].
    split; simpl; auto.
  - intros Hwf.
    pose proof (ev_wf _ _ (proj2 Ha Hwf)) as Hwf1.
    destruct (proj2 Hb Hwf1) as [W I M S F N]. simpl in *.
    destruct (proj1 Hb) as [L _ _]. simpl in L. rewrite length_app in L. simpl in L.
    destruct Hwf as (Hm & Hi & Hmi & Hiso).
    destruct W as (Wm & Wi & Wmi & Wiso).
    rewrite length_app in S, F, N. simpl in S, F, N.
    split; simpl.
    + unfold well_formed; simpl. split_and!; try lia; try congruence.
      intros i Hbi. destruct (Wiso i Hbi) as (? & ? & ?). split_and!; try done.
      destruct S as [Hs|[Hs|(j & Hs & ?)]].
      * rewrite Hs in Hbi. by destruct (Hiso i Hbi) as (? & ? & ?).
      * congruence.
      * rewrite Hs in Hbi. injection Hbi as <-. lia.
    + done.
    + auto.
    + destruct S as [Hs|[Hs|(j & Hs & ?)]]; auto.
      right; right. exists j. split; [done|lia].
    + intros l Hl. destruct (F l ltac:(lia)) as [Heq|[?|[?|[? _]]]]; auto; [|lia].
      left. rewrite Heq. by apply lookup_app_l.
    + intros i l Hai Hbi Hl1 Hl2.
      destruct (Hiso i Hai) as (? & _ & _).
      destruct (decide (l = length (l_registries a))) as [->|Hne].
      * destruct (F (length (l_registries a)) ltac:(lia)) as [Heq|[?|[Hs|[_ [?|?]]]]];
          try congruence; try lia.
        -- rewrite Heq. rewrite lookup_app_r by lia. by rewrite Nat.sub_diag.
        -- rewrite Hai in Hs. injection Hs as ->. lia.
      * apply (N i l Hai Hbi); lia.
Qed.

Lemma evolves_register st options p m :
  registry st (select_registry options p st) !! p = None →
  evolves (layers st)
    (mkLayers (alter (insert p m) (select_registry options p st) (moduleRegistries st))
       (_moduleRegistry st) (_isolatedModuleRegistry st) (_internalModuleRegistry st)
       (executed st)).
Proof.
  intros Hnone. apply (evolves_insert (layers st)); [|exact Hnone].
  simpl. revert Hnone. unfold select_registry.
  destruct (is_internal options); simpl; [auto|].
  destruct (_isolatedModuleRegistry st) as [i|] eqn:Hi; simpl.
  - rewrite orb_false_r. case_bool_decide as Hreg; simpl; [|auto].
    intros Hnone. rewrite Hnone in Hreg. by destruct Hreg.
  - rewrite orb_true_r. auto.
Qed.

Lemma resetModules_evolves st : evolves (layers st) (layers (resetModules st)).
Proof. apply (evolves_reset (layers st)). Qed.

Lemma shouldMock_evolves from moduleName st o st' :
  _shouldMock from moduleName st = (o, st') → evolves (layers st) (layers st').
Proof.
  unfold _shouldMock. intros Hrun.
  repeat case_match; injection Hrun as <- <-; apply evolves_refl.
Qed.

Lemma isolateModules_evolves (fn : M unit) :
  (∀ st o st', fn st = (o, st') → evolves (layers st) (layers st')) →
  ∀ st o st', isolateModules fn st = (o, st') → evolves (layers st) (layers st').
Proof.
  intros Hfn st o st'. unfold isolateModules.
  destruct (_isolatedModuleRegistry st) as [i|] eqn:Hi; simpl.
  { intros [= <- <-]. apply evolves_refl. }
  destruct (_isolatedMockRegistry st) as [j|] eqn:Hj; simpl.
  { intros [= <- <-]. apply evolves_refl. }
  destruct (fn (enter_isolation st)) as [o1 st1] eqn:Hrun. apply Hfn in Hrun.
  assert (evolves (layers st) (layers st1)) as Hst1.
  { eapply evolves_trans; [|exact Hrun].
    apply (evolves_isolate (layers st)). exact Hi. }
  destruct o1; intros [= <- <-]; [|exact Hst1|exact Hst1].
  eapply evolves_trans; [exact Hst1|]. apply (evolves_leave (layers st1)).
Qed.

Ltac destruct_innermost x :=
  lazymatch x with
  | context [match ?y with _ => _ end] => destruct_innermost y
  | _ => destruct x eqn:?
  end.

Ltac run_step H :=
  lazymatch type of H with
  | context [match ?x with _ => _ end] => destruct_innermost x
  end.

Ltac use_methods IH :=
  repeat match goal with
  | E : this_requireModule _ _ _ _ _ _ = (_, _) |- _ => apply (me_requireModule _ IH) in E
  | E : this_requireMock _ _ _ _ = (_, _) |- _ => apply (me_requireMock _ IH) in E
  | E : this_requireModuleOrMock _ _ _ _ = (_, _) |- _ => apply (me_requireModuleOrMock _ IH) in E
  | E : this_execModule _ _ _ _ _ _ = (_, _) |- _ => apply (me_execModule _ IH) in E
  | E : this_generateMock _ _ _ _ = (_, _) |- _ => apply (me_generateMock _ IH) in E
  | E : this_eval_expr _ _ _ _ = (_, _) |- _ => apply (me_eval_expr _ IH) in E
  | E : this_exec_stmt _ _ _ _ = (_, _) |- _ => apply (me_exec_stmt _ IH) in E
  | E : this_exec_stmts _ _ _ _ = (_, _) |- _ => apply (me_exec_stmts _ IH) in E
  | E : _shouldMock _ _ _ = (_, _) |- _ => apply shouldMock_evolves in E
  end.

Ltac run_cases IH H :=
  repeat run_step H; use_methods IH;
  first [exact H | injection H as <- <- | idtac].

Ltac chain :=
  unfold layers, registry_insert, mock_registry_insert, update_module, setMock,
    jest_unmock, jest_deepUnmock, jest_mock, _logFormattedReferenceError in *;
  cbn in *;
  solve [eauto 5 using evolves_trans, evolves_refl].

Lemma requireModule_evolves this :
  methods_evolve this →
  ∀ from moduleName options isRequireActual st o st',
    requireModule this from moduleName options isRequireActual st = (o, st') →
    evolves (layers st) (layers st').
Proof.
  intros IH from moduleName options isRequireActual st o st' Hrun.
  unfold requireModule, _requireCoreModule, bind, gets, modify, ret, throw, lift,
    new_module in Hrun.
  run_cases IH Hrun.
  all: try apply evolves_refl.
  all: match goal with E : registry _ _ !! _ = None |- _ =>
         pose proof (evolves_register _ _ _ (length (modules st)) E) end.
  all: chain.
Qed.

Lemma requireMock_evolves this :
  methods_evolve this →
  ∀ from moduleName st o st',
    requireMock this from moduleName st = (o, st') →
    evolves (layers st) (layers st').
Proof.
  intros IH from moduleName st o st' Hrun.
  unfold requireMock, bind, gets, modify, ret, throw, lift, new_module in Hrun.
  run_cases IH Hrun.
  all: try apply evolves_refl.
  all: chain.
Qed.

Lemma requireModuleOrMock_evolves this :
  methods_evolve this →
  ∀ from moduleName st o st',
    requireModuleOrMock config this from moduleName st = (o, st') →
    evolves (layers st) (layers st').
Proof.
  intros IH from moduleName st o st' Hrun.
  unfold requireModuleOrMock, try_catch, bind, gets, modify, ret, throw, lift in Hrun.
  run_cases IH Hrun.
  all: try apply evolves_refl.
  all: chain.
Qed.

Lemma execModule_evolves this :
  methods_evolve this →
  ∀ localModule options moduleRegistry from st o st',
    _execModule config this localModule options moduleRegistry from st = (o, st') →
    evolves (layers st) (layers st').
Proof.
  intros IH localModule options moduleRegistry from st o st' Hrun.
  unfold _execModule, bind, gets, modify, ret, throw, lift in Hrun.
  run_cases IH Hrun.
  all: try apply evolves_refl.
  all: try (pose proof (evolves_executed (layers st)
              (filename (module_at st localModule)))).
  all: chain.
Qed.

Lemma generateMock_evolves this :
  methods_evolve this →
  ∀ from moduleName st o st',
    _generateMock this from moduleName st = (o, st') →
    evolves (layers st) (layers st').
Proof.
  intros IH from moduleName st o st' Hrun.
  unfold _generateMock, bind, gets, modify, ret, throw, lift in Hrun.
  run_cases IH Hrun.
  all: try apply evolves_refl.
  all: try match goal with
       | E : evolves _ (layers ?r) |- _ =>
         pose proof (evolves_new_main (layers st));
         pose proof (evolves_restore (layers st) (layers r))
       end.
  all: unfold layers, new_registry, new_mock_registry in *; cbn in *.
  all: eauto 5 using evolves_trans, evolves_refl.
Qed.

Lemma eval_expr_evolves this :
  methods_evolve this →
  ∀ scope e st o st',
    eval_expr this scope e st = (o, st') → evolves (layers st) (layers st').
Proof.
  intros IH scope e st o st' Hrun.
  unfold eval_expr, requireInternalModule, requireActual, get_member,
    bind, gets, modify, ret, throw, lift in Hrun.
  destruct e; run_cases IH Hrun.
  all: try apply evolves_refl.
  all: chain.
Qed.

Lemma exec_stmt_evolves this :
  methods_evolve this →
  ∀ scope s st o st',
    exec_stmt this scope s st = (o, st') → evolves (layers st) (layers st').
Proof.
  intros IH scope s st o st' Hrun.
  destruct s; cbv [exec_stmt] in Hrun.
  13: { eapply isolateModules_evolves; [|exact Hrun]. apply (me_exec_stmts _ IH). }
  12: { injection Hrun as <- <-. apply resetModules_evolves. }
  all: unfold set_member, try_catch, bind, gets, modify, ret, throw, lift in Hrun.
  all: run_cases IH Hrun.
  all: try apply evolves_refl.
  all: try match goal with
       | |- context [jest_mock _ _ (option_map _ ?f) ?v _] => destruct f, v
       end.
  all: chain.
Qed.

Lemma exec_stmts_evolves this :
  methods_evolve this →
  ∀ scope body st o st',
    exec_stmts this scope body st = (o, st') → evolves (layers st) (layers st').
Proof.
  intros IH scope body st o st' Hrun.
  unfold exec_stmts, bind, ret in Hrun.
  destruct body; run_cases IH Hrun.
  all: try apply evolves_refl.
  all: chain.
Qed.

(** Whatever a method of the runtime does, and however it ends, the
    layers evolve. *)
Lemma methods_evolves (n : nat) : methods_evolve (methods config n).
Proof.
  induction n as [|n IH].
  - split; simpl; intros; simplify_eq; apply evolves_refl.
  - split; simpl.
    + apply requireModule_evolves, IH.
    + apply requireMock_evolves, IH.
    + apply requireModuleOrMock_evolves, IH.
    + apply execModule_evolves, IH.
    + apply generateMock_evolves, IH.
    + apply eval_expr_evolves, IH.
    + apply exec_stmt_evolves, IH.
    + apply exec_stmts_evolves, IH.
Qed.

(** ** Well-formed runtimes

    The constructor builds a well-formed runtime, and every method keeps a
    runtime well formed: the hypothesis [well_formed] of the properties
    below holds in every state a test can reach. *)

Lemma resetModules_well_formed st :
  well_formed (layers st) → well_formed (layers (resetModules st)).
Proof. intros Hwf. exact (ev_wf _ _ (proj2 (resetModules_evolves st) Hwf)). Qed.

Lemma initial_well_formed environment : well_formed (layers (initial config environment)).
Proof. unfold well_formed. cbn. split_and!; try lia. intros i [=]. Qed.

Lemma requireEach_evolves (n : nat) (files : list string) :
  ∀ st o st',
    requireEach (methods config n) files st = (o, st') →
    evolves (layers st) (layers st').
Proof.
  induction files as [|f files IH]; intros st o st' Hrun; simpl in Hrun.
  - injection Hrun as <- <-. apply evolves_refl.
  - unfold bind in Hrun.
    destruct (requireModule (methods config n) f None None false st) as [o1 st1] eqn:Hreq.
    apply (requireModule_evolves _ (methods_evolves n)) in Hreq.
    destruct o1; [|by injection Hrun as <- <-|by injection Hrun as <- <-].
    eapply evolves_trans; [exact Hreq|]. eapply IH. exact Hrun.
Qed.

Lemma constructor_well_formed (n : nat) (environment : Environment) o st :
  constructor config (methods config n) environment = (o, st) →
  well_formed (layers st).
Proof.
  unfold constructor. intros Hrun.
  apply requireEach_evolves in Hrun.
  refine (ev_wf _ _ (proj2 Hrun _)).
  apply resetModules_well_formed.
  destruct (automock config); [|apply initial_well_formed].
  assert (∀ files st0, well_formed (layers st0) →
            well_formed (layers
              (foldl (λ st filePath,
                        if includes NODE_MODULES filePath then
                          set_transitiveShouldMock
                            (<[getModuleID (_virtualMocks st) filePath None := false]>
                               (_transitiveShouldMock st)) st
                        else st) st0 files))) as Hfold.
  { induction files as [|f files IH]; intros st0 Hwf; simpl; [exact Hwf|].
    apply IH. destruct (includes NODE_MODULES f); exact Hwf. }
  apply Hfold, initial_well_formed.
Qed.

(** A method started in a well-formed runtime ends in one. *)
Lemma requireModule_well_formed (n : nat) from moduleName options actual st o st' :
  well_formed (layers st) →
  requireModule (methods config n) from moduleName options actual st = (o, st') →
  well_formed (layers st').
Proof.
  intros Hwf Hrun.
  exact (ev_wf _ _ (proj2 (requireModule_evolves _ (methods_evolves n) _ _ _ _ _ _ _ Hrun) Hwf)).
Qed.

(** ** Auto-mock generation *)

Lemma new_main_well_formed a :
  well_formed a →
  well_formed (mkLayers (l_registries a ++ [∅]) (length (l_registries a))
                 (l_isolated a) (l_internal a) (l_executed a)).
Proof. intros Hwf. exact (ev_wf _ _ (proj2 (evolves_new_main a) Hwf)). Qed.

(** A registry that is none of the three selected ones is not written. *)
Lemma evolves_untouched a b l :
  evolves a b → well_formed a →
  l < length (l_registries a) →
  l ≠ l_main a → l ≠ l_internal a → l_isolated a ≠ Some l →
  l_registries b !! l = l_registries a !! l.
Proof.
  intros [_ E] Hwf Hl Hm Hi Hs.
  destruct (ev_frame _ _ (E Hwf) l Hl) as [?|[?|[?|[? _]]]]; done.
Qed.

(** What the registry swap of [_generateMock] does achieve: however the
    generation ends, the registry object that was the main module registry
    when it started holds exactly the entries it held; and when the
    generation returns, that object is the main registry again (and the
    main mock registry is the one it was). *)
Lemma generateMock_leaves_main_registry (n : nat) (from moduleName : string)
    (st st' : Runtime) (o : outcome value) :
  well_formed (layers st) →
  _generateMock (methods config n) from moduleName st = (o, st') →
  moduleRegistries st' !! _moduleRegistry st = moduleRegistries st !! _moduleRegistry st ∧
  (∀ v, o = Ok v →
     _moduleRegistry st' = _moduleRegistry st ∧ _mockRegistry st' = _mockRegistry st).
Proof.
  intros Hwf Hrun.
  pose proof (methods_evolves n) as IH.
  unfold _generateMock, bind, gets, modify, ret, throw, lift in Hrun.
  repeat run_step Hrun.
  all: try match goal with
       | E : this_requireModule _ _ _ _ _ ?s = (_, ?r) |- _ =>
         apply (me_requireModule _ IH) in E;
         pose proof (new_main_well_formed _ Hwf) as Hwf1;
         pose proof (evolves_untouched _ _ (_moduleRegistry st) E Hwf1) as Hsame
       end.
  all: injection Hrun as <- <-.
  all: destruct Hwf as (Hm & Hi & Hmi & Hiso).
  all: unfold layers, new_registry, new_mock_registry in *; cbn in *.
  all: try solve [split; [done | try (intros ? [=]); auto]].
  all: assert (moduleRegistries r !! _moduleRegistry st
               = moduleRegistries st !! _moduleRegistry st) as Hkept
         by (rewrite Hsame;
             [ apply lookup_app_l; lia
             | rewrite length_app; simpl; lia
             | lia
             | congruence
             | intros Hc; destruct (Hiso _ Hc) as (? & ? & ?); congruence ]).
  all: split; [exact Hkept | try (intros ? [=]); auto].
Qed.

(** ** Isolation scopes *)

(** C5 (as amended): [isolateModules(fn)] throws, changing nothing, when an
    isolated module or mock registry is already active.  Otherwise [fn] runs
    with two fresh, empty isolated registries, and once it returns both are
    nulled.  If the isolated module registry allocated for the scope is
    still the active one when [fn] returns (a [resetModules] inside the
    scope drops it), no path that was absent from the main registry before
    the scope is present in the main registry after it. *)
Theorem isolateModules_scope (n : nat) (scope : Scope) (fn : list stmt) (st : Runtime) :
  let run := exec_stmts (methods config n) scope fn in
  (is_Some (_isolatedModuleRegistry st) ∨ is_Some (_isolatedMockRegistry st) →
   isolateModules run st
   = (Throw (Error "isolateModules cannot be nested inside another isolateModules."), st)) ∧
  (_isolatedModuleRegistry st = None → _isolatedMockRegistry st = None →
   let i := length (moduleRegistries st) in
   let j := length (mockRegistries st) in
   let st1 := enter_isolation st in
   _isolatedModuleRegistry st1 = Some i ∧ moduleRegistries st1 !! i = Some ∅ ∧
   _isolatedMockRegistry st1 = Some j ∧ mockRegistries st1 !! j = Some ∅ ∧
   ∀ st2, run st1 = (Ok tt, st2) →
     let st' := leave_isolation st2 in
     isolateModules run st = (Ok tt, st') ∧
     _isolatedModuleRegistry st' = None ∧ _isolatedMockRegistry st' = None ∧
     (well_formed (layers st) →
      _isolatedModuleRegistry st2 = Some i →
      ∀ p, registry st (_moduleRegistry st) !! p = None →
           registry st' (_moduleRegistry st') !! p = None)).
Proof.
  intros run. split.
  - intros Hnested. unfold isolateModules.
    destruct Hnested as [[i Hi]|[j Hj]].
    + rewrite Hi. rewrite bool_decide_eq_true_2 by eauto. reflexivity.
    + rewrite Hj. rewrite (bool_decide_eq_true_2 (is_Some (Some j))) by eauto.
      rewrite orb_true_r. reflexivity.
  - intros Hi Hj i j st1. split_and!.
    + reflexivity.
    + subst st1. unfold enter_isolation, new_registry. cbn.
      rewrite lookup_app_r by reflexivity. by rewrite Nat.sub_diag.
    + reflexivity.
    + subst st1. unfold enter_isolation, new_mock_registry. cbn.
      rewrite lookup_app_r by reflexivity. by rewrite Nat.sub_diag.
    + intros st2 Hfn st'. split_and!; try reflexivity.
      { unfold isolateModules. rewrite Hi, Hj. simpl. fold st1. rewrite Hfn. reflexivity. }
      intros Hwf Hactive p Hp.
      pose proof (exec_stmts_evolves _ (methods_evolves n) _ _ _ _ _ Hfn) as Hev.
      assert (evolves (layers st) (layers st1)) as Hin
        by (apply (evolves_isolate (layers st)); exact Hi).
      pose proof (ev_wf _ _ (proj2 Hin Hwf)) as Hwf1.
      destruct (proj2 Hev Hwf1) as [W I Mn S F N].
      destruct Hwf as (Hm & Hin' & Hmi & Hiso).
      pose proof (proj1 Hev) as [L _ _].
      subst st1 st' i. unfold layers, enter_isolation, leave_isolation, new_registry,
        new_mock_registry in *. cbn in *.
      rewrite length_app in *. cbn in *.
      unfold registry in *. cbn.
      destruct Mn as [Hmain|Hmain].
      * rewrite Hmain.
        destruct (F (_moduleRegistry st) ltac:(lia)) as [Heq|[?|[[= ?]|[? [?|?]]]]];
          try congruence; try lia.
        rewrite Heq. rewrite lookup_app_l by lia. exact Hp.
      * destruct W as (Wm & _). cbn in Wm.
        rewrite (N (length (moduleRegistries st)) (_moduleRegistry st2));
          [simpl; apply lookup_empty | reflexivity | exact Hactive | lia | exact Wm].
Qed.

(** ** Loading and re-entering modules *)

(** A request for a path that its registry already holds is answered from
    the registry: nothing is executed and nothing changes. *)
Lemma requireModule_cached this from moduleName options isRequireActual st p m :
  is_core_request moduleName = false →
  requireModule_path from moduleName options isRequireActual st = inr p →
  registry st (select_registry options p st) !! p = Some m →
  requireModule this from moduleName options isRequireActual st
  = (Ok (exports (module_at st m)), st).
Proof.
  intros Hcore Hpath Hreg. unfold requireModule_path in Hpath.
  unfold requireModule, bind, gets, ret, lift. rewrite Hcore.
  destruct (manualMock_path from moduleName options isRequireActual st) as [q|].
  - injection Hpath as ->. rewrite Hreg. cbv beta iota. rewrite Hreg. reflexivity.
  - rewrite Hpath, Hreg. cbv beta iota. rewrite Hreg. reflexivity.
Qed.

Lemma select_registry_main p st :
  is_Some (registry st (_moduleRegistry st) !! p) →
  select_registry None p st = _moduleRegistry st.
Proof.
  intros Hreg. unfold select_registry. simpl.
  rewrite bool_decide_eq_true_2 by exact Hreg. reflexivity.
Qed.

(** What [requireModule] returns is the [exports] of the module object its
    registry holds for the path when the call ends. *)
Lemma requireModule_returns_registered this from moduleName options isRequireActual
    st st' v p :
  is_core_request moduleName = false →
  requireModule_path from moduleName options isRequireActual st = inr p →
  requireModule this from moduleName options isRequireActual st = (Ok v, st') →
  ∃ m, registry st' (select_registry options p st) !! p = Some m ∧
       v = exports (module_at st' m).
Proof.
  intros Hcore Hpath Hrun. unfold requireModule_path in Hpath.
  unfold requireModule, bind, gets, ret, lift in Hrun. rewrite Hcore in Hrun.
  destruct (manualMock_path from moduleName options isRequireActual st) as [q|];
    [injection Hpath as -> | rewrite Hpath in Hrun].
  all: repeat run_step Hrun; try discriminate.
  all: injection Hrun as <- <-; eauto.
Qed.

Lemma select_registry_valid options p st :
  well_formed (layers st) →
  select_registry options p st < length (moduleRegistries st).
Proof.
  intros (Hm & Hi & _ & Hiso). unfold select_registry. simpl in *.
  destruct (is_internal options); simpl; [exact Hi|].
  destruct (_isolatedModuleRegistry st) as [i|]; simpl.
  - destruct (Hiso i eq_refl) as (? & _). by destruct (bool_decide _).
  - rewrite orb_true_r. exact Hm.
Qed.

Lemma registry_kept a b l p m :
  grows (layers a) (layers b) →
  registry a l !! p = Some m → registry b l !! p = Some m.
Proof.
  intros [_ K _]. unfold registry. simpl in K.
  destruct (moduleRegistries a !! l) as [r|] eqn:Hr; [|simpl; by rewrite lookup_empty].
  simpl. intros Hp. destruct (K l r p m Hr Hp) as (r' & -> & Hp'). exact Hp'.
Qed.

(** C4 (as amended): let a first require have loaded module [p] into the
    main module registry (or found it there), and let any code run after
    it.  As long as that registry object is the main registry when a second
    require resolving to [p] is made (no [resetModules] has replaced it and
    no auto-mock generation has put a fresh one in its place), the second
    require is answered with the exports of the very module object the
    first one answered with, and leaves the runtime exactly as it was: the
    module body is not executed again.  The value is the identical exports
    object unless [module.exports] of that module has been reassigned in
    between. *)
Theorem requireModule_identity (k j n : nat) (from1 from2 : string)
    (name1 name2 : option string) (actual1 actual2 : bool)
    (scope : Scope) (code : list stmt) (o : outcome unit)
    (st0 st1 st2 : Runtime) (v1 : value) (p : string) :
  is_core_request name1 = false →
  requireModule_path from1 name1 None actual1 st0 = inr p →
  select_registry None p st0 = _moduleRegistry st0 →
  requireModule (methods config k) from1 name1 None actual1 st0 = (Ok v1, st1) →
  exec_stmts (methods config j) scope code st1 = (o, st2) →
  _moduleRegistry st2 = _moduleRegistry st0 →
  is_core_request name2 = false →
  requireModule_path from2 name2 None actual2 st2 = inr p →
  ∃ m, registry st1 (_moduleRegistry st0) !! p = Some m ∧
       v1 = exports (module_at st1 m) ∧
       requireModule (methods config n) from2 name2 None actual2 st2
       = (Ok (exports (module_at st2 m)), st2) ∧
       (exports (module_at st2 m) = exports (module_at st1 m) →
        requireModule (methods config n) from2 name2 None actual2 st2 = (Ok v1, st2)).
Proof.
  intros Hcore1 Hpath1 Hmain0 Hrun1 Hcode Hmain2 Hcore2 Hpath2.
  destruct (requireModule_returns_registered _ _ _ _ _ _ _ _ _ Hcore1 Hpath1 Hrun1)
    as (m & Hreg & ->).
  rewrite Hmain0 in Hreg.
  pose proof (exec_stmts_evolves _ (methods_evolves j) _ _ _ _ _ Hcode) as [Hg _].
  pose proof (registry_kept _ _ _ _ _ Hg Hreg) as Hreg2.
  rewrite <- Hmain2 in Hreg2.
  assert (requireModule (methods config n) from2 name2 None actual2 st2
          = (Ok (exports (module_at st2 m)), st2)) as Hsecond.
  { apply (requireModule_cached _ _ _ _ _ _ p m); [exact Hcore2 | exact Hpath2 |].
    rewrite select_registry_main by eauto. exact Hreg2. }
  exists m. split_and!; [exact Hreg | reflexivity | exact Hsecond |].
  intros <-. exact Hsecond.
Qed.

(** How [requireModule] loads a module its registry does not hold: it
    allocates the module object, registers it, and only then executes. *)
Lemma requireModule_load (this : Methods) (from : string)
    (moduleName : option string) (options : option InternalModuleOptions)
    (actual : bool) (st : Runtime) (p : string) :
  well_formed (layers st) →
  is_core_request moduleName = false →
  requireModule_path from moduleName options actual st = inr p →
  registry st (select_registry options p st) !! p = None →
  path_extname p ≠ ".json" → path_extname p ≠ ".node" →
  let l := select_registry options p st in
  let m := length (modules st) in
  let o := length (objects st) in
  let fromPath := if truthy_str moduleName then Some from else None in
  let st_pre := registry_insert l p m (snd (new_module p st)) in
  registry st_pre l !! p = Some m ∧
  module_at st_pre m = mkModule [] (VObj o) p p false None None None ∧
  objects st_pre !! o = Some ∅ ∧
  (∀ out st1,
     this_execModule this m options (ModuleRegistry l) fromPath st_pre = (out, st1) →
     grows (layers st_pre) (layers st1) →
     requireModule this from moduleName options actual st
     = match out with
       | Ok _ =>
         let st2 := update_module m (Module_set_loaded true) st1 in
         (Ok (exports (module_at st2 m)), st2)
       | Throw e => (Throw e, st1)
       | OutOfFuel => (OutOfFuel, st1)
       end).
Proof.
  intros Hwf Hcore Hpath Hnone Hjson Hnode l m o fromPath st_pre.
  pose proof (select_registry_valid options p st Hwf) as Hl. fold l in Hl, Hnone.
  assert (registry st_pre l !! p = Some m) as Hreg.
  { subst st_pre. unfold registry, registry_insert, new_module. cbn.
    rewrite list_lookup_alter_eq.
    destruct (lookup_lt_is_Some_2 _ _ Hl) as [r Hr]. rewrite Hr. simpl.
    apply lookup_insert_eq. }
  split_and!.
  - exact Hreg.
  - subst st_pre. unfold module_at, registry_insert, new_module. cbn.
    rewrite lookup_app_r by reflexivity. fold m. by rewrite Nat.sub_diag.
  - subst st_pre. unfold registry_insert, new_module. cbn.
    rewrite lookup_app_r by reflexivity. fold o. by rewrite Nat.sub_diag.
  - intros out st1 Hexec Hg.
    pose proof (registry_kept _ _ _ _ _ Hg Hreg) as Hreg1.
    unfold requireModule_path in Hpath.
    unfold requireModule, bind, gets, modify, ret, lift. rewrite Hcore.
    destruct (manualMock_path from moduleName options actual st) as [q|];
      [injection Hpath as -> | rewrite Hpath].
    all: cbv beta iota; fold l; rewrite Hnone.
    all: rewrite (proj2 (String.eqb_neq _ _) Hjson), (proj2 (String.eqb_neq _ _) Hnode).
    all: unfold new_module at 1; cbv beta iota; fold m; fold o.
    all: change (registry_insert l p m _) with st_pre.
    all: fold fromPath; rewrite Hexec.
    all: destruct out; try reflexivity.
    all: cbv beta iota zeta.
    all: assert (registry (update_module m (Module_set_loaded true) st1) l !! p = Some m)
           as -> by exact Hreg1.
    all: reflexivity.
Qed.

(** C3 (as amended): when [requireModule] loads a module that its registry
    does not hold yet, the pre-allocated module object, with an empty
    exports object and [loaded = false], is in that registry before the
    body executes; the body runs from that state.  From then on, whatever
    code has run in between, a require that resolves to the same path and
    still selects that registry (no [resetModules], isolation scope or
    auto-mock generation has put another registry in front) returns the
    module's exports as they are at that instant, executes nothing and
    does not throw. *)
Theorem requireModule_registers_first (n : nat) (from : string)
    (moduleName : option string) (options : option InternalModuleOptions)
    (actual : bool) (st : Runtime) (p : string) :
  well_formed (layers st) →
  is_core_request moduleName = false →
  requireModule_path from moduleName options actual st = inr p →
  registry st (select_registry options p st) !! p = None →
  path_extname p ≠ ".json" → path_extname p ≠ ".node" →
  let l := select_registry options p st in
  let m := length (modules st) in
  let o := length (objects st) in
  let fromPath := if truthy_str moduleName then Some from else None in
  let st_pre := registry_insert l p m (snd (new_module p st)) in
  registry st_pre l !! p = Some m ∧
  module_at st_pre m = mkModule [] (VObj o) p p false None None None ∧
  objects st_pre !! o = Some ∅ ∧
  (∀ out st1,
     this_execModule (methods config n) m options (ModuleRegistry l) fromPath st_pre
     = (out, st1) →
     requireModule (methods config n) from moduleName options actual st
     = match out with
       | Ok _ =>
         let st2 := update_module m (Module_set_loaded true) st1 in
         (Ok (exports (module_at st2 m)), st2)
       | Throw e => (Throw e, st1)
       | OutOfFuel => (OutOfFuel, st1)
       end) ∧
  (∀ k scope code out st_b st_t,
     registry st_b l !! p = Some m →
     exec_stmts (methods config k) scope code st_b = (out, st_t) →
     select_registry options p st_t = l →
     ∀ j from' name' actual',
       is_core_request name' = false →
       requireModule_path from' name' options actual' st_t = inr p →
       requireModule (methods config j) from' name' options actual' st_t
       = (Ok (exports (module_at st_t m)), st_t)).
Proof.
  intros Hwf Hcore Hpath Hnone Hjson Hnode l m o fromPath st_pre.
  destruct (requireModule_load (methods config n) from moduleName options actual st p
              Hwf Hcore Hpath Hnone Hjson Hnode) as (Hreg & Hmod & Hobj & Hload).
  split_and!; [exact Hreg | exact Hmod | exact Hobj | |].
  - intros out st1 Hexec. apply Hload; [exact Hexec|].
    exact (proj1 (me_execModule _ (methods_evolves n) _ _ _ _ _ _ _ Hexec)).
  - intros k scope code out st_b st_t Hb Hrun Hsel j from' name' actual' Hcore' Hpath'.
    pose proof (exec_stmts_evolves _ (methods_evolves k) _ _ _ _ _ Hrun) as [Hg _].
    apply (requireModule_cached _ _ _ _ _ _ p m); [exact Hcore' | exact Hpath' |].
    rewrite Hsel. eapply registry_kept; eauto.
Qed.

(** ** Teardown *)

(** C2 (as amended): loading a module (not JSON, not native) in a sandbox
    that has been torn down does not throw and does not execute the body.
    When the environment's global object is absent the executor returns at
    once: nothing is logged and the exit code is not touched.  When the
    global is still there but [runScript] returns [null], the runtime logs
    the reference error and sets the process exit code to 1.  In both
    cases the require returns the pre-allocated, empty exports object. *)
Theorem requireModule_after_teardown (n : nat) (from : string)
    (moduleName : option string) (options : option InternalModuleOptions)
    (actual : bool) (st : Runtime) (p : string) :
  well_formed (layers st) →
  is_core_request moduleName = false →
  requireModule_path from moduleName options actual st = inr p →
  registry st (select_registry options p st) !! p = None →
  path_extname p ≠ ".json" → path_extname p ≠ ".node" →
  let o := length (objects st) in
  let this := methods config (S n) in
  (global (_environment st) = None →
   ∃ st', requireModule this from moduleName options actual st = (Ok (VObj o), st') ∧
          objects st' !! o = Some ∅ ∧
          console_error st' = console_error st ∧
          process_exitCode st' = process_exitCode st ∧
          executed st' = executed st) ∧
  (∀ g t, global (_environment st) = Some g →
          context (_environment st) = false →
          transform p (is_internal options) = inr t →
   ∃ st', requireModule this from moduleName options actual st = (Ok (VObj o), st') ∧
          objects st' !! o = Some ∅ ∧
          console_error st' = (console_error st ++ [torn_down_message])%list ∧
          process_exitCode st' = Some 1%Z ∧
          executed st' = executed st).
Proof.
  intros Hwf Hcore Hpath Hnone Hjson Hnode o this.
  destruct (requireModule_load this from moduleName options actual st p
              Hwf Hcore Hpath Hnone Hjson Hnode) as (Hreg & Hmod & Hobj & Hload).
  set (st_pre := registry_insert (select_registry options p st) p (length (modules st))
                   (snd (new_module p st))) in *.
  set (m := length (modules st)) in *.
  assert (modules st_pre !! m = Some (mkModule [] (VObj o) p p false None None None)) as Hm.
  { subst st_pre. unfold registry_insert, new_module. cbn.
    rewrite lookup_app_r by reflexivity. fold m. by rewrite Nat.sub_diag. }
  assert (_environment st_pre = _environment st) as Henv by reflexivity.
  assert (console_error st_pre = console_error st) as Hlog by reflexivity.
  assert (process_exitCode st_pre = process_exitCode st) as Hexit by reflexivity.
  assert (executed st_pre = executed st) as Hexecuted by reflexivity.
  clearbody st_pre. rewrite <- Henv, <- Hlog, <- Hexit, <- Hexecuted.
  clear Henv Hlog Hexit Hexecuted.
  split.
  - intros Hglobal.
    match type of Hload with ∀ out st1, ?call = _ → _ =>
      assert (call = (Ok tt, st_pre)) as Hexec end.
    { subst this. cbn [methods this_execModule].
      unfold _execModule, bind, gets, ret. rewrite Hglobal. reflexivity. }
    specialize (Hload _ _ Hexec (grows_refl _)). cbv beta iota zeta in Hload.
    eexists. split; [rewrite Hload; f_equal; f_equal|].
    + unfold module_at, update_module. cbn.
      rewrite list_lookup_alter_eq, Hm. reflexivity.
    + split_and!; [exact Hobj | reflexivity | reflexivity | reflexivity].
  - intros g t Hglobal Hcontext Htransform.
    match type of Hload with ∀ out st1, ?call = _ → _ =>
      destruct call as [out st1] eqn:Hexec end.
    pose proof (me_execModule _ (methods_evolves (S n)) _ _ _ _ _ _ _ Hexec) as [Hg _].
    specialize (Hload _ _ eq_refl Hg).
    subst this. cbn [methods this_execModule] in Hexec.
    unfold _execModule, bind, gets, modify, ret, lift in Hexec.
    rewrite Hglobal in Hexec. cbv beta iota in Hexec.
    unfold module_at in Hexec. rewrite Hm in Hexec. cbn in Hexec.
    rewrite Htransform in Hexec.
    destruct (truthy_str (sourceMapPath t)), (mapCoverage t); cbn in Hexec;
      rewrite Hcontext in Hexec; cbn in Hexec;
      injection Hexec as <- <-; cbv beta iota zeta in Hload.
    all: eexists; split; [rewrite Hload; f_equal; f_equal|].
    all: try (unfold module_at, update_module; cbn;
              rewrite !list_lookup_alter_eq, Hm; reflexivity).
    all: split_and!; [exact Hobj | reflexivity | reflexivity | reflexivity].
Qed.

(** ** Reset *)




Lemma resetModules_mock_empty st :
  mock_registry (resetModules st) (_mockRegistry (resetModules st)) = ∅.
Proof.
  unfold mock_registry, resetModules, new_registry, new_mock_registry. cbn.
  rewrite lookup_app_r by reflexivity. by rewrite Nat.sub_diag.
Qed.








End Properties.
(** * Further properties *)

Section MoreProperties.
Context `{Resolver} `{ScriptTransformer} `{ModuleMocker} `{Host}.
Variable config : ProjectConfig.

(** ** Explicit mock decisions *)

(** X1: after [jest.mock(name)], [jest.mock(name, factory, options)] or
    [jest.setMock(name, value)] called from [from], [_shouldMock] answers
    true for every request to which the resolver gives the same module id,
    whatever the auto-mock flag, the unmock list and the caches say, and
    changes nothing. *)
Theorem explicit_mock_decides (from name from2 name2 : string)
    (mockFactory : option MockFactory) (virtual : bool) (st : Runtime) :
  let st' := jest_mock from name mockFactory virtual st in
  getModuleID (_virtualMocks st') from2 (Some name2)
  = getModuleID (_virtualMocks st') from (Some name) →
  _shouldMock from2 name2 st' = (Ok true, st').
Proof.
  intros st' Hid. unfold _shouldMock.
  case_bool_decide as Hv; [reflexivity|].
  rewrite Hid.
  assert (_explicitShouldMock st' !! getModuleID (_virtualMocks st') from (Some name)
          = Some true) as ->; [|reflexivity].
  subst st'. unfold jest_mock, setMock.
  destruct mockFactory as [f|]; [destruct virtual|]; cbn; apply lookup_insert_eq.
Qed.

(** X2: after [jest.unmock(name)] or [jest.deepUnmock(name)] called from
    [from], [_shouldMock] answers false for every request with the same
    module id, except that a virtual mock registered at the request's
    module path still wins: then the answer stays true. *)
Theorem explicit_unmock_decides (from name from2 name2 : string) (st : Runtime) :
  getModuleID (_virtualMocks st) from2 (Some name2)
  = getModuleID (_virtualMocks st) from (Some name) →
  let virtual := bool_decide (is_Some (_virtualMocks st !! getModulePath from2 name2)) in
  _shouldMock from2 name2 (jest_unmock from name st)
  = (Ok virtual, jest_unmock from name st) ∧
  _shouldMock from2 name2 (jest_deepUnmock from name st)
  = (Ok virtual, jest_deepUnmock from name st).
Proof.
  intros Hid virtual. subst virtual.
  split; unfold _shouldMock, jest_unmock, jest_deepUnmock; cbn.
  all: case_bool_decide as Hv; [reflexivity|].
  all: rewrite Hid, lookup_insert_eq; reflexivity.
Qed.

(** ** What [require] answers *)

Lemma requireCoreModule_state (moduleName : string) (st : Runtime) :
  snd (_requireCoreModule moduleName st) = st.
Proof.
  unfold _requireCoreModule, lift.
  destruct (String.eqb moduleName "process"); [by destruct (global (_environment st))|].
  by destruct (native_require moduleName).
Qed.

Lemma truthy_str_Some (s : string) : s ≠ "" → truthy_str (Some s) = true.
Proof. intros Hs. simpl. by rewrite (proj2 (String.eqb_neq _ _) Hs). Qed.

(** X3: a core module that has no explicit or virtual mock is never mocked
    and never registered: [require] of it, auto-mock on or off, answers
    what [_requireCoreModule] answers (the sandbox's own [process], or the
    host's module) and leaves the runtime as it was. *)
Theorem require_core_module (n : nat) (from name : string) (v : value) (st : Runtime) :
  name ≠ "" →
  isCoreModule name = true →
  _virtualMocks st !! getModulePath from name = None →
  _explicitShouldMock st !! getModuleID (_virtualMocks st) from (Some name) = None →
  fst (_requireCoreModule name st) = Ok v →
  requireModuleOrMock config (methods config (S n)) from name st = (Ok v, st).
Proof.
  intros Hname Hcore Hv He Hres.
  pose proof (requireCoreModule_state name st) as Hst.
  destruct (_requireCoreModule name st) as [o st'] eqn:Hrun. simpl in Hres, Hst. subst o st'.
  unfold requireModuleOrMock, try_catch, bind.
  assert (_shouldMock from name st = (Ok false, st)) as ->.
  { unfold _shouldMock. rewrite Hv, He, Hcore.
    rewrite bool_decide_eq_false_2 by (intros [? ?]; discriminate).
    by rewrite orb_true_r. }
  cbn [this_requireModule methods].
  unfold requireModule, bind, gets, is_core_request.
  change (default "" (Some name)) with name.
  rewrite (truthy_str_Some _ Hname), Hcore. cbn [andb].
  by rewrite Hrun.
Qed.

Lemma manualMock_path_without_mock (from name : string)
    (options : option InternalModuleOptions) (actual : bool) (st : Runtime) :
  truthy_str (getMockModule from name) = false →
  manualMock_path from (Some name) options actual st = None.
Proof.
  intros Hmock. unfold manualMock_path, and_then.
  destruct (truthy_str (Some name)); [rewrite Hmock|]; simpl.
  all: by rewrite ?andb_false_r.
Qed.

Lemma mock_registry_insert_lookup (l : nat) (moduleID : string) (v : value) (st : Runtime) :
  l < length (mockRegistries st) →
  mock_registry (mock_registry_insert l moduleID v st) l !! moduleID = Some v.
Proof.
  intros Hl. unfold mock_registry, mock_registry_insert. cbn.
  rewrite list_lookup_alter_eq.
  destruct (lookup_lt_is_Some_2 _ _ Hl) as [r ->]. simpl. apply lookup_insert_eq.
Qed.

(** An explicit decision to mock is final. *)
Lemma shouldMock_explicit_true (from name : string) (st : Runtime) :
  _explicitShouldMock st !! getModuleID (_virtualMocks st) from (Some name) = Some true →
  _shouldMock from name st = (Ok true, st).
Proof.
  intros He. unfold _shouldMock. case_bool_decide; [reflexivity|]. by rewrite He.
Qed.

Lemma jest_mock_explicit (from name : string) (f : option MockFactory) (virtual : bool)
    (st : Runtime) :
  let st' := jest_mock from name f virtual st in
  _explicitShouldMock st' !! getModuleID (_virtualMocks st') from (Some name) = Some true.
Proof.
  unfold jest_mock, setMock.
  destruct f as [f|]; [destruct virtual|]; cbn; apply lookup_insert_eq.
Qed.

(** X4: a request that the resolver cannot resolve, that names no core
    module and has no manual mock, no mock factory and no mock already
    made, always throws from [require]: whatever the mock decision is, the
    error is the resolver's, with the hint of [findSiblingsWithFileExtension]
    appended to the message when its code is MODULE_NOT_FOUND, and the
    runtime is left as it was. *)
Theorem require_unresolvable (n : nat) (from name : string) (e : JsError) (st : Runtime) :
  let moduleID := getModuleID (_virtualMocks st) from (Some name) in
  name ≠ "" →
  isCoreModule name = false →
  resolveModule from name = inl e →
  truthy_str (getMockModule from name) = false →
  _mockFactories st !! moduleID = None →
  no_mock_hit moduleID st →
  requireModuleOrMock config (methods config (S n)) from name st
  = (Throw (if bool_decide (code e = Some "MODULE_NOT_FOUND")
            then mkError (code e)
                   (message e +:+
                    findSiblingsWithFileExtension (moduleFileExtensions config) from name)
            else e), st).
Proof.
  intros moduleID Hname Hcore Hres Hmock Hfac [Hiso Hmain].
  assert (_resolveModule from (Some name) = inl e) as Hr.
  { unfold _resolveModule. by rewrite (truthy_str_Some _ Hname). }
  assert (requireModule (methods config n) from (Some name) None false st = (Throw e, st))
    as Hmodule.
  { unfold requireModule, bind, gets, is_core_request.
    rewrite (manualMock_path_without_mock _ _ _ _ _ Hmock).
    change (default "" (Some name)) with name.
    rewrite Hcore, andb_false_r. cbv beta iota.
    unfold lift. by rewrite Hr. }
  assert (requireMock (methods config n) from name st = (Throw e, st)) as Hrmock.
  { unfold requireMock, bind, gets, ret. cbv beta iota. fold moduleID.
    rewrite Hiso, Hmain, Hfac, Hmock. unfold lift. by rewrite Hr. }
  assert (∃ o, _shouldMock from name st = (o, st) ∧
               (o = Throw e ∨ ∃ b, o = Ok b)) as (o & Hs & Ho).
  { unfold _shouldMock. fold moduleID. rewrite Hr, Hmock.
    repeat case_match; eauto. }
  unfold requireModuleOrMock, try_catch, bind. rewrite Hs.
  cbn [this_requireModule this_requireMock methods].
  destruct Ho as [->|[[] ->]]; [|rewrite Hrmock|rewrite Hmodule].
  all: unfold throw; case_bool_decide; reflexivity.
Qed.

(** X5: a module factory given to [jest.mock] is called at the first
    [require] of the module, not before; its value is what [require]
    answers and is stored under the module id in the active mock registry
    (the isolated one inside [isolateModules], else the main one).  While
    that registry is in place a truthy value is answered again by the next
    [require], which calls no factory and changes nothing. *)
Theorem mock_factory_called_once (n : nat) (from name : string) (f : MockFactory)
    (virtual : bool) (st st2 : Runtime) (v : value) :
  let st1 := jest_mock from name (Some f) virtual st in
  let moduleID := getModuleID (_virtualMocks st1) from (Some name) in
  let mockRegistry := default (_mockRegistry st1) (_isolatedMockRegistry st1) in
  let st3 := mock_registry_insert mockRegistry moduleID v st2 in
  no_mock_hit moduleID st1 →
  eval_expr (methods config n) (mf_scope f) (mf_body f) st1 = (Ok v, st2) →
  requireModuleOrMock config (methods config (S (S n))) from name st1 = (Ok v, st3) ∧
  (truthy v = true →
   mockRegistry < length (mockRegistries st2) →
   _virtualMocks st2 = _virtualMocks st1 →
   _mockRegistry st2 = _mockRegistry st1 →
   _isolatedMockRegistry st2 = _isolatedMockRegistry st1 →
   ∀ this, requireMock this from name st3 = (Ok v, st3)).
Proof.
  intros st1 moduleID mockRegistry st3 [Hiso Hmain] Heval.
  assert (_shouldMock from name st1 = (Ok true, st1)) as Hs.
  { apply shouldMock_explicit_true, jest_mock_explicit. }
  assert (_mockFactories st1 !! moduleID = Some f) as Hfac.
  { subst moduleID st1. unfold jest_mock, setMock. destruct virtual; cbn; apply lookup_insert_eq. }
  split.
  - unfold requireModuleOrMock, try_catch, bind. rewrite Hs.
    cbn [this_requireMock methods].
    unfold requireMock, bind, gets, ret, modify. cbv beta iota. fold moduleID.
    rewrite Hiso, Hmain, Hfac.
    cbn [this_eval_expr methods]. rewrite Heval. reflexivity.
  - intros Hv Hlen Hvm Hmr Hir this.
    unfold requireMock, bind, gets, ret. cbv beta iota.
    assert (_virtualMocks st3 = _virtualMocks st1) as -> by (subst st3; cbn; exact Hvm).
    fold moduleID.
    assert (mock_registry st3 mockRegistry !! moduleID = Some v) as Hhit.
    { apply mock_registry_insert_lookup, Hlen. }
    assert (_isolatedMockRegistry st3 = _isolatedMockRegistry st1) as Hir3
      by (subst st3; cbn; exact Hir).
    assert (_mockRegistry st3 = _mockRegistry st1) as Hmr3 by (subst st3; cbn; exact Hmr).
    rewrite Hir3, Hmr3. unfold mockRegistry in Hhit.
    destruct (_isolatedMockRegistry st1) as [l|] eqn:Hl.
    + change (default _ (Some l)) with l in Hhit. rewrite Hhit.
      change (default VUndefined (Some v)) with v. rewrite Hv. reflexivity.
    + change (default (_mockRegistry st1) None) with (_mockRegistry st1) in Hhit.
      rewrite Hhit. change (default VUndefined (Some v)) with v. rewrite Hv.
      cbn [truthy]. reflexivity.
Qed.

(** ** Loading a module *)

Lemma registry_insert_lookup (l : nat) (p : string) (m : nat) (st : Runtime) :
  l < length (moduleRegistries st) →
  registry (registry_insert l p m st) l !! p = Some m.
Proof.
  intros Hl. unfold registry, registry_insert. cbn.
  rewrite list_lookup_alter_eq.
  destruct (lookup_lt_is_Some_2 _ _ Hl) as [r ->]. simpl. apply lookup_insert_eq.
Qed.

Lemma module_at_update (m : nat) (f : Module → Module) (st : Runtime) :
  m < length (modules st) →
  module_at (update_module m f st) m = f (module_at st m).
Proof.
  intros Hm. unfold module_at, update_module. cbn.
  rewrite list_lookup_alter_eq.
  by destruct (lookup_lt_is_Some_2 _ _ Hm) as [M ->].
Qed.

Lemma update_module_length (m : nat) (f : Module → Module) (st : Runtime) :
  length (modules (update_module m f st)) = length (modules st).
Proof. unfold update_module. cbn. apply length_alter. Qed.

Lemma preregistered_lookup options p st :
  well_formed (layers st) →
  registry (preregistered options p st) (select_registry options p st) !! p
  = Some (length (modules st)).
Proof.
  intros Hwf. apply registry_insert_lookup.
  unfold new_module. cbn. by apply select_registry_valid.
Qed.

(** Whatever the outcome of a load, the module object stays registered. *)
Lemma requireModule_registered (k : nat) (from : string) (moduleName : option string)
    (options : option InternalModuleOptions) (actual : bool) (st st' : Runtime)
    (p : string) (o : outcome value) :
  well_formed (layers st) →
  is_core_request moduleName = false →
  requireModule_path from moduleName options actual st = inr p →
  registry st (select_registry options p st) !! p = None →
  requireModule (methods config k) from moduleName options actual st = (o, st') →
  registry st' (select_registry options p st) !! p = Some (length (modules st)).
Proof.
  intros Hwf Hcore Hpath Hnone Hrun.
  pose proof (preregistered_lookup options p st Hwf) as Hreg.
  set (l := select_registry options p st) in *.
  assert (∀ s, grows (layers (preregistered options p st)) (layers s) →
               registry s l !! p = Some (length (modules st))) as Hkept.
  { intros s Hg. exact (registry_kept _ _ _ _ _ Hg Hreg). }
  unfold requireModule_path in Hpath.
  unfold requireModule, bind, gets, modify, ret, lift, throw in Hrun.
  rewrite Hcore in Hrun.
  destruct (manualMock_path from moduleName options actual st) as [q|];
    [injection Hpath as -> | rewrite Hpath in Hrun].
  all: cbv beta iota in Hrun; fold l in Hrun; rewrite Hnone in Hrun.
  all: unfold new_module at 1 in Hrun; cbv beta iota in Hrun.
  all: change (registry_insert l p (length (modules st)) _)
         with (preregistered options p st) in Hrun.
  all: set (pre := preregistered options p st) in *.
  all: assert (grows (layers pre) (layers pre)) as Hrefl by apply grows_refl.
  all: repeat match type of Hrun with
       | context [match ?x with _ => _ end] =>
           lazymatch x with
           | context [match _ with _ => _ end] => fail
           | _ => destruct x eqn:?
           end
       end.
  all: try match goal with
       | E : this_execModule _ _ _ _ _ _ = (_, _) |- _ =>
           apply (me_execModule _ (methods_evolves config k)) in E; destruct E as [E _]
       end.
  all: try discriminate.
  all: injection Hrun as <- <-.
  all: try (apply Hkept; assumption).
  all: try (unfold registry, update_module; cbn;
            match goal with E : grows _ _ |- _ => exact (Hkept _ E) end).
  all: try (unfold registry, update_module; cbn; exact (Hkept _ Hrefl)).
Qed.

(** X6: a load that throws is not retried.  When the first [requireModule]
    of a path throws (the module's body threw, its file could not be
    transformed, its JSON could not be read or parsed), the pre-registered
    module object stays in the registry; as long as the same registry is
    selected for the path, the next [requireModule] of it runs nothing
    and throws nothing: it answers the exports the failed load left. *)
Theorem failed_load_not_retried (k : nat) (from : string) (moduleName : option string)
    (options : option InternalModuleOptions) (actual : bool) (st st' : Runtime)
    (p : string) (e : JsError) :
  well_formed (layers st) →
  is_core_request moduleName = false →
  requireModule_path from moduleName options actual st = inr p →
  registry st (select_registry options p st) !! p = None →
  requireModule (methods config k) from moduleName options actual st = (Throw e, st') →
  select_registry options p st' = select_registry options p st →
  requireModule_path from moduleName options actual st' = inr p →
  ∀ this, requireModule this from moduleName options actual st'
          = (Ok (exports (module_at st' (length (modules st)))), st').
Proof.
  intros Hwf Hcore Hpath Hnone Hrun Hsel Hpath' this.
  apply (requireModule_cached _ _ _ _ _ _ p); [exact Hcore|exact Hpath'|].
  rewrite Hsel. exact (requireModule_registered _ _ _ _ _ _ _ _ _ Hwf Hcore Hpath Hnone Hrun).
Qed.

(** X7: a [.json] module is read and parsed in the sandbox, never
    executed: [requireModule] answers the parsed value, which becomes the
    module's exports, marks the module loaded and runs no wrapper.  When
    the text does not parse, the error of [JSON.parse] is thrown; in a
    sandbox whose global is gone the load throws before the file is read.
    In both cases the module object stays registered, not loaded. *)
Theorem requireModule_json (this : Methods) (from : string) (moduleName : option string)
    (options : option InternalModuleOptions) (actual : bool) (st : Runtime) (p : string) :
  well_formed (layers st) →
  is_core_request moduleName = false →
  requireModule_path from moduleName options actual st = inr p →
  registry st (select_registry options p st) !! p = None →
  path_extname p = ".json" →
  let m := length (modules st) in
  let pre := preregistered options p st in
  registry pre (select_registry options p st) !! p = Some m ∧
  loaded (module_at pre m) = false ∧
  (∀ source v,
     is_Some (global (_environment st)) →
     fs_readFileSync p = inr source →
     JSON_parse (stripBOM source) = inr v →
     let st' := update_module m (Module_set_loaded true)
                  (update_module m (Module_set_exports v) pre) in
     requireModule this from moduleName options actual st = (Ok v, st') ∧
     module_at st' m = mkModule [] v p p true None None None ∧
     executed st' = executed st) ∧
  (∀ source e,
     is_Some (global (_environment st)) →
     fs_readFileSync p = inr source →
     JSON_parse (stripBOM source) = inl e →
     requireModule this from moduleName options actual st = (Throw e, pre)) ∧
  (global (_environment st) = None →
   requireModule this from moduleName options actual st
   = (Throw (TypeError "Cannot read property 'JSON' of null"), pre)).
Proof.
  intros Hwf Hcore Hpath Hnone Hext m pre.
  pose proof (preregistered_lookup options p st Hwf) as Hreg. fold m pre in Hreg.
  assert (module_at pre m = mkModule [] (VObj (length (objects st))) p p false None None None)
    as Hm.
  { unfold pre, preregistered, module_at, registry_insert, new_module. cbn.
    rewrite lookup_app_r by reflexivity. by rewrite Nat.sub_diag. }
  assert (m < length (modules pre)) as Hlen.
  { unfold pre, preregistered, registry_insert, new_module. cbn.
    rewrite length_app. simpl. unfold m. lia. }
  unfold requireModule_path in Hpath.
  unfold requireModule, bind, gets, modify, ret, lift, throw. rewrite Hcore.
  destruct (manualMock_path from moduleName options actual st) as [q|];
    [injection Hpath as -> | rewrite Hpath].
  all: cbv beta iota; rewrite Hnone.
  all: unfold new_module; cbv beta iota.
  all: change (registry_insert _ p (length (modules st)) _) with pre.
  all: rewrite Hext; cbn [String.eqb Ascii.eqb Bool.eqb andb].
  all: split_and!; [exact Hreg|by rewrite Hm|..].
  all: try (intros Hg; assert (global (_environment pre) = None) as -> by exact Hg;
            reflexivity).
  all: intros source x [g Hg] Hread Hparse.
  all: assert (global (_environment pre) = Some g) as -> by exact Hg.
  all: rewrite Hread, Hparse; try reflexivity.
  all: fold m.
  all: set (st' := update_module m (Module_set_loaded true)
                     (update_module m (Module_set_exports x) pre)).
  all: assert (module_at st' m = mkModule [] x p p true None None None) as Hm'
         by (unfold st';
             rewrite module_at_update by (rewrite update_module_length; exact Hlen);
             rewrite module_at_update by exact Hlen; by rewrite Hm).
  all: assert (registry st' (select_registry options p st) !! p = Some m) as ->
         by exact Hreg.
  all: rewrite Hm'; split_and!; reflexivity.
Qed.

(** The path whose metadata [_generateMock] caches. *)
Lemma generateMock_cached (this : Methods) (from moduleName modulePath : string)
    (st : Runtime) :
  generateMock_path from moduleName = inr modulePath →
  is_Some (_mockMetaDataCache st !! modulePath) →
  _generateMock this from moduleName st
  = (let '(v, objs) :=
       generateFromMetadata_opt (default None (_mockMetaDataCache st !! modulePath))
         (objects st) in
     (Ok v, set_objects objs st)).
Proof.
  intros Hp [md Hmd]. unfold generateMock_path in Hp.
  unfold _generateMock, bind, gets, ret, lift.
  destruct (truthy_str (resolveStubModuleName from moduleName)).
  - injection Hp as ->. cbv beta iota. rewrite Hmd. cbv beta iota. by rewrite Hmd.
  - rewrite Hp. cbv beta iota. rewrite Hmd. cbv beta iota. by rewrite Hmd.
Qed.

(** X8: the metadata of an auto-mock is computed once per module path.
    After a [_generateMock] that returned, the next one for the same
    request runs no module code: it answers a mock generated from the
    cached metadata and changes nothing but the object store. *)
Theorem generateMock_metadata_once (this this' : Methods) (from moduleName : string)
    (st st1 : Runtime) (v : value) :
  _generateMock this from moduleName st = (Ok v, st1) →
  ∃ modulePath md,
    generateMock_path from moduleName = inr modulePath ∧
    _mockMetaDataCache st1 !! modulePath = Some md ∧
    _generateMock this' from moduleName st1
    = (let '(v', objs) := generateFromMetadata_opt md (objects st1) in
       (Ok v', set_objects objs st1)).
Proof.
  intros Hrun.
  assert (∃ modulePath md, generateMock_path from moduleName = inr modulePath ∧
            _mockMetaDataCache st1 !! modulePath = Some md) as (modulePath & md & Hp & Hmd).
  { unfold _generateMock, generateMock_path, bind, gets, modify, ret, lift, throw in *.
    destruct (truthy_str (resolveStubModuleName from moduleName)).
    - exists (default "" (resolveStubModuleName from moduleName)).
      cbv beta iota in Hrun.
      repeat match type of Hrun with
        | context [match ?x with _ => _ end] =>
            lazymatch x with
            | context [match _ with _ => _ end] => fail
            | _ => destruct x eqn:?
            end
        end; try discriminate.
      all: injection Hrun as <- <-; cbn.
      all: eexists; split; [reflexivity|].
      all: first [eassumption | apply lookup_insert_eq].
    - destruct (_resolveModule from (Some moduleName)) as [e|modulePath]; [discriminate|].
      exists modulePath.
      cbv beta iota in Hrun.
      repeat match type of Hrun with
        | context [match ?x with _ => _ end] =>
            lazymatch x with
            | context [match _ with _ => _ end] => fail
            | _ => destruct x eqn:?
            end
        end; try discriminate.
      all: injection Hrun as <- <-; cbn.
      all: eexists; split; [reflexivity|].
      all: first [eassumption | apply lookup_insert_eq]. }
  exists modulePath, md. split_and!; [exact Hp|exact Hmd|].
  rewrite (generateMock_cached this' from moduleName modulePath st1 Hp) by (by rewrite Hmd).
  by rewrite Hmd.
Qed.

(** X9: [resetModules] does not reset the internal module registry.  A
    module loaded through [requireInternalModule] is answered from that
    registry after a reset as before it, without running again. *)
Theorem internal_modules_survive_reset (n : nat) (from : string)
    (to : option string) (st : Runtime) (p : string) (m : nat) :
  is_core_request to = false →
  _resolveModule from to = inr p →
  registry st (_internalModuleRegistry st) !! p = Some m →
  requireInternalModule (methods config (S n)) from to (resetModules st)
  = (Ok (exports (module_at st m)), resetModules st).
Proof.
  intros Hcore Hp Hreg.
  assert (registry (resetModules st) (_internalModuleRegistry st) !! p = Some m) as Hreg'.
  { unfold registry in *. unfold resetModules, new_registry, new_mock_registry. cbn.
    destruct (moduleRegistries st !! _internalModuleRegistry st) as [r|] eqn:Hr;
      simpl in Hreg; [|by rewrite lookup_empty in Hreg].
    by rewrite (lookup_app_l_Some _ _ _ _ Hr). }
  unfold requireInternalModule. cbn [this_requireModule methods].
  rewrite (requireModule_cached (methods config n) from to internal_options false
             (resetModules st) p m).
  - reflexivity.
  - exact Hcore.
  - unfold requireModule_path, manualMock_path. simpl. exact Hp.
  - exact Hreg'.
Qed.

(** ** What no call undoes *)

Lemma keeps_refl a : keeps a a.
Proof. split; eauto. Qed.

Lemma keeps_trans a b c : keeps a b → keeps b c → keeps a c.
Proof.
  intros [U1 I1 T1 V1 E1 F1 D1 C1 X1 M1 S1 N1 P1 G1 K1 W1]
         [U2 I2 T2 V2 E2 F2 D2 C2 X2 M2 S2 N2 P2 G2 K2 W2].
  split.
  - congruence.
  - congruence.
  - eauto.
  - eauto.
  - eauto.
  - eauto.
  - eauto.
  - etrans; eauto.
  - destruct X2 as [->|]; auto.
  - intros m M HM. destruct (M1 m M HM) as (M' & HM' & ? & ? & ?).
    destruct (M2 m M' HM') as (M'' & HM'' & ? & ? & ?).
    exists M''. split_and!; [done|congruence|congruence|auto].
  - eauto.
  - eauto.
  - eauto.
  - tauto.
  - congruence.
  - tauto.
Qed.

Ltac keeps_fields :=
  split; cbn; eauto; try tauto; try reflexivity.

Ltac keeps_insert :=
  let k := fresh in let Hk := fresh in
  intros k Hk;
  match goal with
  | |- context [<[?j:=_]> _ !! k] =>
    destruct (decide (j = k)) as [->|];
    [rewrite lookup_insert_eq; eauto | rewrite lookup_insert_ne by done; exact Hk]
  end.

Lemma keeps_currentlyExecutingModulePath v s : keeps s (set_currentlyExecutingModulePath v s).
Proof. keeps_fields. Qed.
Lemma keeps_isCurrentlyExecutingManualMock v s :
  keeps s (set_isCurrentlyExecutingManualMock v s).
Proof. keeps_fields. Qed.
Lemma keeps_mockRegistry v s : keeps s (set_mockRegistry v s).
Proof. keeps_fields. Qed.
Lemma keeps_moduleRegistry v s : keeps s (set_moduleRegistry v s).
Proof. keeps_fields. Qed.
Lemma keeps_isolatedMockRegistry v s : keeps s (set_isolatedMockRegistry v s).
Proof. keeps_fields. Qed.
Lemma keeps_isolatedModuleRegistry v s : keeps s (set_isolatedModuleRegistry v s).
Proof. keeps_fields. Qed.
Lemma keeps_shouldAutoMock v s : keeps s (set_shouldAutoMock v s).
Proof. keeps_fields. Qed.
Lemma keeps_shouldMockModuleCache v s : keeps s (set_shouldMockModuleCache v s).
Proof. keeps_fields. Qed.
Lemma keeps_shouldUnmockTransitiveDependenciesCache v s :
  keeps s (set_shouldUnmockTransitiveDependenciesCache v s).
Proof. keeps_fields. Qed.
Lemma keeps_moduleRegistries v s : keeps s (set_moduleRegistries v s).
Proof. keeps_fields. Qed.
Lemma keeps_mockRegistries v s : keeps s (set_mockRegistries v s).
Proof. keeps_fields. Qed.
Lemma keeps_objects v s : keeps s (set_objects v s).
Proof. keeps_fields. Qed.
Lemma keeps_executed v s : keeps s (set_executed v s).
Proof. keeps_fields. Qed.

Lemma keeps_memoize moduleID b s : keeps s (memoize moduleID b s).
Proof. apply keeps_shouldMockModuleCache. Qed.
Lemma keeps_new_registry s : keeps s (new_registry s).
Proof. apply keeps_moduleRegistries. Qed.
Lemma keeps_new_mock_registry s : keeps s (new_mock_registry s).
Proof. apply keeps_mockRegistries. Qed.
Lemma keeps_registry_insert l p m s : keeps s (registry_insert l p m s).
Proof. apply keeps_moduleRegistries. Qed.
Lemma keeps_mock_registry_insert l p v s : keeps s (mock_registry_insert l p v s).
Proof. apply keeps_mockRegistries. Qed.

Lemma keeps_explicitShouldMock moduleID b s :
  keeps s (set_explicitShouldMock (<[moduleID := b]> (_explicitShouldMock s)) s).
Proof. keeps_fields. keeps_insert. Qed.
Lemma keeps_mockFactories moduleID f s :
  keeps s (set_mockFactories (<[moduleID := f]> (_mockFactories s)) s).
Proof. keeps_fields. keeps_insert. Qed.
Lemma keeps_mockMetaDataCache modulePath md s :
  keeps s (set_mockMetaDataCache (<[modulePath := md]> (_mockMetaDataCache s)) s).
Proof. keeps_fields. keeps_insert. Qed.
Lemma keeps_transitiveShouldMock moduleID s :
  keeps s (set_transitiveShouldMock (<[moduleID := false]> (_transitiveShouldMock s)) s).
Proof. keeps_fields. keeps_insert. Qed.
Lemma keeps_virtualMocks mockPath s :
  keeps s (set_virtualMocks (<[mockPath := true]> (_virtualMocks s)) s).
Proof. keeps_fields. keeps_insert. Qed.
Lemma keeps_sourceMapRegistry f map s :
  keeps s (set_sourceMapRegistry (<[f := map]> (_sourceMapRegistry s)) s).
Proof.
  keeps_fields; [keeps_insert|].
  intros Hm g Hg. specialize (Hm g Hg).
  destruct (decide (f = g)) as [->|];
    [rewrite lookup_insert_eq; eauto | by rewrite lookup_insert_ne].
Qed.
Lemma keeps_needsCoverageMapped f s :
  is_Some (_sourceMapRegistry s !! f) →
  keeps s (set_needsCoverageMapped ({[f]} ∪ _needsCoverageMapped s) s).
Proof.
  intros Hf. keeps_fields.
  - intros g Hg. set_solver.
  - intros Hm g [->%elem_of_singleton|Hg]%elem_of_union; auto.
Qed.
Lemma keeps_console_error msg s : keeps s (set_console_error (console_error s ++ [msg]) s).
Proof. keeps_fields. by apply prefix_app_r. Qed.
Lemma keeps_logFormattedReferenceError msg s : keeps s (_logFormattedReferenceError msg s).
Proof. apply keeps_console_error. Qed.
Lemma keeps_process_exitCode s : keeps s (set_process_exitCode (Some 1%Z) s).
Proof. keeps_fields. Qed.

Lemma keeps_update_module m f s :
  (∀ module, filename (f module) = filename module ∧ id (f module) = id module ∧
             (loaded module = true → loaded (f module) = true)) →
  keeps s (update_module m f s).
Proof.
  intros Hf. unfold update_module. keeps_fields.
  intros m' M HM. destruct (decide (m = m')) as [->|].
  - rewrite list_lookup_alter_eq, HM. simpl. eexists; split; [reflexivity|]. apply Hf.
  - rewrite list_lookup_alter_ne by done. eauto.
Qed.
Lemma keeps_set_exports m v s : keeps s (update_module m (Module_set_exports v) s).
Proof. apply keeps_update_module. by intros []. Qed.
Lemma keeps_set_loaded m s : keeps s (update_module m (Module_set_loaded true) s).
Proof. apply keeps_update_module. by intros []. Qed.
Lemma keeps_install m p ps r s : keeps s (update_module m (Module_install p ps r) s).
Proof. apply keeps_update_module. by intros []. Qed.

Lemma keeps_resetModules s : keeps s (resetModules s).
Proof.
  unfold resetModules, new_registry, new_mock_registry.
  split; cbn; eauto; try reflexivity.
  all: destruct (global (_environment s)) as [g|] eqn:Hg; cbn.
  all: destruct (fakeTimers (_environment s)) as [t|] eqn:Ht; cbn; rewrite ?Hg, ?Ht.
  all: try done.
Qed.
Lemma keeps_enter_isolation s : keeps s (enter_isolation s).
Proof. unfold enter_isolation, new_registry, new_mock_registry. keeps_fields. Qed.
Lemma keeps_leave_isolation s : keeps s (leave_isolation s).
Proof. unfold leave_isolation. keeps_fields. Qed.

Lemma keeps_setMock from moduleName f virtual s : keeps s (setMock from moduleName f virtual s).
Proof.
  unfold setMock. destruct virtual.
  - eapply keeps_trans; [|apply keeps_mockFactories].
    eapply keeps_trans; [|apply keeps_explicitShouldMock].
    apply keeps_virtualMocks.
  - eapply keeps_trans; [|apply keeps_mockFactories]. apply keeps_explicitShouldMock.
Qed.
Lemma keeps_jest_unmock from moduleName s : keeps s (jest_unmock from moduleName s).
Proof. apply keeps_explicitShouldMock. Qed.
Lemma keeps_jest_deepUnmock from moduleName s : keeps s (jest_deepUnmock from moduleName s).
Proof.
  unfold jest_deepUnmock.
  eapply keeps_trans; [|apply keeps_transitiveShouldMock]. apply keeps_explicitShouldMock.
Qed.
Lemma keeps_jest_mock from moduleName f virtual s :
  keeps s (jest_mock from moduleName f virtual s).
Proof.
  destruct f; [apply keeps_setMock|apply keeps_explicitShouldMock].
Qed.
Lemma keeps_record_transitive_unmock key moduleID s :
  keeps s (record_transitive_unmock key moduleID s).
Proof.
  unfold record_transitive_unmock.
  eapply keeps_trans; [|apply keeps_shouldUnmockTransitiveDependenciesCache].
  apply keeps_transitiveShouldMock.
Qed.

Lemma shouldMock_keeps from moduleName st o st' :
  _shouldMock from moduleName st = (o, st') → keeps st st'.
Proof.
  unfold _shouldMock. intros Hrun.
  repeat case_match; injection Hrun as <- <-;
    auto using keeps_refl, keeps_memoize, keeps_record_transitive_unmock.
Qed.

Lemma new_module_keeps modulePath st o st' :
  new_module modulePath st = (o, st') → keeps st st'.
Proof.
  unfold new_module. intros [= <- <-]. keeps_fields.
  intros m M HM. exists M. split; [|done]. by apply lookup_app_l_Some.
Qed.

Lemma requireCoreModule_keeps moduleName st o st' :
  _requireCoreModule moduleName st = (o, st') → keeps st st'.
Proof.
  intros Hrun. pose proof (requireCoreModule_state moduleName st) as Hst.
  rewrite Hrun in Hst. simpl in Hst. subst st'. apply keeps_refl.
Qed.

Lemma get_member_keeps v k st o st' : get_member v k st = (o, st') → keeps st st'.
Proof. unfold get_member. destruct v; intros [= <- <-]; apply keeps_refl. Qed.

Lemma set_member_keeps t k v st o st' : set_member t k v st = (o, st') → keeps st st'.
Proof.
  unfold set_member. destruct t; intros [= <- <-]; auto using keeps_refl, keeps_objects.
Qed.

Lemma isolateModules_keeps (fn : M unit) :
  (∀ st o st', fn st = (o, st') → keeps st st') →
  ∀ st o st', isolateModules fn st = (o, st') → keeps st st'.
Proof.
  intros Hfn st o st'. unfold isolateModules.
  destruct (_ || _); [intros [= <- <-]; apply keeps_refl|].
  destruct (fn (enter_isolation st)) as [o1 st1] eqn:Hrun. apply Hfn in Hrun.
  assert (keeps st st1) as Hst1.
  { eapply keeps_trans; [apply keeps_enter_isolation|exact Hrun]. }
  destruct o1; intros [= <- <-]; [|exact Hst1|exact Hst1].
  eapply keeps_trans; [exact Hst1|apply keeps_leave_isolation].
Qed.

(** The steps again, for a table read off an earlier state with the same
    table. *)
Lemma keeps_explicitShouldMock' moduleID b t s :
  t = _explicitShouldMock s → keeps s (set_explicitShouldMock (<[moduleID := b]> t) s).
Proof. intros ->. apply keeps_explicitShouldMock. Qed.
Lemma keeps_mockFactories' moduleID f t s :
  t = _mockFactories s → keeps s (set_mockFactories (<[moduleID := f]> t) s).
Proof. intros ->. apply keeps_mockFactories. Qed.
Lemma keeps_mockMetaDataCache' modulePath md t s :
  t = _mockMetaDataCache s → keeps s (set_mockMetaDataCache (<[modulePath := md]> t) s).
Proof. intros ->. apply keeps_mockMetaDataCache. Qed.
Lemma keeps_sourceMapRegistry' f map t s :
  t = _sourceMapRegistry s → keeps s (set_sourceMapRegistry (<[f := map]> t) s).
Proof. intros ->. apply keeps_sourceMapRegistry. Qed.
Lemma keeps_needsCoverageMapped' f t s :
  t = _needsCoverageMapped s →
  is_Some (_sourceMapRegistry s !! f) →
  keeps s (set_needsCoverageMapped ({[f]} ∪ t) s).
Proof. intros ->. apply keeps_needsCoverageMapped. Qed.
Lemma keeps_console_error' msg t s :
  t = console_error s → keeps s (set_console_error (t ++ [msg]) s).
Proof. intros ->. apply keeps_console_error. Qed.

Create HintDb keeps_step discriminated.
#[local] Hint Resolve
  keeps_currentlyExecutingModulePath keeps_isCurrentlyExecutingManualMock
  keeps_mockRegistry keeps_moduleRegistry keeps_isolatedMockRegistry
  keeps_isolatedModuleRegistry keeps_shouldAutoMock keeps_shouldMockModuleCache
  keeps_shouldUnmockTransitiveDependenciesCache keeps_moduleRegistries
  keeps_mockRegistries keeps_objects keeps_executed keeps_memoize keeps_new_registry
  keeps_new_mock_registry keeps_registry_insert keeps_mock_registry_insert
  keeps_explicitShouldMock keeps_mockFactories keeps_mockMetaDataCache
  keeps_transitiveShouldMock keeps_virtualMocks keeps_sourceMapRegistry
  keeps_console_error keeps_logFormattedReferenceError keeps_process_exitCode
  keeps_set_exports keeps_set_loaded keeps_install keeps_resetModules
  keeps_setMock keeps_jest_unmock keeps_jest_deepUnmock keeps_jest_mock : keeps_step.

(** One case of a run: the final state is a chain of steps over the
    states the nested calls returned. *)
Ltac keep :=
  first
    [ apply keeps_refl
    | match goal with
      | E : keeps ?b ?c |- keeps _ ?c => eapply keeps_trans; [keep | exact E]
      end
    | eapply keeps_trans;
      [ | first [ solve [eauto 1 with keeps_step nocore]
                | apply keeps_explicitShouldMock'; reflexivity
                | apply keeps_mockFactories'; reflexivity
                | apply keeps_mockMetaDataCache'; reflexivity
                | apply keeps_sourceMapRegistry'; reflexivity
                | apply keeps_console_error'; reflexivity
                | apply keeps_needsCoverageMapped';
                  [reflexivity | cbn; rewrite lookup_insert_eq; eauto] ] ];
      keep ].

Ltac split_innermost x :=
  lazymatch x with
  | context [match ?y with _ => _ end] => split_innermost y
  | _ => destruct x eqn:?
  end.

Ltac next_case H :=
  lazymatch type of H with
  | context [match ?x with _ => _ end] => split_innermost x
  end.

Ltac use_keeps IH :=
  repeat match goal with
  | E : this_requireModule _ _ _ _ _ _ = (_, _) |- _ => apply (mk_requireModule _ IH) in E
  | E : this_requireMock _ _ _ _ = (_, _) |- _ => apply (mk_requireMock _ IH) in E
  | E : this_requireModuleOrMock _ _ _ _ = (_, _) |- _ =>
      apply (mk_requireModuleOrMock _ IH) in E
  | E : this_execModule _ _ _ _ _ _ = (_, _) |- _ => apply (mk_execModule _ IH) in E
  | E : this_generateMock _ _ _ _ = (_, _) |- _ => apply (mk_generateMock _ IH) in E
  | E : this_eval_expr _ _ _ _ = (_, _) |- _ => apply (mk_eval_expr _ IH) in E
  | E : this_exec_stmt _ _ _ _ = (_, _) |- _ => apply (mk_exec_stmt _ IH) in E
  | E : this_exec_stmts _ _ _ _ = (_, _) |- _ => apply (mk_exec_stmts _ IH) in E
  | E : _shouldMock _ _ _ = (_, _) |- _ => apply shouldMock_keeps in E
  | E : new_module _ _ = (_, _) |- _ => apply new_module_keeps in E
  | E : _requireCoreModule _ _ = (_, _) |- _ => apply requireCoreModule_keeps in E
  | E : get_member _ _ _ = (_, _) |- _ => apply get_member_keeps in E
  | E : set_member _ _ _ _ = (_, _) |- _ => apply set_member_keeps in E
  end.

Ltac all_cases IH H :=
  repeat next_case H; use_keeps IH;
  first [exact H | injection H as <- <- | idtac].

Lemma requireModule_keeps this :
  methods_keep this →
  ∀ from moduleName options isRequireActual st o st',
    requireModule this from moduleName options isRequireActual st = (o, st') →
    keeps st st'.
Proof.
  intros IH from moduleName options isRequireActual st o st' Hrun.
  unfold requireModule, bind, gets, modify, ret, throw, lift in Hrun.
  all_cases IH Hrun.
  all: keep.
Qed.

Lemma requireMock_keeps this :
  methods_keep this →
  ∀ from moduleName st o st',
    requireMock this from moduleName st = (o, st') → keeps st st'.
Proof.
  intros IH from moduleName st o st' Hrun.
  unfold requireMock, bind, gets, modify, ret, throw, lift in Hrun.
  all_cases IH Hrun.
  all: keep.
Qed.

Lemma requireModuleOrMock_keeps this :
  methods_keep this →
  ∀ from moduleName st o st',
    requireModuleOrMock config this from moduleName st = (o, st') → keeps st st'.
Proof.
  intros IH from moduleName st o st' Hrun.
  unfold requireModuleOrMock, try_catch, bind, gets, modify, ret, throw, lift in Hrun.
  all_cases IH Hrun.
  all: keep.
Qed.

Lemma execModule_keeps this :
  methods_keep this →
  ∀ localModule options moduleRegistry from st o st',
    _execModule config this localModule options moduleRegistry from st = (o, st') →
    keeps st st'.
Proof.
  intros IH localModule options moduleRegistry from st o st' Hrun.
  unfold _execModule, bind, gets, modify, ret, throw, lift in Hrun.
  all_cases IH Hrun.
  all: keep.
Qed.

Lemma generateMock_keeps this :
  methods_keep this →
  ∀ from moduleName st o st',
    _generateMock this from moduleName st = (o, st') → keeps st st'.
Proof.
  intros IH from moduleName st o st' Hrun.
  unfold _generateMock, bind, gets, modify, ret, throw, lift in Hrun.
  all_cases IH Hrun.
  all: keep.
Qed.

Lemma eval_expr_keeps this :
  methods_keep this →
  ∀ scope e st o st',
    eval_expr this scope e st = (o, st') → keeps st st'.
Proof.
  intros IH scope e st o st' Hrun.
  unfold eval_expr, requireInternalModule, requireActual,
    bind, gets, modify, ret, throw, lift in Hrun.
  destruct e; all_cases IH Hrun.
  all: keep.
Qed.

Lemma exec_stmt_keeps this :
  methods_keep this →
  ∀ scope s st o st',
    exec_stmt this scope s st = (o, st') → keeps st st'.
Proof.
  intros IH scope s st o st' Hrun.
  destruct s; cbv [exec_stmt] in Hrun.
  13: { eapply isolateModules_keeps; [|exact Hrun]. apply (mk_exec_stmts _ IH). }
  all: unfold try_catch, bind, gets, modify, ret, throw, lift in Hrun.
  all: all_cases IH Hrun.
  all: keep.
Qed.

Lemma exec_stmts_keeps this :
  methods_keep this →
  ∀ scope body st o st',
    exec_stmts this scope body st = (o, st') → keeps st st'.
Proof.
  intros IH scope body st o st' Hrun.
  unfold exec_stmts, bind, ret in Hrun.
  destruct body; all_cases IH Hrun.
  all: keep.
Qed.

(** Whatever a method of the runtime does, and however it ends. *)
Lemma methods_keeps (n : nat) : methods_keep (methods config n).
Proof.
  induction n as [|n IH].
  - split; simpl; intros; simplify_eq; apply keeps_refl.
  - split; simpl.
    + apply requireModule_keeps, IH.
    + apply requireMock_keeps, IH.
    + apply requireModuleOrMock_keeps, IH.
    + apply execModule_keeps, IH.
    + apply generateMock_keeps, IH.
    + apply eval_expr_keeps, IH.
    + apply exec_stmt_keeps, IH.
    + apply exec_stmts_keeps, IH.
Qed.

Lemma requireEach_keeps (n : nat) (files : list string) :
  ∀ st o st', requireEach (methods config n) files st = (o, st') → keeps st st'.
Proof.
  induction files as [|f files IH]; simpl; intros st o st' Hrun.
  - injection Hrun as <- <-. apply keeps_refl.
  - unfold bind in Hrun.
    destruct (requireModule (methods config n) f None None false st) as [o1 st1] eqn:Hfirst.
    apply (requireModule_keeps _ (methods_keeps n)) in Hfirst.
    destruct o1; [|injection Hrun as <- <-; exact Hfirst..].
    eapply keeps_trans; [exact Hfirst|]. eapply IH, Hrun.
Qed.

Lemma constructor_keeps (n : nat) (environment : Environment) o st :
  constructor config (methods config n) environment = (o, st) →
  keeps (initial config environment) st.
Proof.
  unfold constructor. intros Hrun. apply requireEach_keeps in Hrun.
  eapply keeps_trans; [|exact Hrun]. eapply keeps_trans; [|apply keeps_resetModules].
  destruct (automock config); [|apply keeps_refl].
  generalize (setupFiles config). intros files.
  induction files as [|f files IH] using rev_ind; [apply keeps_refl|].
  rewrite foldl_app. simpl.
  destruct (includes _ f); [|apply IH].
  eapply keeps_trans; [apply IH|]. apply keeps_transitiveShouldMock.
Qed.

(** ** What a load never undoes *)

(** X10: loading modules never removes an entry of the mock policy.
    Whatever code a [requireModule] runs and however it ends, every virtual
    mock is still registered, every module that had an explicit decision
    or a mock factory still has one, every module marked transitively
    unmocked (by [jest.deepUnmock], by the constructor or by [_shouldMock])
    is still marked, and the unmock regex is the same. *)
Theorem mock_policy_only_grows (n : nat) (from : string) (moduleName : option string)
    (options : option InternalModuleOptions) (actual : bool) (st st' : Runtime)
    (o : outcome value) :
  requireModule (methods config n) from moduleName options actual st = (o, st') →
  (∀ mockPath, is_Some (_virtualMocks st !! mockPath) →
               is_Some (_virtualMocks st' !! mockPath)) ∧
  (∀ moduleID, is_Some (_explicitShouldMock st !! moduleID) →
               is_Some (_explicitShouldMock st' !! moduleID)) ∧
  (∀ moduleID, is_Some (_mockFactories st !! moduleID) →
               is_Some (_mockFactories st' !! moduleID)) ∧
  (∀ moduleID, _transitiveShouldMock st !! moduleID = Some false →
               _transitiveShouldMock st' !! moduleID = Some false) ∧
  _unmockList st' = _unmockList st.
Proof.
  intros Hrun. apply (requireModule_keeps _ (methods_keeps n)) in Hrun.
  destruct Hrun. split_and!; assumption.
Qed.

(** X12: in a runtime built by the constructor, whatever its setup files
    and the modules loaded afterwards do, every file marked as needing its
    coverage mapped has a source map registered, and a source map once
    registered stays registered. *)
Theorem coverage_mapped_files_have_source_maps (n k : nat) (environment : Environment)
    (from : string) (moduleName : option string) (options : option InternalModuleOptions)
    (actual : bool) (st st' : Runtime) (o : outcome unit) (o' : outcome value) :
  constructor config (methods config n) environment = (o, st) →
  requireModule (methods config k) from moduleName options actual st = (o', st') →
  (∀ f, f ∈ _needsCoverageMapped st' → is_Some (_sourceMapRegistry st' !! f)) ∧
  (∀ f, is_Some (_sourceMapRegistry st !! f) → is_Some (_sourceMapRegistry st' !! f)).
Proof.
  intros Hnew Hrun. apply constructor_keeps in Hnew.
  apply (requireModule_keeps _ (methods_keeps k)) in Hrun.
  split; [|apply (k_sourceMaps _ _ Hrun)].
  apply (k_mapped _ _ Hrun), (k_mapped _ _ Hnew).
  intros f Hf. cbn in Hf. by apply not_elem_of_empty in Hf.
Qed.

(** X13: what a load can do to the process and to the sandbox.  Whatever
    a [requireModule] runs and however it ends, the exit code is what it
    was or 1, the error log has only grown, and the sandbox is neither
    disposed of nor revived: its global and its fake timers are present
    after the call exactly if they were before, and its context likewise. *)
Theorem load_process_effects (n : nat) (from : string) (moduleName : option string)
    (options : option InternalModuleOptions) (actual : bool) (st st' : Runtime)
    (o : outcome value) :
  requireModule (methods config n) from moduleName options actual st = (o, st') →
  (process_exitCode st' = process_exitCode st ∨ process_exitCode st' = Some 1%Z) ∧
  console_error st `prefix_of` console_error st' ∧
  (global (_environment st') = None ↔ global (_environment st) = None) ∧
  (fakeTimers (_environment st') = None ↔ fakeTimers (_environment st) = None) ∧
  context (_environment st') = context (_environment st).
Proof.
  intros Hrun. apply (requireModule_keeps _ (methods_keeps n)) in Hrun.
  destruct Hrun. split_and!; assumption.
Qed.

(** ** More on the mock decision and on loading *)

(** X14: [_shouldMock] is stable.  Once it has answered for a request, it
    gives the same answer for the same request from the runtime it left,
    and changes nothing more: what it memoized decides. *)
Theorem shouldMock_stable (from moduleName : string) (st st' : Runtime) (b : bool) :
  _shouldMock from moduleName st = (Ok b, st') →
  _shouldMock from moduleName st' = (Ok b, st').
Proof.
  unfold _shouldMock.
  set (moduleID := getModuleID (_virtualMocks st) from (Some moduleName)).
  set (key := from +:+ path_delimiter +:+ moduleID).
  destruct (bool_decide (is_Some (_virtualMocks st !! getModulePath from moduleName))) eqn:Hv.
  { intros [= <- <-]. by rewrite Hv. }
  destruct (_explicitShouldMock st !! moduleID) as [e|] eqn:He.
  { intros [= <- <-]. fold moduleID. by rewrite Hv, He. }
  destruct (negb (_shouldAutoMock st) || isCoreModule moduleName
            || bool_decide (_shouldUnmockTransitiveDependenciesCache st !! key = Some true))
    eqn:Hoff.
  { intros [= <- <-]. fold moduleID key. by rewrite Hv, He, Hoff. }
  destruct (_shouldMockModuleCache st !! moduleID) as [c|] eqn:Hc.
  { intros [= <- <-]. fold moduleID key. by rewrite Hv, He, Hoff, Hc. }
  apply orb_false_elim in Hoff as [[Hauto Hcore]%orb_false_elim Hcache].
  assert (∀ v, _shouldMock from moduleName (memoize moduleID v st)
               = (Ok v, memoize moduleID v st)) as Hmemo.
  { intros v. unfold _shouldMock, memoize. cbn. fold moduleID key.
    rewrite Hv, He, Hauto, Hcore, Hcache. simpl. by rewrite lookup_insert_eq. }
  unfold _shouldMock in Hmemo.
  destruct (_resolveModule from (Some moduleName)) as [err|modulePath].
  { destruct (truthy_str (getMockModule from moduleName)); [|discriminate].
    intros [= <- <-]. apply Hmemo. }
  destruct (unmockList_test st modulePath).
  { intros [= <- <-]. apply Hmemo. }
  destruct (_ || _).
  - intros [= <- <-]. unfold record_transitive_unmock. cbn. fold moduleID key.
    rewrite Hv, He, Hauto, Hcore. simpl.
    rewrite lookup_insert_eq. by rewrite bool_decide_eq_true_2.
  - intros [= <- <-]. apply Hmemo.
Qed.

(** X15: a configured extra global that the sandbox global lacks stops
    the load before the module runs: [_execModule] throws an error naming
    the first such global, and the wrapper is not invoked. *)
Theorem execModule_missing_extra_global (this : Methods) (localModule : nat)
    (options : option InternalModuleOptions) (moduleRegistry : RegistryRef)
    (from : option string) (st : Runtime) (envGlobal : gmap string value)
    (transformedFile : TransformResult) (globalVariable : string) :
  global (_environment st) = Some envGlobal →
  context (_environment st) = true →
  transform (filename (module_at st localModule)) (is_internal options)
  = inr transformedFile →
  missing_global envGlobal (default [] (extraGlobals config)) = Some globalVariable →
  ∃ st',
    _execModule config this localModule options moduleRegistry from st
    = (Throw (Error ("You have requested '" +:+ globalVariable +:+
         "' as a global variable, but it was not present. Please check your config or your global environment.")),
       st') ∧
    executed st' = executed st.
Proof.
  intros Hg Hc Ht Hm.
  unfold _execModule, bind, gets, modify, ret, throw, lift.
  rewrite Hg. cbv beta iota. rewrite Ht. cbv beta iota.
  destruct (truthy_str (sourceMapPath transformedFile));
    [destruct (mapCoverage transformedFile)|].
  all: cbv beta iota; cbn [_environment set_needsCoverageMapped set_sourceMapRegistry
         update_module set_modules set_isCurrentlyExecutingManualMock
         set_currentlyExecutingModulePath].
  all: rewrite Hc; cbv beta iota; cbn [negb]; cbv iota; rewrite Hm.
  all: eexists; split; reflexivity.
Qed.

(** X16: [requireActual] answers the real module.  Whatever has been
    mocked, explicitly or through a manual mock, the value it returns is
    the exports of the module object registered for the path the resolver
    resolves the request to. *)
Theorem requireActual_answers_real_module (n : nat) (from moduleName : string)
    (st st' : Runtime) (v : value) (p : string) :
  is_core_request (Some moduleName) = false →
  _resolveModule from (Some moduleName) = inr p →
  requireActual (methods config (S n)) from moduleName st = (Ok v, st') →
  ∃ m, registry st' (select_registry None p st) !! p = Some m ∧
       v = exports (module_at st' m).
Proof.
  intros Hcore Hp Hrun. unfold requireActual in Hrun. cbn [this_requireModule methods] in Hrun.
  apply (requireModule_returns_registered (methods config n) from (Some moduleName)
           None true st st' v p Hcore); [|exact Hrun].
  unfold requireModule_path, manualMock_path. cbn [negb andb].
  rewrite andb_false_r. exact Hp.
Qed.

(** X17: a manual mock that the resolver knows for a request with no
    haste module of its name is used even when nothing says to mock the
    request: with auto-mock off and no explicit decision, [require]
    answers the exports of the module registered for the manual mock's
    path, unless that mock is the module being executed. *)
Theorem manual_mock_used_without_mocking (n : nat) (from moduleName mock : string)
    (st st' : Runtime) (v : value) :
  moduleName ≠ "" →
  isCoreModule moduleName = false →
  _virtualMocks st !! getModulePath from moduleName = None →
  _explicitShouldMock st !! getModuleID (_virtualMocks st) from (Some moduleName) = None →
  _shouldAutoMock st = false →
  truthy_str (getModule moduleName) = false →
  getMockModule from moduleName = Some mock → mock ≠ "" →
  _isCurrentlyExecutingManualMock st ≠ Some mock →
  requireModuleOrMock config (methods config (S n)) from moduleName st = (Ok v, st') →
  ∃ m, registry st' (select_registry None mock st) !! mock = Some m ∧
       v = exports (module_at st' m).
Proof.
  intros Hname Hcore Hv He Hauto Hres Hmock Hne Hcur Hrun.
  assert (_shouldMock from moduleName st = (Ok false, st)) as Hs.
  { unfold _shouldMock. rewrite Hv, He, Hauto.
    by rewrite bool_decide_eq_false_2 by (intros [? ?]; discriminate). }
  unfold requireModuleOrMock, try_catch, bind in Hrun. rewrite Hs in Hrun.
  cbn [this_requireModule methods] in Hrun.
  destruct (requireModule (methods config n) from (Some moduleName) None false st)
    as [o1 st1] eqn:Hrm.
  destruct o1; [injection Hrun as -> -> | |discriminate].
  2: { by destruct (bool_decide _). }
  assert (is_core_request (Some moduleName) = false) as Hcr.
  { unfold is_core_request. simpl. by rewrite Hcore, andb_false_r. }
  apply (requireModule_returns_registered (methods config n) from (Some moduleName)
           None false st st' v mock Hcr); [|exact Hrm].
  unfold requireModule_path, manualMock_path, and_then.
  rewrite (truthy_str_Some _ Hname), Hres, Hmock, He. cbn [is_internal negb andb].
  rewrite (truthy_str_Some _ Hne).
  rewrite bool_decide_eq_false_2 by congruence.
  rewrite bool_decide_eq_false_2 by discriminate. reflexivity.
Qed.

(** X18: with auto-mock on, the constructor marks every setup file under
    [node_modules] as transitively unmocked, and the mark is still there
    when the runtime is built, whatever the setup files did when they
    ran. *)
Theorem setup_files_transitively_unmocked (n : nat) (environment : Environment)
    (o : outcome unit) (st : Runtime) (filePath : string) :
  constructor config (methods config n) environment = (o, st) →
  automock config = true →
  filePath ∈ setupFiles config →
  includes NODE_MODULES filePath = true →
  _transitiveShouldMock st !! getModuleID ∅ filePath None = Some false.
Proof.
  unfold constructor. intros Hrun Hauto Hin Hnm. rewrite Hauto in Hrun.
  apply requireEach_keeps in Hrun.
  apply (k_transitive _ _ Hrun), (k_transitive _ _ (keeps_resetModules _)).
  revert Hin. generalize (setupFiles config). intros files.
  induction files as [|f files IH] using rev_ind; [by intros ?%not_elem_of_nil|].
  rewrite foldl_app. simpl.
  match goal with |- context [foldl ?F ?a files] => set (s := foldl F a files) in * end.
  assert (_virtualMocks s = ∅) as Hvm.
  { subst s. clear IH. induction files as [|g files IHf] using rev_ind; [reflexivity|].
    rewrite foldl_app. simpl. by destruct (includes _ g). }
  intros [Hin|Hin]%elem_of_app; [|apply list_elem_of_singleton in Hin as ->].
  - destruct (includes _ f); [|auto]. cbn.
    destruct (decide (getModuleID (_virtualMocks s) f None = getModuleID ∅ filePath None))
      as [->|]; [apply lookup_insert_eq|]. rewrite lookup_insert_ne by done. auto.
  - rewrite Hnm. cbn. rewrite Hvm. apply lookup_insert_eq.
Qed.

(** X19: [resetModules] forgets the mocks that were made, not the
    factories.  For a module with a factory and an explicit decision to
    mock it, the first [require] after a reset calls the factory again and
    stores its value in the new main mock registry. *)
Theorem factory_called_again_after_reset (n : nat) (from name : string) (f : MockFactory)
    (st st2 : Runtime) (v : value) :
  let moduleID := getModuleID (_virtualMocks st) from (Some name) in
  let st1 := resetModules st in
  _explicitShouldMock st !! moduleID = Some true →
  _mockFactories st !! moduleID = Some f →
  eval_expr (methods config n) (mf_scope f) (mf_body f) st1 = (Ok v, st2) →
  requireModuleOrMock config (methods config (S (S n))) from name st1
  = (Ok v, mock_registry_insert (_mockRegistry st1) moduleID v st2).
Proof.
  intros moduleID st1 He Hf Heval.
  assert (_shouldMock from name st1 = (Ok true, st1)) as Hs.
  { apply shouldMock_explicit_true. exact He. }
  unfold requireModuleOrMock, try_catch, bind. rewrite Hs.
  cbn [this_requireMock methods].
  unfold requireMock, bind, gets, ret, modify. cbv beta iota.
  change (_virtualMocks st1) with (_virtualMocks st). fold moduleID.
  change (_isolatedMockRegistry st1) with (@None nat). cbv iota.
  unfold st1 at 1. rewrite resetModules_mock_empty, lookup_empty.
  cbn [default truthy].
  change (_mockFactories st1) with (_mockFactories st). rewrite Hf.
  cbn [this_eval_expr methods]. rewrite Heval. reflexivity.
Qed.

(** X20: the module registries are append-only.  Whatever a
    [requireModule] runs and however it ends, no registry object loses an
    entry or has one replaced (a reset installs other registry objects, it
    does not empty these), and the record of executed wrappers only
    grows. *)
Theorem registries_append_only (n : nat) (from : string) (moduleName : option string)
    (options : option InternalModuleOptions) (actual : bool) (st st' : Runtime)
    (o : outcome value) :
  requireModule (methods config n) from moduleName options actual st = (o, st') →
  (∀ l p m, registry st l !! p = Some m → registry st' l !! p = Some m) ∧
  executed st `prefix_of` executed st' ∧
  (length (moduleRegistries st) ≤ length (moduleRegistries st'))%nat.
Proof.
  intros Hrun.
  apply (requireModule_evolves _ (methods_evolves config n)) in Hrun as [Hg _].
  split_and!.
  - intros l p m. apply (registry_kept _ _ _ _ _ Hg).
  - apply (gr_executed _ _ Hg).
  - apply (gr_length _ _ Hg).
Qed.

(** X21: [loaded] is set when the body has run to its end.  When
    [requireModule] loads a module that its registry does not hold and
    returns, the module object it allocated is marked loaded, and the value
    returned is that object's exports. *)
Theorem loaded_after_successful_load (n : nat) (from : string)
    (moduleName : option string) (options : option InternalModuleOptions)
    (actual : bool) (st st' : Runtime) (p : string) (v : value) :
  well_formed (layers st) →
  is_core_request moduleName = false →
  requireModule_path from moduleName options actual st = inr p →
  registry st (select_registry options p st) !! p = None →
  path_extname p ≠ ".json" → path_extname p ≠ ".node" →
  requireModule (methods config (S n)) from moduleName options actual st = (Ok v, st') →
  let m := length (modules st) in
  loaded (module_at st' m) = true ∧
  filename (module_at st' m) = p ∧
  v = exports (module_at st' m).
Proof.
  intros Hwf Hcore Hpath Hnone Hjson Hnode Hrun m.
  destruct (requireModule_load (methods config (S n)) from moduleName options actual st p
              Hwf Hcore Hpath Hnone Hjson Hnode) as (_ & Hm & _ & Hload).
  fold m in Hload, Hm.
  set (pre := registry_insert (select_registry options p st) p m (snd (new_module p st)))
    in *.
  destruct (this_execModule (methods config (S n)) m options
              (ModuleRegistry (select_registry options p st))
              (if truthy_str moduleName then Some from else None) pre) as [out st1] eqn:Hexec.
  pose proof (me_execModule _ (methods_evolves config (S n)) _ _ _ _ _ _ _ Hexec) as [Hg _].
  pose proof (mk_execModule _ (methods_keeps (S n)) _ _ _ _ _ _ _ Hexec) as Hk.
  rewrite (Hload out st1 eq_refl Hg) in Hrun.
  destruct out; [|discriminate..].
  injection Hrun as <- <-.
  assert (modules pre !! m = Some (mkModule [] (VObj (length (objects st))) p p false
                                     None None None)) as Hpre.
  { unfold module_at in Hm. unfold pre, registry_insert, new_module. cbn.
    rewrite lookup_app_r by reflexivity. fold m. by rewrite Nat.sub_diag. }
  destruct (k_modules _ _ Hk m _ Hpre) as (module1 & Hm1 & Hfile & _ & _).
  assert (m < length (modules st1)) as Hlen by (eapply lookup_lt_Some; exact Hm1).
  rewrite module_at_update by exact Hlen.
  unfold module_at. rewrite Hm1. simpl. split_and!; [by destruct module1|by destruct module1|].
  reflexivity.
Qed.

(** ** How the mock registry layers evolve *)

Lemma mock_evolves_refl a : mock_evolves a a.
Proof.
  split; [lia|]. intros Hwf. split; auto.
  intros i l _ _ ? ?. lia.
Qed.

Lemma mock_evolves_trans a b c : mock_evolves a b → mock_evolves b c → mock_evolves a c.
Proof.
  intros [L1 E1] [L2 E2]. split; [lia|].
  intros Hwf. specialize (E1 Hwf). specialize (E2 (mev_wf _ _ E1)).
  destruct E1 as [W1 M1 S1 F1 N1], E2 as [W2 M2 S2 F2 N2].
  destruct Hwf as (Hm & Hiso).
  assert (∀ i, ml_isolated a = Some i → ml_isolated c = Some i → ml_isolated b = Some i)
    as Hback.
  { intros i Ha Hc. destruct (Hiso i Ha) as (? & _).
    destruct S2 as [Hs2|[Hs2|(j & Hs2 & ?)]]; [congruence|congruence|].
    rewrite Hs2 in Hc. injection Hc as ->. lia. }
  assert (∀ i, ml_isolated a = Some i → ml_isolated b ≠ Some i → ml_isolated c ≠ Some i)
    as Hgone.
  { intros i Ha Hb Hc. destruct (Hiso i Ha) as (? & _).
    destruct S1 as [Hs|[Hs|(j & Hs & ?)]]; [congruence| |].
    - destruct S2 as [Hs2|[Hs2|(j & Hs2 & ?)]]; [congruence|congruence|].
      rewrite Hs2 in Hc. injection Hc as ->. lia.
    - destruct S2 as [Hs2|[Hs2|(j' & Hs2 & ?)]]; [|congruence|].
      + rewrite Hs2, Hs in Hc. injection Hc as ->. lia.
      + rewrite Hs2 in Hc. injection Hc as ->. lia. }
  split.
  - exact W2.
  - destruct M2 as [->|]; [destruct M1; [auto|right; lia] | right; lia].
  - destruct S2 as [->|[?|(j & ? & ?)]]; [| auto | right; right; exists j; split; [auto|lia]].
    destruct S1 as [|[|(j & ? & ?)]]; eauto.
  - intros l Hl.
    destruct (F1 l Hl) as [Heq|[?|[-> Hsw]]].
    + destruct (F2 l ltac:(lia)) as [Heq2|[Hsl|[Hlm Hsw]]].
      * left. congruence.
      * destruct S1 as [Hs|[Hs|(j & Hs & ?)]].
        -- right; left. congruence.
        -- congruence.
        -- rewrite Hs in Hsl. injection Hsl as ->. lia.
      * destruct M1 as [Hmb|?]; [|lia].
        right; right. split; [congruence|].
        destruct (ml_isolated a) as [i|] eqn:Hai; [right|auto].
        intros Hc. specialize (Hback i eq_refl Hc).
        destruct Hsw as [Hn|Hn]; congruence.
    + auto.
    + right; right. split; [reflexivity|].
      destruct (ml_isolated a) as [i|] eqn:Hai; [right|auto].
      apply (Hgone i eq_refl). destruct Hsw; congruence.
  - intros i l Hai Hci Hl1 Hl2.
    destruct (Hiso i Hai) as (? & _).
    pose proof (Hback i Hai Hci) as Hbi.
    destruct (decide (l < length (ml_registries b))) as [Hlb|Hlb].
    + specialize (N1 i l Hai Hbi Hl1 Hlb).
      destruct (F2 l Hlb) as [Heq2|[Hsl|[_ [?|?]]]]; try congruence; try lia.
      rewrite Hbi in Hsl. injection Hsl as ->. lia.
    + apply (N2 i l Hbi Hci); lia.
Qed.

(** The primitive changes of the mock layers. *)

(** [mockRegistry[moduleID] = v], where [mockRegistry] was selected before
    the run that made [v]. *)
Lemma mock_evolves_insert a b moduleID v :
  mock_evolves a b →
  mock_evolves a
    (mkMockLayers
       (alter (insert moduleID v) (default (ml_main a) (ml_isolated a)) (ml_registries b))
       (ml_main b) (ml_isolated b)).
Proof.
  intros [L E]. split; simpl; [by rewrite length_alter|].
  intros Hwf. destruct (E Hwf) as [W Mn S F N]. destruct Hwf as (Hm & Hiso).
  split; simpl.
  - unfold mock_well_formed. simpl. rewrite length_alter. exact W.
  - exact Mn.
  - exact S.
  - intros l Hl.
    destruct (decide (l = default (ml_main a) (ml_isolated a))) as [->|Hne].
    + destruct (ml_isolated a); simpl; auto.
    + rewrite list_lookup_alter_ne by done. auto.
  - intros i l Hai Hbi Hl1 Hl2. rewrite length_alter in Hl2.
    destruct (Hiso i Hai) as (? & _).
    rewrite list_lookup_alter_ne by (rewrite Hai; simpl; lia). eauto.
Qed.

Lemma mock_evolves_new_main a :
  mock_evolves a
    (mkMockLayers (ml_registries a ++ [∅]) (length (ml_registries a)) (ml_isolated a)).
Proof.
  split; simpl; [rewrite length_app; lia|].
  intros (Hm & Hiso). split; simpl.
  - unfold mock_well_formed. simpl. rewrite length_app. simpl.
    split; [lia|]. intros i Hsi. destruct (Hiso i Hsi) as (? & ?). lia.
  - right. lia.
  - auto.
  - intros l Hl. left. by apply lookup_app_l.
  - intros i l _ _ Hl1 Hl2. rewrite length_app in Hl2. simpl in Hl2.
    assert (l = length (ml_registries a)) as -> by lia.
    rewrite lookup_app_r by lia. by rewrite Nat.sub_diag.
Qed.

Lemma mock_evolves_reset a :
  mock_evolves a (mkMockLayers (ml_registries a ++ [∅]) (length (ml_registries a)) None).
Proof.
  split; simpl; [rewrite length_app; lia|].
  intros (Hm & Hiso). split; simpl.
  - unfold mock_well_formed. simpl. rewrite length_app. simpl.
    split; [lia|]. intros i Hsi. discriminate.
  - right. lia.
  - auto.
  - intros l Hl. left. by apply lookup_app_l.
  - intros i l _ Hc. discriminate.
Qed.

Lemma mock_evolves_isolate a :
  ml_isolated a = None →
  mock_evolves a
    (mkMockLayers (ml_registries a ++ [∅]) (ml_main a) (Some (length (ml_registries a)))).
Proof.
  intros Hnone. split; simpl; [rewrite length_app; lia|].
  intros (Hm & Hiso). split; simpl.
  - unfold mock_well_formed. simpl. rewrite length_app. simpl.
    split; [lia|]. intros i [= <-]. lia.
  - auto.
  - right; right. eexists; split; [reflexivity|lia].
  - intros l Hl. left. by apply lookup_app_l.
  - intros i l Hc. congruence.
Qed.

Lemma mock_evolves_leave a :
  mock_evolves a (mkMockLayers (ml_registries a) (ml_main a) None).
Proof.
  split; simpl; [lia|].
  intros (Hm & Hiso). split; simpl; auto.
  - unfold mock_well_formed. simpl. split; done.
  - intros i l _ Hc. discriminate.
Qed.

(** Restoring the main mock registry after a run that started on a fresh
    one. *)
Lemma mock_evolves_restore a b :
  mock_evolves
    (mkMockLayers (ml_registries a ++ [∅]) (length (ml_registries a)) (ml_isolated a)) b →
  mock_evolves a (mkMockLayers (ml_registries b) (ml_main a) (ml_isolated b)).
Proof.
  intros [L Hb].
  pose proof (mock_evolves_new_main a) as [_ Ha].
  simpl in L. rewrite length_app in L. simpl in L.
  split; simpl; [lia|].
  intros Hwf.
  pose proof (mev_wf _ _ (Ha Hwf)) as Hwf1.
  destruct (Hb Hwf1) as [W M S F N]. simpl in *.
  destruct Hwf as (Hm & Hiso).
  destruct W as (Wm & Wiso).
  rewrite length_app in S, F, N. simpl in S, F, N.
  split; simpl.
  - unfold mock_well_formed; simpl. split; [lia|].
    intros i Hbi. destruct (Wiso i Hbi) as (? & ?). split; [done|].
    destruct S as [Hs|[Hs|(j & Hs & ?)]].
    + rewrite Hs in Hbi. by destruct (Hiso i Hbi) as (? & ?).
    + congruence.
    + rewrite Hs in Hbi. injection Hbi as <-. lia.
  - auto.
  - destruct S as [Hs|[Hs|(j & Hs & ?)]]; auto.
    right; right. exists j. split; [done|lia].
  - intros l Hl. destruct (F l ltac:(lia)) as [Heq|[?|[? _]]]; auto; [|lia].
    left. rewrite Heq. by apply lookup_app_l.
  - intros i l Hai Hbi Hl1 Hl2.
    destruct (Hiso i Hai) as (? & _).
    destruct (decide (l = length (ml_registries a))) as [->|Hne].
    + destruct (F (length (ml_registries a)) ltac:(lia)) as [Heq|[Hs|[_ [?|?]]]];
        try congruence; try lia.
      * rewrite Heq. rewrite lookup_app_r by lia. by rewrite Nat.sub_diag.
      * rewrite Hai in Hs. injection Hs as ->. lia.
    + apply (N i l Hai Hbi); lia.
Qed.

(** A mock registry that is neither of the two selected ones is not
    written. *)
Lemma mock_evolves_untouched a b l :
  mock_evolves a b → mock_well_formed a →
  l < length (ml_registries a) →
  l ≠ ml_main a → ml_isolated a ≠ Some l →
  ml_registries b !! l = ml_registries a !! l.
Proof.
  intros [_ E] Hwf Hl Hm Hs.
  destruct (mev_frame _ _ (E Hwf) l Hl) as [?|[?|[? _]]]; done.
Qed.

Lemma resetModules_mock_evolves st :
  mock_evolves (mock_layers st) (mock_layers (resetModules st)).
Proof. apply (mock_evolves_reset (mock_layers st)). Qed.

Lemma shouldMock_mock_evolves from moduleName st o st' :
  _shouldMock from moduleName st = (o, st') →
  mock_evolves (mock_layers st) (mock_layers st').
Proof.
  unfold _shouldMock. intros Hrun.
  repeat case_match; injection Hrun as <- <-; apply mock_evolves_refl.
Qed.

Lemma isolateModules_mock_evolves (fn : M unit) :
  (∀ st o st', fn st = (o, st') → mock_evolves (mock_layers st) (mock_layers st')) →
  ∀ st o st', isolateModules fn st = (o, st') →
    mock_evolves (mock_layers st) (mock_layers st').
Proof.
  intros Hfn st o st'. unfold isolateModules.
  destruct (_isolatedModuleRegistry st) as [i|] eqn:Hi; simpl.
  { intros [= <- <-]. apply mock_evolves_refl. }
  destruct (_isolatedMockRegistry st) as [j|] eqn:Hj; simpl.
  { intros [= <- <-]. apply mock_evolves_refl. }
  destruct (fn (enter_isolation st)) as [o1 st1] eqn:Hrun. apply Hfn in Hrun.
  assert (mock_evolves (mock_layers st) (mock_layers st1)) as Hst1.
  { eapply mock_evolves_trans; [|exact Hrun].
    apply (mock_evolves_isolate (mock_layers st)). exact Hj. }
  destruct o1; intros [= <- <-]; [|exact Hst1|exact Hst1].
  eapply mock_evolves_trans; [exact Hst1|]. apply (mock_evolves_leave (mock_layers st1)).
Qed.

Ltac use_mock_methods IH :=
  repeat match goal with
  | E : this_requireModule _ _ _ _ _ _ = (_, _) |- _ => apply (mme_requireModule _ IH) in E
  | E : this_requireMock _ _ _ _ = (_, _) |- _ => apply (mme_requireMock _ IH) in E
  | E : this_requireModuleOrMock _ _ _ _ = (_, _) |- _ =>
      apply (mme_requireModuleOrMock _ IH) in E
  | E : this_execModule _ _ _ _ _ _ = (_, _) |- _ => apply (mme_execModule _ IH) in E
  | E : this_generateMock _ _ _ _ = (_, _) |- _ => apply (mme_generateMock _ IH) in E
  | E : this_eval_expr _ _ _ _ = (_, _) |- _ => apply (mme_eval_expr _ IH) in E
  | E : this_exec_stmt _ _ _ _ = (_, _) |- _ => apply (mme_exec_stmt _ IH) in E
  | E : this_exec_stmts _ _ _ _ = (_, _) |- _ => apply (mme_exec_stmts _ IH) in E
  | E : _shouldMock _ _ _ = (_, _) |- _ => apply shouldMock_mock_evolves in E
  end.

Ltac mock_cases IH H :=
  repeat next_case H; use_mock_methods IH;
  first [exact H | injection H as <- <- | idtac].

Ltac mock_chain :=
  unfold mock_layers, registry_insert, update_module, setMock,
    jest_unmock, jest_deepUnmock, jest_mock, _logFormattedReferenceError in *;
  cbn in *;
  solve [eauto 5 using mock_evolves_trans, mock_evolves_refl].

Lemma requireModule_mock_evolves this :
  methods_mock_evolve this →
  ∀ from moduleName options isRequireActual st o st',
    requireModule this from moduleName options isRequireActual st = (o, st') →
    mock_evolves (mock_layers st) (mock_layers st').
Proof.
  intros IH from moduleName options isRequireActual st o st' Hrun.
  unfold requireModule, _requireCoreModule, bind, gets, modify, ret, throw, lift,
    new_module in Hrun.
  mock_cases IH Hrun.
  all: try apply mock_evolves_refl.
  all: mock_chain.
Qed.

Lemma requireMock_mock_evolves this :
  methods_mock_evolve this →
  ∀ from moduleName st o st',
    requireMock this from moduleName st = (o, st') →
    mock_evolves (mock_layers st) (mock_layers st').
Proof.
  intros IH from moduleName st o st' Hrun.
  unfold requireMock, bind, gets, modify, ret, throw, lift, new_module in Hrun.
  mock_cases IH Hrun.
  all: try apply mock_evolves_refl.
  all: try mock_chain.
  all: unfold mock_layers, mock_registry_insert, update_module in *; cbn in *.
  all: match goal with
       | E : mock_evolves ?a (mkMockLayers (mockRegistries ?r) _ _) |- _ =>
         apply (mock_evolves_insert a (mock_layers r)); exact E
       end.
Qed.

Lemma requireModuleOrMock_mock_evolves this :
  methods_mock_evolve this →
  ∀ from moduleName st o st',
    requireModuleOrMock config this from moduleName st = (o, st') →
    mock_evolves (mock_layers st) (mock_layers st').
Proof.
  intros IH from moduleName st o st' Hrun.
  unfold requireModuleOrMock, try_catch, bind, gets, modify, ret, throw, lift in Hrun.
  mock_cases IH Hrun.
  all: try apply mock_evolves_refl.
  all: mock_chain.
Qed.

Lemma execModule_mock_evolves this :
  methods_mock_evolve this →
  ∀ localModule options moduleRegistry from st o st',
    _execModule config this localModule options moduleRegistry from st = (o, st') →
    mock_evolves (mock_layers st) (mock_layers st').
Proof.
  intros IH localModule options moduleRegistry from st o st' Hrun.
  unfold _execModule, bind, gets, modify, ret, throw, lift in Hrun.
  mock_cases IH Hrun.
  all: try apply mock_evolves_refl.
  all: mock_chain.
Qed.

Lemma generateMock_mock_evolves this :
  methods_mock_evolve this →
  ∀ from moduleName st o st',
    _generateMock this from moduleName st = (o, st') →
    mock_evolves (mock_layers st) (mock_layers st').
Proof.
  intros IH from moduleName st o st' Hrun.
  unfold _generateMock, bind, gets, modify, ret, throw, lift in Hrun.
  mock_cases IH Hrun.
  all: try apply mock_evolves_refl.
  all: try match goal with
       | E : mock_evolves _ (mock_layers ?r) |- _ =>
         pose proof (mock_evolves_new_main (mock_layers st));
         pose proof (mock_evolves_restore (mock_layers st) (mock_layers r))
       end.
  all: unfold mock_layers, new_registry, new_mock_registry in *; cbn in *.
  all: eauto 5 using mock_evolves_trans, mock_evolves_refl.
Qed.

Lemma eval_expr_mock_evolves this :
  methods_mock_evolve this →
  ∀ scope e st o st',
    eval_expr this scope e st = (o, st') →
    mock_evolves (mock_layers st) (mock_layers st').
Proof.
  intros IH scope e st o st' Hrun.
  unfold eval_expr, requireInternalModule, requireActual, get_member,
    bind, gets, modify, ret, throw, lift in Hrun.
  destruct e; mock_cases IH Hrun.
  all: try apply mock_evolves_refl.
  all: mock_chain.
Qed.

Lemma exec_stmt_mock_evolves this :
  methods_mock_evolve this →
  ∀ scope s st o st',
    exec_stmt this scope s st = (o, st') →
    mock_evolves (mock_layers st) (mock_layers st').
Proof.
  intros IH scope s st o st' Hrun.
  destruct s; cbv [exec_stmt] in Hrun.
  13: { eapply isolateModules_mock_evolves; [|exact Hrun]. apply (mme_exec_stmts _ IH). }
  12: { injection Hrun as <- <-. apply resetModules_mock_evolves. }
  all: unfold set_member, try_catch, bind, gets, modify, ret, throw, lift in Hrun.
  all: mock_cases IH Hrun.
  all: try apply mock_evolves_refl.
  all: try match goal with
       | |- context [jest_mock _ _ (option_map _ ?f) ?v _] => destruct f, v
       end.
  all: mock_chain.
Qed.

Lemma exec_stmts_mock_evolves this :
  methods_mock_evolve this →
  ∀ scope body st o st',
    exec_stmts this scope body st = (o, st') →
    mock_evolves (mock_layers st) (mock_layers st').
Proof.
  intros IH scope body st o st' Hrun.
  unfold exec_stmts, bind, ret in Hrun.
  destruct body; mock_cases IH Hrun.
  all: try apply mock_evolves_refl.
  all: mock_chain.
Qed.

(** Whatever a method of the runtime does, and however it ends, the mock
    layers evolve. *)
Lemma methods_mock_evolves (n : nat) : methods_mock_evolve (methods config n).
Proof.
  induction n as [|n IH].
  - split; simpl; intros; simplify_eq; apply mock_evolves_refl.
  - split; simpl.
    + apply requireModule_mock_evolves, IH.
    + apply requireMock_mock_evolves, IH.
    + apply requireModuleOrMock_mock_evolves, IH.
    + apply execModule_mock_evolves, IH.
    + apply generateMock_mock_evolves, IH.
    + apply eval_expr_mock_evolves, IH.
    + apply exec_stmt_mock_evolves, IH.
    + apply exec_stmts_mock_evolves, IH.
Qed.

(** X29: generating an auto-mock runs the real module on a fresh mock
    registry as well: however the generation ends, the registry object that
    was the main mock registry when it started holds exactly the entries it
    held, so no mock that the module or its dependencies require while the
    metadata is taken is installed in it. *)
Theorem generateMock_leaves_main_mock_registry (n : nat) (from moduleName : string)
    (st st' : Runtime) (o : outcome value) :
  mock_well_formed (mock_layers st) →
  _generateMock (methods config n) from moduleName st = (o, st') →
  mockRegistries st' !! _mockRegistry st = mockRegistries st !! _mockRegistry st.
Proof.
  intros Hwf Hrun.
  pose proof (methods_mock_evolves n) as IH.
  unfold _generateMock, bind, gets, modify, ret, throw, lift in Hrun.
  repeat next_case Hrun.
  all: try match goal with
       | E : this_requireModule _ _ _ _ _ ?s = (_, ?r) |- _ =>
         apply (mme_requireModule _ IH) in E;
         pose proof (mev_wf _ _ (proj2 (mock_evolves_new_main (mock_layers st)) Hwf))
           as Hwf1;
         pose proof (mock_evolves_untouched _ _ (_mockRegistry st) E Hwf1) as Hsame
       end.
  all: injection Hrun as <- <-.
  all: destruct Hwf as (Hm & Hiso).
  all: unfold mock_layers, new_registry, new_mock_registry in *; cbn in *.
  all: try reflexivity.
  all: rewrite Hsame;
         [ apply lookup_app_l; lia
         | rewrite length_app; simpl; lia
         | lia
         | intros Hc; destruct (Hiso _ Hc) as (? & ?); congruence ].
Qed.

(** X30: mocks made inside [isolateModules(fn)] stay inside.  When no
    isolated registry is active as the scope starts, and the isolated mock
    registry allocated for it is still the active one as [fn] ends (a
    [resetModules] inside the scope drops it), then, whether [fn] returned
    or threw, the registry object that was the main mock registry holds
    exactly the entries it held, and every mock the main mock registry
    holds after the call it held before. *)
Theorem isolateModules_keeps_mocks_inside (n : nat) (scope : Scope) (fn : list stmt)
    (st st2 : Runtime) (o : outcome unit) :
  let run := exec_stmts (methods config n) scope fn in
  mock_well_formed (mock_layers st) →
  _isolatedModuleRegistry st = None → _isolatedMockRegistry st = None →
  run (enter_isolation st) = (o, st2) →
  _isolatedMockRegistry st2 = Some (length (mockRegistries st)) →
  ∃ st', isolateModules run st = (o, st') ∧
    mockRegistries st' !! _mockRegistry st = mockRegistries st !! _mockRegistry st ∧
    ∀ moduleID v,
      mock_registry st' (_mockRegistry st') !! moduleID = Some v →
      mock_registry st (_mockRegistry st) !! moduleID = Some v.
Proof.
  intros run Hwf Hi Hj Hfn Hactive.
  pose proof (exec_stmts_mock_evolves _ (methods_mock_evolves n) _ _ _ _ _ Hfn) as Hev.
  assert (mock_evolves (mock_layers st) (mock_layers (enter_isolation st))) as Hin
    by (apply (mock_evolves_isolate (mock_layers st)); exact Hj).
  pose proof (mev_wf _ _ (proj2 Hin Hwf)) as Hwf1.
  destruct (proj2 Hev Hwf1) as [W Mn S F N].
  destruct Hwf as (Hm & Hiso).
  assert (mockRegistries st2 !! _mockRegistry st = mockRegistries st !! _mockRegistry st
          ∧ ∀ moduleID v,
              mock_registry st2 (_mockRegistry st2) !! moduleID = Some v →
              mock_registry st (_mockRegistry st) !! moduleID = Some v) as [Hold Hnew].
  { unfold mock_layers, enter_isolation, new_registry, new_mock_registry in *.
    cbn in *. rewrite length_app in *. cbn in *.
    assert (mockRegistries st2 !! _mockRegistry st
            = mockRegistries st !! _mockRegistry st) as Hold.
    { destruct (F (_mockRegistry st) ltac:(lia)) as [Heq|[[= ?]|[? [?|?]]]];
        try congruence; try lia.
      rewrite Heq. by apply lookup_app_l. }
    split; [exact Hold|].
    intros moduleID v. unfold mock_registry.
    destruct Mn as [Hmain|Hmain].
    - rewrite Hmain, Hold. done.
    - destruct W as (Wm & _). cbn in Wm.
      rewrite (N (length (mockRegistries st)) (_mockRegistry st2));
        [simpl; by rewrite lookup_empty | reflexivity | exact Hactive | lia | exact Wm]. }
  unfold isolateModules. rewrite Hi, Hj. simpl. fold run. rewrite Hfn.
  destruct o as [[]|e|]; eexists; (split; [reflexivity|]); (split; [exact Hold | exact Hnew]).
Qed.

End MoreProperties.

Section QueryProperties.
Context `{Resolver} `{DirectoryResolver} `{ScriptTransformer} `{ModuleMocker} `{Host}.

(** ** require.resolve *)

Lemma resolve_in_paths_Some (from moduleName : string) (paths : list string) (module : string) :
  resolve_in_paths from moduleName paths = Some module ↔
  ∃ before p after,
    paths = (before ++ p :: after)%list ∧
    Forall (λ q, truthy_str (resolve_from_path from moduleName q) = false) before ∧
    resolve_from_path from moduleName p = Some module ∧ module ≠ "".
Proof.
  induction paths as [|q paths IH]; simpl.
  - split; [discriminate|]. intros (before & p & after & Heq & _). by destruct before.
  - destruct (truthy_str (resolve_from_path from moduleName q)) eqn:Hq.
    + split.
      * intros Hm. exists [], q, paths. split_and!; [done|constructor|done|].
        intros ->. rewrite Hm in Hq. discriminate.
      * intros (before & p & after & Heq & Hbefore & Hp & _).
        destruct before as [|q' before]; simpl in Heq; injection Heq as -> ->; [done|].
        apply Forall_cons in Hbefore as [Hq' _]. congruence.
    + rewrite IH. split.
      * intros (before & p & after & -> & Hbefore & Hp & Hne).
        exists (q :: before), p, after. split_and!; [done|by constructor|done|done].
      * intros (before & p & after & Heq & Hbefore & Hp & Hne).
        destruct before as [|q' before]; simpl in Heq; injection Heq as -> ->.
        -- rewrite Hp in Hq. simpl in Hq.
           by rewrite (proj2 (String.eqb_neq _ _) Hne) in Hq.
        -- apply Forall_cons in Hbefore as [_ Hbefore]. eauto 10.
Qed.

Lemma resolve_in_paths_None (from moduleName : string) (paths : list string) :
  resolve_in_paths from moduleName paths = None ↔
  Forall (λ q, truthy_str (resolve_from_path from moduleName q) = false) paths.
Proof.
  induction paths as [|q paths IH]; simpl; [by split|].
  destruct (truthy_str (resolve_from_path from moduleName q)) eqn:Hq.
  - split.
    + intros Hn. rewrite Hn in Hq. discriminate.
    + intros [Hq' _]%Forall_cons. congruence.
  - rewrite IH. split; [by constructor|]. by intros [_ ?]%Forall_cons.
Qed.

(** X22: [require.resolve(request, {paths})] answers what the first entry
    of [paths], in order, resolves the request to, each entry taken
    relative to the directory of the requiring file; the resolver's usual
    lookup and the manual mocks are not consulted.  It throws exactly when
    no entry resolves the request, so always for an empty [paths]. *)
Theorem requireResolve_with_paths (from moduleName : string) (paths : list string) :
  (∀ module,
     _requireResolve from (Some moduleName) (Some paths) = inr module ↔
     ∃ before p after,
       paths = (before ++ p :: after)%list ∧
       Forall (λ q, truthy_str (resolve_from_path from moduleName q) = false) before ∧
       resolve_from_path from moduleName p = Some module ∧ module ≠ "") ∧
  ((∃ e, _requireResolve from (Some moduleName) (Some paths) = inl e) ↔
   Forall (λ q, truthy_str (resolve_from_path from moduleName q) = false) paths).
Proof.
  unfold _requireResolve. split.
  - intros module. rewrite <- resolve_in_paths_Some.
    destruct (resolve_in_paths from moduleName paths); split; congruence.
  - rewrite <- resolve_in_paths_None.
    destruct (resolve_in_paths from moduleName paths); split;
      [intros [? ?]; discriminate | discriminate | done | eauto].
Qed.

(** X23: without [paths], [require.resolve(request)] throws for a null
    request; answers the resolved path when the request resolves; when it
    does not, answers the manual mock of the request if there is one, and
    otherwise throws the resolver's error unchanged.  The empty request
    answers the requiring file itself. *)
Theorem requireResolve_cases (from : string) :
  (∀ paths, ∃ e, _requireResolve from None paths = inl e) ∧
  (∀ moduleName,
     (∀ modulePath,
        _resolveModule from (Some moduleName) = inr modulePath →
        _requireResolve from (Some moduleName) None = inr modulePath) ∧
     (∀ err mock,
        _resolveModule from (Some moduleName) = inl err →
        getMockModule from moduleName = Some mock → mock ≠ "" →
        _requireResolve from (Some moduleName) None = inr mock) ∧
     (∀ err,
        _resolveModule from (Some moduleName) = inl err →
        truthy_str (getMockModule from moduleName) = false →
        _requireResolve from (Some moduleName) None = inl err)) ∧
  _requireResolve from (Some "") None = inr from.
Proof.
  split_and!.
  - intros paths. eexists. reflexivity.
  - intros moduleName. unfold _requireResolve. split_and!.
    + by intros modulePath ->.
    + intros err mock -> -> Hne. simpl.
      by rewrite (proj2 (String.eqb_neq _ _) Hne).
    + by intros err -> ->.
  - reflexivity.
Qed.

(** ** Source maps *)

(** X24: [getSourceMapInfo(coveredFiles)] holds an entry for a file exactly
    when the file has a source map registered, is among the covered files,
    was marked as needing its coverage mapped, and the source map file
    exists; the entry is the registered source map path. *)
Theorem getSourceMapInfo_lookup (coveredFiles : gset string) (st : Runtime)
    (sourcePath sourceMap : string) :
  getSourceMapInfo coveredFiles st !! sourcePath = Some sourceMap ↔
  _sourceMapRegistry st !! sourcePath = Some sourceMap ∧
  sourcePath ∈ coveredFiles ∧
  sourcePath ∈ _needsCoverageMapped st ∧
  fs_existsSync sourceMap = true.
Proof.
  unfold getSourceMapInfo.
  generalize (_sourceMapRegistry st). intros registry.
  induction registry as [|k v registry Hk Hfold IH] using map_first_key_ind.
  - rewrite map_fold_empty, !lookup_empty. split; [discriminate|]. by intros [? _].
  - rewrite map_fold_insert_first_key by done.
    destruct (decide (k = sourcePath)) as [->|Hne].
    + rewrite lookup_insert_eq.
      destruct (bool_decide (sourcePath ∈ coveredFiles)) eqn:Hc; simpl.
      2: { rewrite IH, Hk. apply bool_decide_eq_false in Hc.
           split; [by intros [? _]|]. by intros (_ & ? & _). }
      destruct (bool_decide (sourcePath ∈ _needsCoverageMapped st)) eqn:Hn; simpl.
      2: { rewrite IH, Hk. apply bool_decide_eq_false in Hn.
           split; [by intros [? _]|]. by intros (_ & _ & ? & _). }
      apply bool_decide_eq_true in Hc, Hn.
      destruct (fs_existsSync v) eqn:He.
      * rewrite lookup_insert_eq. split.
        -- intros [= ->]. done.
        -- by intros ([= ->] & _).
      * rewrite IH, Hk. split; [by intros [? _]|].
        intros ([= ->] & _ & _ & ?). congruence.
    + rewrite (lookup_insert_ne _ k sourcePath) by done.
      destruct (_ && _ && _); [rewrite lookup_insert_ne by done|]; apply IH.
Qed.

(** ** Fake timers *)

(** X25: [jest.getTimerCount()] answers the number of pending fake
    timers and changes nothing; right after [resetModules] (which clears
    them) it answers 0.  Once the environment has no fake timers, the
    call logs a reference error, sets the exit code to 1 and then throws. *)
Theorem getTimerCount_cases (st : Runtime) :
  (∀ count, fakeTimers (_environment st) = Some count →
     jest_getTimerCount st = (Ok count, st) ∧
     jest_getTimerCount (resetModules st) = (Ok 0, resetModules st)) ∧
  (fakeTimers (_environment st) = None →
     ∃ e st', jest_getTimerCount st = (Throw e, st') ∧
       process_exitCode st' = Some 1%Z ∧
       console_error st'
       = (console_error st ++
          ["ReferenceError: You are trying to access a property or method of the Jest environment after it has been torn down."])%list).
Proof.
  unfold jest_getTimerCount, _getFakeTimers, bind, ret, throw. split.
  - intros count Hc. rewrite Hc. split; [reflexivity|].
    assert (fakeTimers (_environment (resetModules st)) = Some 0) as ->; [|reflexivity].
    unfold resetModules. cbn. destruct (global (_environment st)); cbn; by rewrite Hc.
  - intros ->. eexists _, _. split_and!; reflexivity.
Qed.

End QueryProperties.

(** ** normalizePathSep *)

Lemma includes_cons (needle : string) (c : ascii) (s : string) :
  includes needle (String c s) = String.prefix needle (String c s) || includes needle s.
Proof. reflexivity. Qed.

Lemma replace_slashes_backslash (filePath : string) :
  includes "/" (replace_slashes "\" filePath) = false ∧
  String.length (replace_slashes "\" filePath) = String.length filePath ∧
  replace_slashes "\" (replace_slashes "\" filePath) = replace_slashes "\" filePath.
Proof.
  induction filePath as [|c rest (IH1 & IH2 & IH3)]; [done|].
  cbn [replace_slashes]. destruct (Ascii.eqb c "/") eqn:Hc.
  - change ("\" +:+ ?s) with (String "\" s). split_and!.
    + rewrite includes_cons, IH1. reflexivity.
    + simpl. by rewrite IH2.
    + cbn [replace_slashes]. change (Ascii.eqb "\" "/") with false. cbv iota.
      by rewrite IH3.
  - split_and!.
    + rewrite includes_cons, IH1. cbn [String.prefix].
      destruct (ascii_dec "/" c) as [<-|]; [|done].
      by rewrite Ascii.eqb_refl in Hc.
    + simpl. by rewrite IH2.
    + cbn [replace_slashes]. rewrite Hc. by rewrite IH3.
Qed.

(** X26: on a host whose separator is the backslash, [normalizePathSep]
    leaves no forward slash in a path, keeps its length and is idempotent;
    on a host whose separator is the forward slash it is the identity. *)
Theorem normalizePathSep_properties (filePath : string) :
  includes "/" (normalizePathSep "\" filePath) = false ∧
  String.length (normalizePathSep "\" filePath) = String.length filePath ∧
  normalizePathSep "\" (normalizePathSep "\" filePath) = normalizePathSep "\" filePath ∧
  normalizePathSep "/" filePath = filePath.
Proof.
  unfold normalizePathSep. change (String.eqb "\" "/") with false.
  change (String.eqb "/" "/") with true. cbv iota.
  pose proof (replace_slashes_backslash filePath) as (? & ? & ?). done.
Qed.

(** ** The keys of watch-mode plugins *)

Section WatchProperties.
Context {GlobalConfig : Type}.
Variable chalk_bold_red : string → string.
Variable globalConfig : GlobalConfig.

(** What a registration that went through did to the keys. *)
Lemma checkForConflicts_inr (keys keys' : gmap string (Watch.KeyOwner GlobalConfig))
    (p : Watch.WatchPlugin GlobalConfig) :
  Watch.checkForConflicts chalk_bold_red keys p globalConfig = inr keys' →
  match Watch.getPluginKey p globalConfig with
  | Some k =>
    if String.eqb k "" then keys' = keys
    else keys' = <[k := Watch.mkKeyOwner None false p]> keys ∧
         ∀ c, keys !! k = Some c → Watch.overwritable c = true
  | None => keys' = keys
  end.
Proof.
  unfold Watch.checkForConflicts.
  destruct (Watch.getPluginKey p globalConfig) as [k|]; simpl; [|congruence].
  destruct (String.eqb k ""); simpl; [congruence|].
  destruct (keys !! k) as [c|]; [|intros [= <-]; by split].
  destruct (Watch.overwritable c) eqn:Hc; [|discriminate].
  intros [= <-]. split; [done|]. by intros ? [= <-].
Qed.

(** X27: [checkForConflicts] gives a key to a plugin only if no plugin holds
    it or the holder is overwritable, and the new holder is never
    overwritable: a key reserved for a built-in plugin is refused, and so
    is a key that another configured plugin has already been given. *)
Theorem checkForConflicts_refuses_taken_keys
    (keys : gmap string (Watch.KeyOwner GlobalConfig))
    (p : Watch.WatchPlugin GlobalConfig) (k : string) :
  Watch.getPluginKey p globalConfig = Some k → k ≠ "" →
  (∀ c, keys !! k = Some c → Watch.overwritable c = false →
     ∃ e, Watch.checkForConflicts chalk_bold_red keys p globalConfig = inl e) ∧
  (∀ keys' q,
     Watch.checkForConflicts chalk_bold_red keys p globalConfig = inr keys' →
     keys' !! k = Some (Watch.mkKeyOwner None false p) ∧
     (Watch.getPluginKey q globalConfig = Some k →
      ∃ e, Watch.checkForConflicts chalk_bold_red keys' q globalConfig = inl e)).
Proof.
  intros Hk Hne. pose proof (proj2 (String.eqb_neq _ _) Hne) as Hne'. split.
  - intros c Hc Ho. unfold Watch.checkForConflicts. rewrite Hk. simpl.
    rewrite Hne'. simpl. rewrite Hc, Ho. eauto.
  - intros keys' q Hreg. apply checkForConflicts_inr in Hreg.
    rewrite Hk, Hne' in Hreg. destruct Hreg as [-> _].
    split; [apply lookup_insert_eq|].
    intros Hq. unfold Watch.checkForConflicts. rewrite Hq. simpl.
    rewrite Hne'. simpl. rewrite lookup_insert_eq. simpl. eauto.
Qed.

(** X28: when the plugins of the configuration are all registered, every
    key that was not overwritable keeps its holder (a reserved key is never
    reassigned), each configured plugin that asks for a key holds that key
    at the end, no two of them ask for the same key, and the plugins are
    appended in order to the list of watch plugins. *)
Theorem register_plugins_keys (keys keys' : gmap string (Watch.KeyOwner GlobalConfig))
    (wp wp' ps : list (Watch.WatchPlugin GlobalConfig)) :
  Watch.register_plugins chalk_bold_red keys wp ps globalConfig = inr (keys', wp') →
  wp' = (wp ++ ps)%list ∧
  (∀ k c, keys !! k = Some c → Watch.overwritable c = false → keys' !! k = Some c) ∧
  (∀ i p k, ps !! i = Some p → Watch.getPluginKey p globalConfig = Some k → k ≠ "" →
     keys' !! k = Some (Watch.mkKeyOwner None false p) ∧
     (∀ c, keys !! k = Some c → Watch.overwritable c = true) ∧
     ∀ j q, ps !! j = Some q → Watch.getPluginKey q globalConfig = Some k → j = i).
Proof.
  revert keys keys' wp wp'.
  induction ps as [|p ps IH]; intros keys keys' wp wp'; simpl.
  - intros [= <- <-]. rewrite app_nil_r. split_and!; [done|done|].
    intros i p k Hp. by rewrite lookup_nil in Hp.
  - destruct (Watch.checkForConflicts chalk_bold_red keys p globalConfig) as [e|keys1]
      eqn:Hreg; [discriminate|].
    intros Hrest. apply checkForConflicts_inr in Hreg.
    destruct (IH _ _ _ _ Hrest) as (Hwp & Hkept & Hown).
    assert (∀ k c, keys !! k = Some c → Watch.overwritable c = false →
                   keys1 !! k = Some c) as Hkept1.
    { intros k c Hc Ho.
      destruct (Watch.getPluginKey p globalConfig) as [kp|]; [|by subst].
      destruct (String.eqb kp ""); [by subst|].
      destruct Hreg as [-> Hover].
      destruct (decide (kp = k)) as [->|]; [|by rewrite lookup_insert_ne].
      specialize (Hover c Hc). congruence. }
    split_and!.
    + rewrite Hwp, <- app_assoc. reflexivity.
    + intros k c Hc Ho. eauto.
    + intros [|i] q k Hq Hk Hne; simpl in Hq.
      * injection Hq as <-. rewrite Hk in Hreg.
        rewrite (proj2 (String.eqb_neq _ _) Hne) in Hreg. destruct Hreg as [-> Hover].
        assert (<[k := Watch.mkKeyOwner None false p]> keys !! k
                = Some (Watch.mkKeyOwner None false p)) as Hmine
          by apply lookup_insert_eq.
        split_and!.
        -- exact (Hkept k _ Hmine eq_refl).
        -- exact Hover.
        -- intros [|j] q Hq Hkq; [done|]. simpl in Hq.
           destruct (Hown j q k Hq Hkq Hne) as (_ & Hover' & _).
           specialize (Hover' _ Hmine). discriminate.
      * destruct (Hown i q k Hq Hk Hne) as (Hmine & Hover & Huniq).
        split_and!.
        -- exact Hmine.
        -- intros c Hc. destruct (Watch.overwritable c) eqn:Ho; [done|].
           specialize (Hover c (Hkept1 k c Hc Ho)). congruence.
        -- intros [|j] q' Hq' Hkq'; simpl in Hq'.
           ++ injection Hq' as <-. rewrite Hkq' in Hreg.
              rewrite (proj2 (String.eqb_neq _ _) Hne) in Hreg. destruct Hreg as [-> _].
              specialize (Hover _ (lookup_insert_eq _ _ _)). discriminate.
           ++ f_equal. eauto.
Qed.

End WatchProperties.

(** * The properties on the small project *)

#[local] Existing Instances demo_resolver demo_transformer demo_mocker demo_host.

Lemma demo_runtime_well_formed : well_formed (layers demo_runtime).
Proof. vm_compute. repeat split; try lia; discriminate. Qed.

(** ** The scenarios of the specification *)

(** Simple require: [test.js] exports [{x: 1}]. *)
Example simple_require_scenario :
  let r := requireModule (demo 30) "/p/test.js" None None false demo_runtime in
  fst r = Ok (VObj 0) ∧
  default ∅ (objects (snd r) !! 0) !! "x" = Some (VNum 1).
Proof. vm_compute. repeat split. Qed.

(** Mock precedence: a factory, a set mock, and an unmocked request. *)
Example mock_precedence_scenario :
  let require_after setup :=
    fst (bind (exec_stmts (demo 30) demo_scope setup)
              (λ _, eval_expr (demo 30) demo_scope (ERequire "./one")) demo_runtime) in
  require_after [SJestMock "./one" (Some (EValue (VNum 42))) false] = Ok (VNum 42) ∧
  require_after [SJestSetMock "./one" (EValue (VNum 7))] = Ok (VNum 7) ∧
  require_after [SJestSetMock "./one" (EValue (VNum 7)); SJestUnmock "./one"] = Ok (VNum 1).
Proof. vm_compute. repeat split. Qed.

(** Isolation: the module required inside the scope and the one required
    after it are two instances. *)
Example isolation_scenario :
  let r :=
    bind (exec_stmts (demo 30) demo_scope [SJestIsolateModules [SExpr (ERequire "./m")]])
         (λ _, eval_expr (demo 30) demo_scope (ERequire "./m")) demo_runtime in
  fst r = Ok (VObj 1) ∧
  executed (snd r) = ["/p/m.js"; "/p/m.js"] ∧
  exports (module_at (snd r) 0) = VObj 0 ∧
  exports (module_at (snd r) 1) = VObj 1.
Proof. vm_compute. repeat split. Qed.

(** Vendored unmock: with auto-mock on and the unmock regex matching
    [node_modules/left-pad], the package and the file it requires are both
    the real modules. *)
Example vendored_unmock_scenario :
  let r := eval_expr (demo_automock 30) demo_scope (ERequire "left-pad") demo_automock_runtime in
  fst r = Ok (VObj 0) ∧
  executed (snd r)
  = ["/p/node_modules/left-pad/index.js"; "/p/node_modules/left-pad/util.js"] ∧
  default ∅ (objects (snd r) !! 0) !! "u" = Some (VObj 1) ∧
  default ∅ (objects (snd r) !! 1) !! "pad" = Some (VNum 2).
Proof. vm_compute. repeat split. Qed.

(** ** The mock decision *)

(** A virtual mock of a module that no file backs is decided by the first
    rule, although the request does not resolve.  After
    [jest.deepUnmock('./a')], the request of [./b] from [a.js] resolves and
    is decided by the transitive-unmock rule, which records it. *)
Lemma shouldMock_rule_order_witness :
  (let st := snd (exec_stmts (demo 30) demo_scope
                    [SJestMock "./virt" (Some (EValue (VNum 5))) true] demo_runtime) in
   (∃ e, _resolveModule "/p/test.js" (Some "./virt") = inl e) ∧
   _shouldMock "/p/test.js" "./virt" st = (Ok true, st)) ∧
  (let r := _shouldMock "/p/a.js" "./b" demo_deep_unmocked in
   _resolveModule "/p/a.js" (Some "./b") = inr "/p/b.js" ∧
   fst r = Ok false ∧
   _transitiveShouldMock (snd r) !! "/p/b.js" = Some false ∧
   _shouldMockModuleCache (snd r) !! "/p/b.js" = None).
Proof.
  split.
  - intros st. split; [eexists; reflexivity|].
    refine (proj1 (shouldMock_rule_order "/p/test.js" "./virt" st) _).
    vm_compute; reflexivity.
  - intros r. split; [reflexivity|].
    destruct (shouldMock_rule_order "/p/a.js" "./b" demo_deep_unmocked)
      as (_ & Hvirtual & _).
    destruct (Hvirtual ltac:(vm_compute; reflexivity)) as [_ Hexplicit].
    destruct (Hexplicit ltac:(vm_compute; reflexivity)) as [_ Hoff].
    destruct (Hoff ltac:(vm_compute; reflexivity)) as [_ Hmemo].
    destruct (Hmemo ltac:(vm_compute; reflexivity)) as [_ Hresolved].
    destruct (Hresolved "/p/b.js" eq_refl) as [_ Hlisted].
    destruct (Hlisted ltac:(vm_compute; reflexivity)) as [Hrecord _].
    specialize (Hrecord ltac:(vm_compute; reflexivity)).
    subst r. rewrite Hrecord. split_and!; vm_compute; reflexivity.
Defined.

(** C1, as the specification orders and words the rules, does not hold.
    The constructor marks a setup file under [node_modules] as transitively
    unmocked; a request of that file for a sibling it has not required yet
    is answered false by the code (the current module is marked
    transitively unmocked), where the listed rules, with no unmock regex
    and no explicit unmock, answer true.  And for a request inside
    [node_modules/left-pad], which the unmock regex matches, the code
    memoizes false where the listed rules would record the module as
    transitively unmocked.  And a request that nothing resolves and that
    has no manual mock makes the code throw the resolution error, where
    the listed rules, whatever path they are given, return a decision. *)
Lemma shouldMock_as_specified_counterexample :
  (let from := "/p/node_modules/setup/index.js" in
   let resolved := "/p/node_modules/setup/other.js" in
   executed demo_setup_runtime = [from; "/p/node_modules/setup/dep.js"] ∧
   _resolveModule from (Some "./other") = inr resolved ∧
   fst (_shouldMock from "./other" demo_setup_runtime) = Ok false ∧
   fst (shouldMock_as_specified from "./other" resolved demo_setup_runtime) = Ok true) ∧
  (let from := "/p/node_modules/left-pad/index.js" in
   let resolved := "/p/node_modules/left-pad/util.js" in
   let code := snd (_shouldMock from "./util" demo_automock_runtime) in
   let listed := snd (shouldMock_as_specified from "./util" resolved demo_automock_runtime) in
   _resolveModule from (Some "./util") = inr resolved ∧
   _shouldMockModuleCache code !! resolved = Some false ∧
   _transitiveShouldMock code !! resolved = None ∧
   _shouldMockModuleCache listed !! resolved = None ∧
   _transitiveShouldMock listed !! resolved = Some false) ∧
  (let from := "/p/test.js" in
   (∃ e, _resolveModule from (Some "nothing") = inl e ∧
         _shouldMock from "nothing" demo_automock_runtime
         = (Throw e, demo_automock_runtime)) ∧
   ∀ resolved,
     ∃ b, fst (shouldMock_as_specified from "nothing" resolved demo_automock_runtime)
          = Ok b).
Proof.
  split_and!; [vm_compute; repeat split.. |].
  split; [eexists; split; vm_compute; reflexivity|].
  intros resolved. unfold shouldMock_as_specified, first_match.
  repeat match goal with
  | |- context [if ?c then _ else _] => destruct c
  end; eexists; reflexivity.
Qed.

(** A request with a manual mock and no resolvable module is answered
    true and memoized; a request with neither throws the resolver's error
    and leaves the runtime as it was. *)
Lemma shouldMock_resolution_failure_witness :
  (let r := _shouldMock "/p/test.js" "ghost" demo_automock_runtime in
   fst r = Ok true ∧
   _shouldMockModuleCache demo_automock_runtime !! "/p/node_modules/ghost/index.js" = None ∧
   _shouldMockModuleCache (snd r) !! "/p/node_modules/ghost/index.js" = Some true) ∧
  (let e := mkError (Some "MODULE_NOT_FOUND") "Cannot find module 'nothing' from '/p/test.js'" in
   _resolveModule "/p/test.js" (Some "nothing") = inl e ∧
   _shouldMock "/p/test.js" "nothing" demo_automock_runtime
   = (Throw e, demo_automock_runtime)).
Proof.
  split.
  - intros r.
    destruct (proj1 (shouldMock_resolution_failure "/p/test.js" "ghost"
                       demo_automock_runtime
                       (mkError (Some "MODULE_NOT_FOUND")
                          "Cannot find module 'ghost' from '/p/test.js'")
                       ltac:(vm_compute; reflexivity) ltac:(vm_compute; reflexivity)
                       ltac:(vm_compute; reflexivity) ltac:(vm_compute; reflexivity)
                       ltac:(vm_compute; discriminate) ltac:(vm_compute; reflexivity)
                       ltac:(vm_compute; reflexivity))
                ltac:(vm_compute; reflexivity)) as (Hanswer & Hmemo & _).
    split_and!; [exact Hanswer | vm_compute; reflexivity | exact Hmemo].
  - intros e. split; [vm_compute; reflexivity|].
    refine (proj2 (shouldMock_resolution_failure "/p/test.js" "nothing"
                     demo_automock_runtime e _ _ _ _ _ _ _) _);
      try (vm_compute; reflexivity).
    vm_compute. discriminate.
Defined.

(** ** require.resolve.paths *)

Lemma requireResolvePaths_cases_witness :
  path_resolve ["/p/a.js"; ".."] = path_dirname "/p/a.js" ∧
  _requireResolvePaths "/p/a.js" (Some "./b") = inr (Some ["/p"]) ∧
  _requireResolvePaths "/p/a.js" (Some "fs") = inr None ∧
  _requireResolvePaths "/p/a.js" (Some "left-pad") = inr (Some ["/p/node_modules"]).
Proof.
  assert (path_resolve ["/p/a.js"; ".."] = path_dirname "/p/a.js") as Hdir by reflexivity.
  destruct (requireResolvePaths_cases "/p/a.js" Hdir) as (_ & _ & Hcases).
  split; [exact Hdir|]. split_and!.
  - exact (proj1 (Hcases "."%char "/b") eq_refl).
  - refine (proj1 (proj2 (Hcases "f"%char "s")) _ _); [discriminate|reflexivity].
  - refine (proj2 (proj2 (Hcases "l"%char "eft-pad")) _ _); [discriminate|reflexivity].
Defined.

(** ** Auto-mock generation *)

(** Generating the auto-mock of [./m] from a test leaves the main registry
    empty, although [m.js] has been executed. *)
Example generateMock_on_fresh_registries :
  let r := _generateMock (demo 30) "/p/test.js" "./m" demo_runtime in
  well_formed (layers demo_runtime) ∧
  executed (snd r) = ["/p/m.js"] ∧
  moduleRegistries (snd r) !! _moduleRegistry demo_runtime
  = moduleRegistries demo_runtime !! _moduleRegistry demo_runtime.
Proof.
  intros r. split; [exact demo_runtime_well_formed|]. split; [vm_compute; reflexivity|].
  refine (proj1 (generateMock_leaves_main_registry demo_config 30 "/p/test.js" "./m"
                   demo_runtime (snd r) (fst r) demo_runtime_well_formed _)).
  vm_compute; reflexivity.
Defined.

(** C7 fails on the code, in two ways.  [_generateMock] replaces the main
    registries only, and [requireModule] prefers the isolated module
    registry to a main registry that does not hold the path: inside an
    [isolateModules] scope the real module is therefore registered in the
    isolated registry, the one the requires of the test read, and a later
    [require('./m')] in the scope is answered with the instance the
    generation executed: in
    [isolateModules(() => { jest.genMockFromModule('./m'); require('./m') })]
    the body of [m.js] runs once.  And the two registries are restored
    only after [requireModule] has returned: when the real module throws,
    the temporary registries, with the module in them, stay selected as
    the main ones. *)
Lemma generateMock_leaks_into_test_registry :
  (let st := enter_isolation demo_runtime in
   let i := length (moduleRegistries demo_runtime) in
   let r := _generateMock (demo 30) "/p/test.js" "./m" st in
   let again := requireModule (demo 30) "/p/test.js" (Some "./m") None false (snd r) in
   _isolatedModuleRegistry st = Some i ∧
   registry st i !! "/p/m.js" = None ∧
   fst r = Ok (VObj 2) ∧
   _isolatedModuleRegistry (snd r) = Some i ∧
   registry (snd r) i !! "/p/m.js" = Some 0 ∧
   executed (snd r) = ["/p/m.js"] ∧
   fst again = Ok (exports (module_at (snd r) 0)) ∧
   executed (snd again) = ["/p/m.js"]) ∧
  (let fn := [SExpr (EGenMockFromModule "./m"); SExpr (ERequire "./m")] in
   let r := isolateModules (exec_stmts (demo 30) demo_scope fn) demo_runtime in
   fst r = Ok tt ∧ executed (snd r) = ["/p/m.js"]) ∧
  (let st := demo_runtime in
   let r := _generateMock (demo 30) "/p/test.js" "./boom" st in
   fst r = Throw (Error "boom") ∧
   _moduleRegistry (snd r) = length (moduleRegistries st) ∧
   _moduleRegistry (snd r) ≠ _moduleRegistry st ∧
   registry (snd r) (_moduleRegistry (snd r)) !! "/p/boom.js" = Some 0 ∧
   _mockRegistry (snd r) = length (mockRegistries st) ∧
   _mockRegistry (snd r) ≠ _mockRegistry st).
Proof. vm_compute. repeat split; discriminate. Qed.

(** ** Isolation scopes *)

(** [isolateModules(() => { require('./m') })]: the module is loaded inside
    the scope and is absent from the main registry afterwards. *)
Lemma isolateModules_scope_witness :
  let run := exec_stmts (demo 30) demo_scope [SExpr (ERequire "./m")] in
  let st2 := snd (run (enter_isolation demo_runtime)) in
  let st' := leave_isolation st2 in
  isolateModules run demo_runtime = (Ok tt, st') ∧
  executed st' = ["/p/m.js"] ∧
  registry st' (_moduleRegistry st') !! "/p/m.js" = None.
Proof.
  intros run st2 st'.
  destruct (proj2 (isolateModules_scope demo_config 30 demo_scope [SExpr (ERequire "./m")]
                     demo_runtime) eq_refl eq_refl) as (_ & _ & _ & _ & Hscope).
  destruct (Hscope st2 ltac:(vm_compute; reflexivity)) as (Hrun & _ & _ & Hmain).
  split; [exact Hrun|]. split; [vm_compute; reflexivity|].
  apply Hmain; [exact demo_runtime_well_formed | vm_compute; reflexivity | vm_compute; reflexivity].
Defined.

(** C5, as stated, does not hold: in
    [isolateModules(() => { jest.resetModules(); require('./m') })] the
    reset drops the isolated registries, and the module loaded inside the
    scope is in the main registry after it. *)
Lemma isolateModules_counterexample :
  let run := exec_stmts (demo 30) demo_scope [SJestResetModules; SExpr (ERequire "./m")] in
  let r := isolateModules run demo_runtime in
  registry demo_runtime (_moduleRegistry demo_runtime) !! "/p/m.js" = None ∧
  fst r = Ok tt ∧
  executed (snd r) = ["/p/m.js"] ∧
  registry (snd r) (_moduleRegistry (snd r)) !! "/p/m.js" = Some 0.
Proof. vm_compute. repeat split. Qed.

(** ** Loading and re-entering modules *)

(** [m.js] is loaded from the test, which then mocks [./one] and requires
    it and [./a]; a require of [./m] from [a.js] made after that is answered
    with the exports object the first one returned, and executes nothing. *)
Lemma requireModule_identity_witness :
  let first := requireModule (demo 30) "/p/test.js" (Some "./m") None false demo_runtime in
  let code := [SJestMock "./one" (Some (EValue (VNum 42))) false;
               SExpr (ERequire "./one"); SExpr (ERequire "./a")] in
  let between := exec_stmts (demo 30) demo_scope code (snd first) in
  fst first = Ok (VObj 0) ∧
  executed (snd between) = ["/p/m.js"; "/p/a.js"; "/p/b.js"] ∧
  requireModule (demo 30) "/p/a.js" (Some "./m") None false (snd between)
  = (Ok (VObj 0), snd between).
Proof.
  intros first code between.
  split; [vm_compute; reflexivity|]. split; [vm_compute; reflexivity|].
  destruct (requireModule_identity demo_config 30 30 30 "/p/test.js" "/p/a.js"
              (Some "./m") (Some "./m") false false demo_scope code (fst between)
              demo_runtime (snd first) (snd between) (VObj 0) "/p/m.js")
    as (m & Hreg & _ & _ & Hsame);
    [vm_compute; reflexivity.. |].
  vm_compute in Hreg. injection Hreg as <-.
  apply Hsame. vm_compute; reflexivity.
Defined.

(** C4, as stated, does not hold.  [left-pad/util.js] is loaded into the
    main registry; no [resetModules] follows.  While the auto-mock of
    [left-pad] is generated, [left-pad/index.js] requires [./util]: the
    generation has put fresh registries in place, so the body of [util.js]
    is executed a second time and the require returns the exports of the
    second instance, stored by [index.js] as its [u].  And when code of a
    loaded module reassigns [module.exports] after the load, the second
    require returns the new value, not the object the first one returned. *)
Lemma requireModule_identity_counterexample :
  (let util := "/p/node_modules/left-pad/util.js" in
   let index := "/p/node_modules/left-pad/index.js" in
   let first := requireModule (demo 30) index (Some "./util") None false demo_runtime in
   let r := _generateMock (demo 30) "/p/test.js" "left-pad" (snd first) in
   fst first = Ok (VObj 0) ∧
   registry (snd first) (_moduleRegistry (snd first)) !! util = Some 0 ∧
   executed (snd first) = [util] ∧
   executed (snd r) = [util; index; util] ∧
   filename (module_at (snd r) 1) = index ∧
   exports (module_at (snd r) 1) = VObj 2 ∧
   default ∅ (objects (snd r) !! 2) !! "u" = Some (VObj 3)) ∧
  (let first := requireModule (demo 30) "/p/test.js" (Some "./m") None false demo_runtime in
   let later := exec_stmts (demo 30) (mkScope 0 (VObj 0) "/p/m.js" false)
                  [SAssignModuleExports (EValue (VNum 9))] (snd first) in
   let second := requireModule (demo 30) "/p/test.js" (Some "./m") None false (snd later) in
   fst first = Ok (VObj 0) ∧
   _moduleRegistry (snd later) = _moduleRegistry demo_runtime ∧
   fst second = Ok (VNum 9) ∧
   executed (snd second) = ["/p/m.js"]).
Proof. vm_compute. repeat split. Qed.

(** Loading [a.js]: before its body runs, the module is registered with an
    empty exports object. *)
Lemma requireModule_registers_first_witness :
  let st_pre := registry_insert 2 "/p/a.js" 0 (snd (new_module "/p/a.js" demo_runtime)) in
  registry st_pre 2 !! "/p/a.js" = Some 0 ∧
  module_at st_pre 0 = mkModule [] (VObj 0) "/p/a.js" "/p/a.js" false None None None ∧
  objects st_pre !! 0 = Some ∅.
Proof.
  intros st_pre.
  destruct (requireModule_registers_first demo_config 30 "/p/a.js" None None false
              demo_runtime "/p/a.js" demo_runtime_well_formed eq_refl eq_refl)
    as (H1 & H2 & H3 & _); try (vm_compute; reflexivity); try (vm_compute; discriminate).
  split_and!; [exact H1 | exact H2 | exact H3].
Defined.

(** C3, as stated, does not hold: [gen.js] generates the auto-mock of
    [./back], and [back.js] requires [./gen] while [gen.js] is still
    executing.  The generation runs on fresh registries, so the cyclic
    require does not find [gen.js]: it executes the body a second time and
    hands [back.js] the exports of that second instance (object 3), not the
    partial exports of the module being loaded (object 0). *)
Lemma requireModule_cycle_counterexample :
  let r := requireModule (demo 30) "/p/gen.js" None None false demo_runtime in
  fst r = Ok (VObj 0) ∧
  executed (snd r) = ["/p/gen.js"; "/p/back.js"; "/p/gen.js"] ∧
  filename (module_at (snd r) 0) = "/p/gen.js" ∧
  exports (module_at (snd r) 0) = VObj 0 ∧
  filename (module_at (snd r) 1) = "/p/back.js" ∧
  exports (module_at (snd r) 1) = VObj 2 ∧
  default ∅ (objects (snd r) !! 2) !! "seen" = Some (VObj 3).
Proof. vm_compute. repeat split. Qed.

(** The cycle of the specification's scenario: [a.js] sets [a], requires
    [b.js], which reads [a] and the not yet assigned [b] from the partial
    exports of [a.js]. *)
Example cycle_scenario :
  let r := requireModule (demo 30) "/p/a.js" None None false demo_runtime in
  let a := default ∅ (objects (snd r) !! 0) in
  let b := default ∅ (objects (snd r) !! 1) in
  fst r = Ok (VObj 0) ∧
  a !! "a" = Some (VNum 1) ∧ a !! "b" = Some (VObj 1) ∧
  b !! "pre" = Some (VNum 1) ∧ b !! "post" = Some VUndefined ∧
  executed (snd r) = ["/p/a.js"; "/p/b.js"].
Proof. vm_compute. repeat split. Qed.

(** ** Teardown *)

(** Loading [m.js] after the global has been disposed. *)
Lemma requireModule_after_teardown_witness :
  ∃ st', requireModule (demo 1) "/p/m.js" None None false demo_disposed = (Ok (VObj 0), st') ∧
         objects st' !! 0 = Some ∅ ∧
         console_error st' = console_error demo_disposed ∧
         process_exitCode st' = process_exitCode demo_disposed ∧
         executed st' = executed demo_disposed.
Proof.
  refine (proj1 (requireModule_after_teardown demo_config 0 "/p/m.js" None None false
                   demo_disposed "/p/m.js" _ eq_refl eq_refl _ _ _) eq_refl).
  - vm_compute. repeat split; try lia; discriminate.
  - vm_compute; reflexivity.
  - vm_compute; discriminate.
  - vm_compute; discriminate.
Defined.

(** C2, as stated, does not hold: with the global disposed, the require of
    [m.js] returns the module's exports object, not [undefined], nothing is
    logged and the exit code stays unset. *)
Lemma requireModule_after_teardown_counterexample :
  let r := requireModule (demo 30) "/p/m.js" None None false demo_disposed in
  global (_environment demo_disposed) = None ∧
  fst r = Ok (VObj 0) ∧ fst r ≠ Ok VUndefined ∧
  console_error (snd r) = [] ∧
  process_exitCode (snd r) = None.
Proof. vm_compute. repeat split. discriminate. Qed.

(** ** Reset *)


(** ** Ambient state of the executor *)

(** C8 fails on the code: [_execModule] restores the executing path and the
    manual-mock marker only on the path where the wrapper returns.  When
    the module body throws, and when [runScript] returns [null], both keep
    the value the call gave them. *)
Lemma execModule_ambient_state_not_restored :
  _currentlyExecutingModulePath demo_runtime = "" ∧
  _isCurrentlyExecutingManualMock demo_runtime = None ∧
  (let r := requireModule (demo 30) "/p/boom.js" None None false demo_runtime in
   fst r = Throw (Error "boom") ∧
   _currentlyExecutingModulePath (snd r) = "/p/boom.js" ∧
   _isCurrentlyExecutingManualMock (snd r) = Some "/p/boom.js") ∧
  (let r := requireModule (demo 30) "/p/m.js" None None false demo_torn_down in
   _currentlyExecutingModulePath demo_torn_down = "" ∧
   fst r = Ok (VObj 0) ∧
   _currentlyExecutingModulePath (snd r) = "/p/m.js" ∧
   _isCurrentlyExecutingManualMock (snd r) = Some "/p/m.js").
Proof. vm_compute. repeat split. Qed.

(** ** The further properties on the small project *)

(** After [jest.mock('./a')] in the test file, the request of [./a] from
    [b.js], which has the same module id, is mocked. *)
Lemma explicit_mock_decides_witness :
  let st' := jest_mock "/p/test.js" "./a" None false demo_runtime in
  _shouldMock "/p/b.js" "./a" st' = (Ok true, st').
Proof.
  apply (explicit_mock_decides "/p/test.js" "./a" "/p/b.js" "./a" None false demo_runtime).
  vm_compute; reflexivity.
Defined.

(** With auto-mock on, [jest.unmock('./a')] and [jest.deepUnmock('./a')] in
    the test file unmock the request of [./a] from [b.js]. *)
Lemma explicit_unmock_decides_witness :
  _shouldMock "/p/b.js" "./a" (jest_unmock "/p/test.js" "./a" demo_automock_runtime)
  = (Ok false, jest_unmock "/p/test.js" "./a" demo_automock_runtime) ∧
  _shouldMock "/p/b.js" "./a" (jest_deepUnmock "/p/test.js" "./a" demo_automock_runtime)
  = (Ok false, jest_deepUnmock "/p/test.js" "./a" demo_automock_runtime).
Proof.
  apply (explicit_unmock_decides "/p/test.js" "./a" "/p/b.js" "./a" demo_automock_runtime).
  vm_compute; reflexivity.
Defined.

(** With auto-mock on, [require('fs')] is the host's module. *)
Lemma require_core_module_witness :
  requireModuleOrMock demo_automock_config (demo_automock 1) "/p/test.js" "fs"
    demo_automock_runtime
  = (Ok (VHost "fs"), demo_automock_runtime).
Proof.
  apply (require_core_module demo_automock_config 0 "/p/test.js" "fs" (VHost "fs")
           demo_automock_runtime).
  - discriminate.
  - reflexivity.
  - vm_compute; reflexivity.
  - vm_compute; reflexivity.
  - reflexivity.
Defined.

(** [require('./nope')] of a file that does not exist. *)
Lemma require_unresolvable_witness :
  requireModuleOrMock demo_config (demo 1) "/p/test.js" "./nope" demo_runtime
  = (Throw (mkError (Some "MODULE_NOT_FOUND")
              "Cannot find module './nope' from '/p/test.js'"), demo_runtime).
Proof.
  etrans.
  - apply (require_unresolvable demo_config 0 "/p/test.js" "./nope"
             (mkError (Some "MODULE_NOT_FOUND")
                "Cannot find module './nope' from '/p/test.js'")
             demo_runtime).
    + discriminate.
    + reflexivity.
    + vm_compute; reflexivity.
    + reflexivity.
    + vm_compute; reflexivity.
    + split; vm_compute; reflexivity.
  - vm_compute; reflexivity.
Defined.

(** [jest.mock('./one', () => 42)] in the test file: the first [require]
    calls the factory and stores 42, the second finds it. *)
Lemma mock_factory_called_once_witness :
  let f := mkFactory (EValue (VNum 42)) demo_scope in
  let st1 := jest_mock "/p/test.js" "./one" (Some f) false demo_runtime in
  let r := requireModuleOrMock demo_config (methods demo_config 2) "/p/test.js" "./one" st1 in
  fst r = Ok (VNum 42) ∧
  mock_registry (snd r) (_mockRegistry (snd r)) !! "/p/one.js" = Some (VNum 42) ∧
  fst (requireMock (demo 0) "/p/test.js" "./one" (snd r)) = Ok (VNum 42).
Proof.
  intros f st1 r.
  destruct (mock_factory_called_once demo_config 0 "/p/test.js" "./one" f false
              demo_runtime st1 (VNum 42)) as [W1 W2].
  - split; vm_compute; reflexivity.
  - reflexivity.
  - unfold r, st1. rewrite W1. cbn [fst snd]. split_and!.
    + reflexivity.
    + vm_compute; reflexivity.
    + rewrite W2; [reflexivity|reflexivity|vm_compute; lia|reflexivity..].
Defined.

(** [boom.js] throws when it is loaded; the next [requireModule] of it
    answers its empty exports. *)
Lemma failed_load_not_retried_witness :
  let r := requireModule (demo 5) "/p/boom.js" None None false demo_runtime in
  fst r = Throw (Error "boom") ∧
  fst (requireModule (demo 0) "/p/boom.js" None None false (snd r)) = Ok (VObj 0).
Proof.
  intros r. split; [vm_compute; reflexivity|].
  rewrite (failed_load_not_retried demo_config 5 "/p/boom.js" None None false demo_runtime
             (snd r) "/p/boom.js" (Error "boom") demo_runtime_well_formed).
  - vm_compute; reflexivity.
  - reflexivity.
  - vm_compute; reflexivity.
  - vm_compute; reflexivity.
  - vm_compute; reflexivity.
  - vm_compute; reflexivity.
  - vm_compute; reflexivity.
Defined.

Section OnJsonHost.
#[local] Existing Instance demo_json_host | 0.

(** [data.json] holds [{}]: the load parses it and runs nothing. *)
Lemma requireModule_json_witness :
  let r := requireModule (demo 0) "/p/data.json" None None false demo_runtime in
  fst r = Ok (VStr "{}") ∧ executed (snd r) = [] ∧
  module_at (snd r) 0
  = mkModule [] (VStr "{}") "/p/data.json" "/p/data.json" true None None None.
Proof.
  intros r.
  pose proof (requireModule_json (demo 0) "/p/data.json" None None false demo_runtime
                "/p/data.json" demo_runtime_well_formed) as W.
  destruct W as (_ & _ & W & _); try (vm_compute; reflexivity).
  destruct (W "{}" (VStr "{}")) as (W1 & W2 & W3);
    [vm_compute; eauto|reflexivity|reflexivity|].
  unfold r. rewrite W1. split_and!; [reflexivity|exact W3|exact W2].
Defined.

End OnJsonHost.

(** A second [genMockFromModule('./m')] runs nothing. *)
Lemma generateMock_metadata_once_witness :
  let r := _generateMock (demo 30) "/p/test.js" "./m" demo_runtime in
  let r' := _generateMock (demo 0) "/p/test.js" "./m" (snd r) in
  executed (snd r) = ["/p/m.js"] ∧
  (∃ v, fst r' = Ok v) ∧ executed (snd r') = ["/p/m.js"].
Proof.
  intros r r'. split; [vm_compute; reflexivity|].
  destruct (generateMock_metadata_once (demo 30) (demo 0) "/p/test.js" "./m" demo_runtime
              (snd r) (VObj 2)) as (modulePath & md & _ & _ & W).
  { vm_compute; reflexivity. }
  unfold r'. rewrite W.
  destruct (generateFromMetadata_opt md (objects (snd r))) as [v objs].
  split; [eauto|]. vm_compute; reflexivity.
Defined.

(** [m.js] loaded as an internal module is still there after a reset. *)
Lemma internal_modules_survive_reset_witness :
  let st := snd (requireModule (demo 5) "/p/m.js" None internal_options false demo_runtime) in
  executed st = ["/p/m.js"] ∧
  requireInternalModule (demo 1) "/p/m.js" None (resetModules st)
  = (Ok (VObj 0), resetModules st).
Proof.
  intros st. split; [vm_compute; reflexivity|].
  etrans.
  - apply (internal_modules_survive_reset demo_config 0 "/p/m.js" None st "/p/m.js" 0).
    all: vm_compute; reflexivity.
  - vm_compute; reflexivity.
Defined.

(** The decision for [./m] with auto-mock on is memoized: asked again, the
    answer is the same and nothing changes. *)
Lemma shouldMock_stable_witness :
  let r := _shouldMock "/p/test.js" "./m" demo_automock_runtime in
  fst r = Ok true ∧ _shouldMock "/p/test.js" "./m" (snd r) = (Ok true, snd r).
Proof.
  intros r. split; [vm_compute; reflexivity|].
  apply (shouldMock_stable "/p/test.js" "./m" demo_automock_runtime (snd r) true).
  vm_compute; reflexivity.
Defined.

(** The project asks for the global [Math], which the sandbox lacks:
    [m.js] is not run. *)
Lemma execModule_missing_extra_global_witness :
  let st := snd (new_module "/p/m.js" demo_runtime) in
  ∃ st',
    _execModule demo_globals_config (demo 5) 0 None (ModuleRegistry 1) None st
    = (Throw (Error "You have requested 'Math' as a global variable, but it was not present. Please check your config or your global environment."),
       st') ∧
    executed st' = executed st.
Proof.
  intros st.
  apply (execModule_missing_extra_global demo_globals_config (demo 5) 0 None
           (ModuleRegistry 1) None st ∅
           (mkTransformResult [SAssignMember EExports "v" (EValue (VNum 7))] None false)
           "Math").
  all: vm_compute; reflexivity.
Defined.

(** [jest.requireActual('./one')] after [jest.mock('./one', () => 42)]. *)
Lemma requireActual_answers_real_module_witness :
  let st := jest_mock "/p/test.js" "./one"
              (Some (mkFactory (EValue (VNum 42)) demo_scope)) false demo_runtime in
  let r := requireActual (demo 6) "/p/test.js" "./one" st in
  fst r = Ok (VNum 1) ∧
  ∃ m, registry (snd r) (select_registry None "/p/one.js" st) !! "/p/one.js" = Some m ∧
       VNum 1 = exports (module_at (snd r) m).
Proof.
  intros st r. split; [vm_compute; reflexivity|].
  apply (requireActual_answers_real_module demo_config 5 "/p/test.js" "./one" st (snd r)).
  all: vm_compute; reflexivity.
Defined.

(** [require('ghost')]: no such module, but a manual mock in [__mocks__]. *)
Lemma manual_mock_used_without_mocking_witness :
  let r := requireModuleOrMock demo_config (demo 6) "/p/test.js" "ghost" demo_runtime in
  executed (snd r) = ["/p/__mocks__/ghost.js"] ∧
  ∃ m, registry (snd r) (select_registry None "/p/__mocks__/ghost.js" demo_runtime)
         !! "/p/__mocks__/ghost.js" = Some m ∧
       VObj 0 = exports (module_at (snd r) m).
Proof.
  intros r. split; [vm_compute; reflexivity|].
  apply (manual_mock_used_without_mocking demo_config 5 "/p/test.js" "ghost"
           "/p/__mocks__/ghost.js" demo_runtime (snd r) (VObj 0)).
  all: try discriminate.
  all: vm_compute; reflexivity.
Defined.

(** The setup file under [node_modules] is marked in the runtime built with
    auto-mock on. *)
Lemma setup_files_transitively_unmocked_witness :
  _transitiveShouldMock demo_setup_runtime !! "/p/node_modules/setup/index.js" = Some false.
Proof.
  refine (setup_files_transitively_unmocked demo_setup_config 30 demo_env
            (fst (constructor demo_setup_config (methods demo_setup_config 30) demo_env))
            demo_setup_runtime "/p/node_modules/setup/index.js" _ eq_refl _ _).
  - vm_compute; reflexivity.
  - apply list_elem_of_here.
  - vm_compute; reflexivity.
Defined.

(** Loading [test.js] after [jest.deepUnmock('./a')] and
    [jest.mock('./m', f, {virtual: true})]. *)
Lemma mock_policy_only_grows_witness :
  let st := jest_mock "/p/test.js" "./m" (Some (mkFactory (EValue (VNum 1)) demo_scope)) true
              demo_deep_unmocked in
  let st' := snd (requireModule (demo_automock 30) "/p/test.js" None None false st) in
  is_Some (_virtualMocks st' !! "/p/m") ∧
  is_Some (_explicitShouldMock st' !! "/p/a.js") ∧
  is_Some (_mockFactories st' !! "/p/m.js") ∧
  _transitiveShouldMock st' !! "/p/a.js" = Some false ∧
  _unmockList st' = Some "node_modules/left-pad".
Proof.
  intros st st'.
  destruct (mock_policy_only_grows demo_automock_config 30 "/p/test.js" None None false st st'
              (fst (requireModule (demo_automock 30) "/p/test.js" None None false st)))
    as (W1 & W2 & W3 & W4 & W5).
  { vm_compute; reflexivity. }
  split_and!.
  - apply W1. vm_compute. eauto.
  - apply W2. vm_compute. eauto.
  - apply W3. vm_compute. eauto.
  - apply W4. vm_compute; reflexivity.
  - rewrite W5. vm_compute; reflexivity.
Defined.

(** A module loaded once the sandbox's context is gone: the exit code
    becomes 1 and one line is logged. *)
Lemma load_process_effects_witness :
  let st' := snd (requireModule (demo 5) "/p/m.js" None None false demo_torn_down) in
  process_exitCode st' = Some 1%Z ∧
  console_error demo_torn_down `prefix_of` console_error st' ∧
  length (console_error st') = 1 ∧
  context (_environment st') = false.
Proof.
  intros st'.
  destruct (load_process_effects demo_config 5 "/p/m.js" None None false demo_torn_down st'
              (fst (requireModule (demo 5) "/p/m.js" None None false demo_torn_down)))
    as (W1 & W2 & W3 & W4 & W5).
  { vm_compute; reflexivity. }
  split_and!.
  - destruct W1 as [W1|W1]; [|exact W1]. vm_compute; reflexivity.
  - exact W2.
  - vm_compute; reflexivity.
  - rewrite W5. reflexivity.
Defined.

Section OnMappingTransformer.
#[local] Existing Instance demo_mapping_transformer | 0.

(** With a transformer that maps coverage, after [test.js] is loaded. *)
Lemma coverage_mapped_files_have_source_maps_witness :
  let st := snd (constructor demo_config (methods demo_config 0) demo_env) in
  let st' := snd (requireModule (methods demo_config 30) "/p/test.js" None None false st) in
  _needsCoverageMapped st' = {["/p/test.js"; "/p/one.js"]} ∧
  (∀ f, f ∈ _needsCoverageMapped st' → is_Some (_sourceMapRegistry st' !! f)).
Proof.
  intros st st'. split; [vm_compute; reflexivity|].
  refine (proj1 (coverage_mapped_files_have_source_maps demo_config 0 30 demo_env
                   "/p/test.js" None None false st st'
                   (fst (constructor demo_config (methods demo_config 0) demo_env))
                   (fst (requireModule (methods demo_config 30) "/p/test.js" None None false st))
                   _ _)).
  all: vm_compute; reflexivity.
Defined.

(** What [getSourceMapInfo] reports of it when only [one.js] is covered. *)
Example getSourceMapInfo_scenario :
  let st := snd (constructor demo_config (methods demo_config 0) demo_env) in
  let st' := snd (requireModule (methods demo_config 30) "/p/test.js" None None false st) in
  getSourceMaps st' !! "/p/test.js" = Some "/p/test.js.map" ∧
  getSourceMapInfo {["/p/one.js"; "/p/m.js"]} st' !! "/p/one.js" = None.
Proof. vm_compute. split; reflexivity. Qed.

End OnMappingTransformer.

(** [jest.mock('./one', () => 42)], a first [require], a reset: the next
    [require] calls the factory again. *)
Lemma factory_called_again_after_reset_witness :
  let f := mkFactory (EValue (VNum 42)) demo_scope in
  let st0 := jest_mock "/p/test.js" "./one" (Some f) false demo_runtime in
  let st := snd (requireModuleOrMock demo_config (demo 2) "/p/test.js" "./one" st0) in
  mock_registry st (_mockRegistry st) !! "/p/one.js" = Some (VNum 42) ∧
  mock_registry (resetModules st) (_mockRegistry (resetModules st)) !! "/p/one.js" = None ∧
  fst (requireModuleOrMock demo_config (demo 2) "/p/test.js" "./one" (resetModules st))
  = Ok (VNum 42).
Proof.
  intros f st0 st. split; [vm_compute; reflexivity|]. split; [vm_compute; reflexivity|].
  pose proof (factory_called_again_after_reset demo_config 0 "/p/test.js" "./one" f st
                (resetModules st) (VNum 42)) as W.
  change (demo 2) with (methods demo_config 2).
  rewrite W; [reflexivity|vm_compute; reflexivity..].
Defined.

(** Loading [test.js], which loads [one.js], into the main registry. *)
Lemma registries_append_only_witness :
  let st := snd (requireModule (demo 30) "/p/m.js" None None false demo_runtime) in
  let st' := snd (requireModule (demo 30) "/p/test.js" None None false st) in
  registry st' 2 !! "/p/m.js" = Some 0 ∧
  executed st' = ["/p/m.js"; "/p/test.js"; "/p/one.js"].
Proof.
  intros st st'. split; [|vm_compute; reflexivity].
  refine (proj1 (registries_append_only demo_config 30 "/p/test.js" None None false st st'
                   (fst (requireModule (demo 30) "/p/test.js" None None false st)) _)
                2 "/p/m.js" 0 _).
  all: vm_compute; reflexivity.
Defined.

(** [m.js] after its load. *)
Lemma loaded_after_successful_load_witness :
  let r := requireModule (demo 5) "/p/m.js" None None false demo_runtime in
  loaded (module_at (snd r) 0) = true ∧
  filename (module_at (snd r) 0) = "/p/m.js" ∧
  VObj 0 = exports (module_at (snd r) 0).
Proof.
  intros r.
  apply (loaded_after_successful_load demo_config 4 "/p/m.js" None None false demo_runtime
           (snd r) "/p/m.js" (VObj 0) demo_runtime_well_formed).
  all: try discriminate.
  all: vm_compute; reflexivity.
Defined.

(** ** require.resolve, timers and paths on the small project *)

Section OnDirectories.
#[local] Existing Instance demo_json_host | 0.
#[local] Existing Instance demo_directory_resolver.

(** [require.resolve('m', {paths: ['lib', '.']})] from the test file: [lib]
    has no [m.js], the directory of the test file has. *)
Example requireResolve_with_paths_scenario :
  _requireResolve "/p/test.js" (Some "m") (Some ["lib"; "."]) = inr "/p/m.js" ∧
  _requireResolve "/p/test.js" (Some "m") (Some [])
  = inl (Error "Cannot resolve module 'm' from paths [''] from /p/test.js") ∧
  _requireResolve "/p/test.js" (Some "ghost") None = inr "/p/__mocks__/ghost.js" ∧
  _requireResolve "/p/test.js" (Some "./one") None = inr "/p/one.js".
Proof. vm_compute. repeat split. Qed.

End OnDirectories.

Example getTimerCount_scenario :
  fst (jest_getTimerCount demo_runtime) = Ok 0 ∧
  fst (jest_getTimerCount demo_torn_down)
  = Throw (TypeError "Cannot read property 'getTimerCount' of undefined") ∧
  process_exitCode (snd (jest_getTimerCount demo_torn_down)) = Some 1%Z.
Proof. vm_compute. repeat split. Qed.

Example normalizePathSep_scenario :
  normalizePathSep "\" "packages/jest-util/src" = "packages\jest-util\src" ∧
  normalizePathSep "/" "packages/jest-util/src" = "packages/jest-util/src".
Proof. vm_compute. split; reflexivity. Qed.

(** ** The keys of watch-mode plugins on four plugins *)

(** The key [u] is reserved for updating snapshots, [p] may be taken once. *)
Lemma checkForConflicts_refuses_taken_keys_witness :
  let keys := WatchDemo.builtin_keys in
  ∃ keys',
    Watch.checkForConflicts WatchDemo.plain keys WatchDemo.first tt = inr keys' ∧
    keys' !! "p" = Some (Watch.mkKeyOwner None false WatchDemo.first) ∧
    ∃ e, Watch.checkForConflicts WatchDemo.plain keys' WatchDemo.first tt = inl e.
Proof.
  intros keys.
  destruct (Watch.checkForConflicts WatchDemo.plain keys WatchDemo.first tt) as [e|keys'] eqn:Hreg;
    [vm_compute in Hreg; discriminate|].
  exists keys'. split; [reflexivity|].
  destruct (checkForConflicts_refuses_taken_keys WatchDemo.plain tt keys WatchDemo.first "p")
    as [_ W]; [reflexivity|discriminate|].
  destruct (W keys' WatchDemo.first Hreg) as [W1 W2].
  split; [exact W1|]. apply W2. reflexivity.
Defined.

Example reserved_key_scenario :
  Watch.checkForConflicts WatchDemo.plain WatchDemo.builtin_keys
    (Watch.mkWatchPlugin (Some "Mine") "Plugin" (WatchDemo.usage "u") None) tt
  = inl (Watch.mkValidationError "Watch plugin configuration error"
           ("Watch plugin Mine attempted to register key <u>," +:+ Watch.newline +:+
            "  that is reserved internally for updating snapshots." +:+ Watch.newline +:+
            "  Please change the configuration key for this plugin.")) ∧
  Watch.overwritable <$> WatchDemo.builtin_keys !! "u" = Some false ∧
  Watch.overwritable <$> WatchDemo.builtin_keys !! "p" = Some true.
Proof. vm_compute. repeat split. Qed.

Lemma register_plugins_keys_witness :
  let keys := WatchDemo.builtin_keys in
  let builtin := [WatchDemo.TestPathPatternPlugin; WatchDemo.UpdateSnapshotsPlugin] in
  let r := Watch.register_plugins WatchDemo.plain keys builtin [WatchDemo.first; WatchDemo.second] tt in
  ∃ keys',
    r = inr (keys', (builtin ++ [WatchDemo.first; WatchDemo.second])%list) ∧
    keys' !! "u" = keys !! "u" ∧
    keys' !! "p" = Some (Watch.mkKeyOwner None false WatchDemo.first) ∧
    keys' !! "s" = Some (Watch.mkKeyOwner None false WatchDemo.second).
Proof.
  intros keys builtin r.
  destruct r as [e|[keys' wp']] eqn:Hreg; [vm_compute in Hreg; discriminate|].
  destruct (register_plugins_keys WatchDemo.plain tt keys keys' builtin wp'
              [WatchDemo.first; WatchDemo.second] Hreg) as (-> & W1 & W2).
  exists keys'. split_and!.
  - reflexivity.
  - rewrite (W1 "u" (Watch.mkKeyOwner (Some "updating snapshots") false
                       WatchDemo.UpdateSnapshotsPlugin)); [|vm_compute; reflexivity..].
    vm_compute; reflexivity.
  - apply (W2 0 WatchDemo.first "p"); [reflexivity|reflexivity|discriminate].
  - apply (W2 1 WatchDemo.second "s"); [reflexivity|reflexivity|discriminate].
Defined.

(** ** Mock registries in isolation *)

Lemma demo_runtime_mock_well_formed : mock_well_formed (mock_layers demo_runtime).
Proof. vm_compute. split; [lia | discriminate]. Qed.

Lemma demo_automock_mock_well_formed :
  mock_well_formed (mock_layers demo_automock_runtime).
Proof. vm_compute. split; [lia | discriminate]. Qed.

(** Under automock, generating the auto-mock of [./a] runs [a.js], whose
    [require('./b')] is answered by an auto-mock in turn: that mock is
    stored in the fresh mock registry of the generation, and the main mock
    registry holds what it held. *)
Lemma generateMock_leaves_main_mock_registry_witness :
  let st := demo_automock_runtime in
  let r := _generateMock (demo_automock 30) "/p/test.js" "./a" st in
  mock_well_formed (mock_layers st) ∧
  mock_registry (snd r) (length (mockRegistries st)) !! "/p/b.js" = Some (VObj 5) ∧
  mockRegistries (snd r) !! _mockRegistry st = mockRegistries st !! _mockRegistry st.
Proof.
  intros st r. split; [exact demo_automock_mock_well_formed|].
  split; [vm_compute; reflexivity|].
  refine (generateMock_leaves_main_mock_registry demo_automock_config 30 "/p/test.js" "./a"
            st (snd r) (fst r) demo_automock_mock_well_formed _).
  vm_compute; reflexivity.
Defined.

(** [isolateModules(() => { jest.requireMock('./m'); throw new Error('stop') })]:
    the auto-mock of [m.js] is stored in the isolated mock registry, and
    the main mock registry holds what it held although the scope was left
    by an error. *)
Lemma isolateModules_keeps_mocks_inside_witness :
  let st := demo_runtime in
  let run := exec_stmts (demo 30) demo_scope [SExpr (ERequireMock "./m"); SThrow "stop"] in
  let r := run (enter_isolation st) in
  fst r = Throw (Error "stop") ∧
  mock_registry (snd r) (length (mockRegistries st)) !! "/p/m.js" = Some (VObj 2) ∧
  ∃ st', isolateModules run st = (fst r, st') ∧
    mockRegistries st' !! _mockRegistry st = mockRegistries st !! _mockRegistry st ∧
    ∀ moduleID v,
      mock_registry st' (_mockRegistry st') !! moduleID = Some v →
      mock_registry st (_mockRegistry st) !! moduleID = Some v.
Proof.
  intros st run r. split; [vm_compute; reflexivity|]. split; [vm_compute; reflexivity|].
  refine (isolateModules_keeps_mocks_inside demo_config 30 demo_scope
            [SExpr (ERequireMock "./m"); SThrow "stop"] st (snd r) (fst r)
            demo_runtime_mock_well_formed eq_refl eq_refl _ _).
  all: vm_compute; reflexivity.
Defined.
